(** * mcp_demo: tools, tool servers and chat loops, embedded in Rocq

    The repository holds five Python scripts: two tool servers
    ([math_server.py], [weather_server.py]) and three agent scripts
    ([1_basic_agent.py], [2_agent_with_mcp.py], [3_weather_agent_mcp.py]).
    Each script is embedded below in a module of its own; the definitions
    keep the names of the Python functions they are translated from.

    What the scripts take from outside the repository is a parameter of the
    model, never a guess:
    - the interpreter's Unicode tables beyond ASCII, the C library's [pow]
      and the built-in [sum] (record [runtime]);
    - the weather provider (an oracle from the requests made so far and a
      URL to a reply);
    - the agent framework and the remote tool client (scripted outcomes);
    - the clock and the text encoding of the log file.

    Python values are modelled as the interpreter has them: [str] is a
    sequence of code points, [float] is IEEE 754 binary64 (the kernel's
    primitive floats), exceptions are values of an error monad. *)

From Stdlib Require Import ZArith NArith List String Ascii Floats Bool Lia.
Import ListNotations.

Set Warnings "-inexact-float,-register-all".

(* ================================================================== *)
(** * Python strings *)
(* ================================================================== *)

Module PyStr.
Local Open Scope N_scope.

(** A Python [str]: the sequence of its Unicode code points. *)
Definition str := list N.

(** Literals are written as Rocq strings, which hold the UTF-8 bytes of
    the source text; [py] decodes them to code points. *)
Fixpoint utf8_decode (bs : list N) : str :=
  match bs with
  | [] => []
  | b :: r =>
    if b <? 128 then b :: utf8_decode r
    else if b <? 224 then
      match r with
      | c1 :: r1 => ((b - 192) * 64 + (c1 - 128)) :: utf8_decode r1
      | _ => [b]
      end
    else if b <? 240 then
      match r with
      | c1 :: c2 :: r2 =>
        ((b - 224) * 4096 + (c1 - 128) * 64 + (c2 - 128)) :: utf8_decode r2
      | _ => [b]
      end
    else
      match r with
      | c1 :: c2 :: c3 :: r3 =>
        ((b - 240) * 262144 + (c1 - 128) * 4096 + (c2 - 128) * 64 + (c3 - 128))
          :: utf8_decode r3
      | _ => [b]
      end
  end.

Definition py (s : string) : str :=
  utf8_decode (map N_of_ascii (list_ascii_of_string s)).
Arguments py s%_string.

(** The encoder, used for the log file's bytes. *)
Definition utf8_encode_cp (c : N) : list N :=
  if c <? 128 then [c]
  else if c <? 2048 then [192 + c / 64; 128 + c mod 64]
  else if c <? 65536 then [224 + c / 4096; 128 + (c / 64) mod 64; 128 + c mod 64]
  else [240 + c / 262144; 128 + (c / 4096) mod 64; 128 + (c / 64) mod 64; 128 + c mod 64].

Definition utf8_encode (s : str) : list N := flat_map utf8_encode_cp s.

(** [==] on strings. *)
Fixpoint eqb (s t : str) : bool :=
  match s, t with
  | [], [] => true
  | c :: s', d :: t' => (c =? d) && eqb s' t'
  | _, _ => false
  end.

(** [x in l] for a list (or the keys of a dict) of strings. *)
Definition mem (x : str) (l : list str) : bool := existsb (eqb x) l.

(** [s.startswith(p)]. *)
Fixpoint startswith (p s : str) : bool :=
  match p, s with
  | [], _ => true
  | c :: p', d :: s' => (c =? d) && startswith p' s'
  | _ :: _, [] => false
  end.

(** [p in s]: [p] occurs in [s] as a substring. *)
Fixpoint contains (p s : str) : bool :=
  startswith p s || match s with [] => false | _ :: s' => contains p s' end.

(** [sep.join(l)]. *)
Fixpoint join (sep : str) (l : list str) : str :=
  match l with
  | [] => []
  | [x] => x
  | x :: r => x ++ sep ++ join sep r
  end.

(** [s.split(sep)] for a one-character separator: never the empty list. *)
Fixpoint split (sep : N) (s : str) : list str :=
  match s with
  | [] => [[]]
  | c :: r =>
    if c =? sep then [] :: split sep r
    else match split sep r with
         | x :: xs => (c :: x) :: xs
         | [] => [[c]]
         end
  end.

(** [s * n] for a one-character string. *)
Definition replicate (n : nat) (c : N) : str := repeat c n.

(** [str.isspace] of one code point: the interpreter's full list. *)
Definition isspace (c : N) : bool :=
  ((9 <=? c) && (c <=? 13)) || ((28 <=? c) && (c <=? 32))
  || (c =? 133) || (c =? 160) || (c =? 5760)
  || ((8192 <=? c) && (c <=? 8202))
  || (c =? 8232) || (c =? 8233) || (c =? 8239) || (c =? 8287) || (c =? 12288).

Fixpoint lstrip (s : str) : str :=
  match s with
  | [] => []
  | c :: r => if isspace c then lstrip r else s
  end.

Definition rstrip (s : str) : str := rev (lstrip (rev s)).

(** [s.strip()]. *)
Definition strip (s : str) : str := rstrip (lstrip s).

(** Case mapping.  On ASCII it is written out; a string with a code
    point beyond ASCII is handed to the interpreter's Unicode tables. *)
Record unicode_db := {
  unicode_lower : str -> str;
  unicode_title : str -> str;
  unicode_decimal : N -> option N;
  unicode_printable : N -> bool
}.

Definition isascii (s : str) : bool := forallb (fun c => c <? 128) s.

Definition is_upper_cp (c : N) : bool := (65 <=? c) && (c <=? 90).
Definition is_lower_cp (c : N) : bool := (97 <=? c) && (c <=? 122).
Definition lower_cp (c : N) : N := if is_upper_cp c then c + 32 else c.
Definition upper_cp (c : N) : N := if is_lower_cp c then c - 32 else c.

Fixpoint title_ascii (previous_is_cased : bool) (s : str) : str :=
  match s with
  | [] => []
  | c :: r =>
    (if previous_is_cased then lower_cp c else upper_cp c)
      :: title_ascii (is_upper_cp c || is_lower_cp c) r
  end.

Section CaseMapping.
Variable db : unicode_db.

(** [s.lower()]. *)
Definition lower (s : str) : str :=
  if isascii s then map lower_cp s else unicode_lower db s.

(** [s.title()]. *)
Definition title (s : str) : str :=
  if isascii s then title_ascii false s else unicode_title db s.

End CaseMapping.

(** A dict with string keys keeps its insertion order: an association
    list.  [find k d] is [d[k]] when [k in d]; [keys d] is [d.keys()]. *)
Fixpoint find {A} (k : str) (d : list (str * A)) : option A :=
  match d with
  | [] => None
  | (k', v) :: r => if eqb k k' then Some v else find k r
  end.

Definition keys {A} (d : list (str * A)) : list str := map fst d.

(** Decimal digits of a natural number, as [str(n)] prints them. *)
Fixpoint uint_digits (u : Decimal.uint) : str :=
  match u with
  | Decimal.Nil => []
  | Decimal.D0 r => 48 :: uint_digits r
  | Decimal.D1 r => 49 :: uint_digits r
  | Decimal.D2 r => 50 :: uint_digits r
  | Decimal.D3 r => 51 :: uint_digits r
  | Decimal.D4 r => 52 :: uint_digits r
  | Decimal.D5 r => 53 :: uint_digits r
  | Decimal.D6 r => 54 :: uint_digits r
  | Decimal.D7 r => 55 :: uint_digits r
  | Decimal.D8 r => 56 :: uint_digits r
  | Decimal.D9 r => 57 :: uint_digits r
  end.

Definition of_N (n : N) : str := uint_digits (N.to_uint n).

(** [str(z)] for an [int]. *)
Definition of_Z (z : Z) : str :=
  match z with
  | Z0 => [48]
  | Zpos p => of_N (Npos p)
  | Zneg p => 45 :: of_N (Npos p)
  end.

(** Zero-padded field of a given width, as [%02d] prints it. *)
Definition zero_padded (width : nat) (n : N) : str :=
  let d := of_N n in
  repeat 48 (width - List.length d) ++ d.

(** Insertion sort by code points: [sorted] on a list of strings. *)
Fixpoint ltb (s t : str) : bool :=
  match s, t with
  | [], [] => false
  | [], _ :: _ => true
  | _ :: _, [] => false
  | c :: s', d :: t' => (c <? d) || ((c =? d) && ltb s' t')
  end.

Fixpoint insert_sorted (x : str) (l : list str) : list str :=
  match l with
  | [] => [x]
  | y :: r => if ltb y x then y :: insert_sorted x r else x :: l
  end.

Definition sorted (l : list str) : list str :=
  fold_left (fun acc x => insert_sorted x acc) l [].

End PyStr.

Export PyStr.

(* ================================================================== *)
(** * Python floats *)
(* ================================================================== *)

Module PyFloat.
Local Open Scope Z_scope.

(** Binary64. *)
Definition prec : Z := 53.
Definition emax : Z := 1024.

(** ** [repr(x)]: the shortest decimal string that reads back as [x] *)

(** [c * 10^q] against [n * 2^e], for natural [c] and [n]. *)
Definition cmp_dec_bin (c q n e : Z) : comparison :=
  Z.compare (c * 10 ^ Z.max q 0 * 2 ^ Z.max (- e) 0)
            (n * 2 ^ Z.max e 0 * 10 ^ Z.max (- q) 0).

(** The decimal point position of [m * 2^e]: the [k] with
    [10^(k-1) <= m * 2^e < 10^k].  The search starts just below the
    estimate that the binary logarithm gives ([log10 2 < 0.30103]) and
    is at most three steps long. *)
Fixpoint find_decpt (fuel : nat) (k m e : Z) : Z :=
  match fuel with
  | O => k
  | S fuel' =>
    match cmp_dec_bin 1 k m e with
    | Gt => k
    | _ => find_decpt fuel' (k + 1) m e
    end
  end.

Definition decpt_of (m e : Z) : Z :=
  find_decpt 8 ((Z.log2 m + e) * 30103 / 100000 - 1) m e.

(** [c * 10^q] reads back as [m * 2^e]: it lies between the midpoints to
    the neighbouring floats, the midpoints themselves counting when [m] is
    even (round half to even). Bounds are in units of [2^(e-2)]; below a
    power of two the lower neighbour is twice as close. *)
Definition reads_back (m e c q : Z) : bool :=
  let lo := if (m =? 2 ^ 52) && (-1074 <? e) then 4 * m - 1 else 4 * m - 2 in
  let up := 4 * m + 2 in
  match cmp_dec_bin c q lo (e - 2), cmp_dec_bin c q up (e - 2) with
  | Gt, Lt => true
  | Eq, Lt => Z.even m
  | Gt, Eq => Z.even m
  | _, _ => false
  end.

(** The two [n]-digit decimals around [m * 2^e], and the remainder that
    tells which is nearer. *)
Definition neighbours (m e k n : Z) : Z * Z * Z :=
  let q := k - n in
  let num := m * 2 ^ Z.max e 0 * 10 ^ Z.max (- q) 0 in
  let den := 2 ^ Z.max (- e) 0 * 10 ^ Z.max q 0 in
  (num / den, num mod den, den).

Fixpoint shortest (fuel : nat) (m e k n : Z) : Z * Z :=
  let q := k - n in
  let '(c, r, den) := neighbours m e k n in
  let nearest :=
    match Z.compare (2 * r) den with
    | Lt => c
    | Gt => c + 1
    | Eq => if Z.even c then c else c + 1
    end in
  match fuel with
  | O => (nearest, q)
  | S fuel' =>
    match reads_back m e c q, reads_back m e (c + 1) q with
    | true, true => (nearest, q)
    | true, false => (c, q)
    | false, true => (c + 1, q)
    | false, false => shortest fuel' m e k (n + 1)
    end
  end.

Fixpoint strip_zeros_rev (d : str) : str :=
  match d with
  | 48%N :: r => strip_zeros_rev r
  | _ => d
  end.

(** Digits (no trailing zero) and decimal point position, as the
    interpreter's [dtoa] in mode 0 returns them. *)
Definition shortest_digits (m e : Z) : str * Z :=
  let k := decpt_of m e in
  let '(c, q) := shortest 16 m e k 1 in
  let d := PyStr.of_Z c in
  (rev (strip_zeros_rev (rev d)), q + Z.of_nat (List.length d)).

Definition zeros (n : Z) : str := repeat 48%N (Z.to_nat n).

(** Format code ['r']: exponent notation when the decimal point falls
    left of [-4] or right of [16] digits, else fixed point with [.0]
    added to whole numbers. *)
Definition format_r (d : str) (decpt : Z) : str :=
  if (decpt <=? -4) || (16 <? decpt) then
    let x := decpt - 1 in
    let mant := match d with
                | [] => []
                | [c] => [c]
                | c :: r => c :: 46%N :: r
                end in
    (mant ++ [101%N] ++ (if x <? 0 then [45%N] else [43%N])
       ++ PyStr.zero_padded 2 (Z.to_N (Z.abs x)))%list
  else if decpt <=? 0 then
    ([48%N; 46%N] ++ zeros (- decpt) ++ d)%list
  else if decpt <? Z.of_nat (List.length d) then
    (firstn (Z.to_nat decpt) d ++ [46%N] ++ skipn (Z.to_nat decpt) d)%list
  else
    (d ++ zeros (decpt - Z.of_nat (List.length d)) ++ [46%N; 48%N])%list.

(** [repr(x)], which is also [str(x)] and what an f-string prints. *)
Definition repr (x : float) : str :=
  match Prim2SF x with
  | S754_nan => py "nan"
  | S754_infinity false => py "inf"
  | S754_infinity true => py "-inf"
  | S754_zero false => py "0.0"
  | S754_zero true => py "-0.0"
  | S754_finite s m e =>
    let '(d, decpt) := shortest_digits (Zpos m) e in
    ((if s then [45%N] else []) ++ format_r d decpt)%list
  end.

(** ** [float(s)] *)

(** The value [(-1)^neg * M * 10^E], rounded to nearest even. *)
Definition of_decimal (neg : bool) (M E : Z) : float :=
  SF2Prim
    (if M =? 0 then S754_zero neg
     else if 0 <=? E then
       binary_normalize prec emax (if neg then - (M * 10 ^ E) else M * 10 ^ E) 0 false
     else
       let '(q, e', l) := SFdiv_core_binary prec emax M 0 (10 ^ (- E)) 0 in
       binary_round_aux prec emax neg q e' l).

Definition is_digit (c : N) : bool := ((48 <=? c) && (c <=? 57))%N.

(** Non-ASCII spaces become a blank and non-ASCII decimal digits their
    ASCII digit; any other non-ASCII code point becomes a question mark. *)
Definition transform (db : unicode_db) (s : str) : str :=
  map (fun c => if (c <? 127)%N then c
                else if PyStr.isspace c then 32%N
                else match unicode_decimal db c with
                     | Some d => (48 + d)%N
                     | None => 63%N
                     end) s.

Definition is_c_space (c : N) : bool := (((9 <=? c) && (c <=? 13)) || (c =? 32))%N.

Fixpoint lstrip_c (s : str) : str :=
  match s with
  | [] => []
  | c :: r => if is_c_space c then lstrip_c r else s
  end.

Definition strip_c (s : str) : str := rev (lstrip_c (rev (lstrip_c s))).

(** An underscore is allowed only between two digits. *)
Fixpoint remove_underscores (prev : N) (s : str) : option str :=
  match s with
  | [] => if (prev =? 95)%N then None else Some []
  | c :: r =>
    if (c =? 95)%N then
      if is_digit prev then remove_underscores c r else None
    else if (prev =? 95)%N && negb (is_digit c) then None
    else option_map (cons c) (remove_underscores c r)
  end.

Fixpoint read_digits (s : str) (acc n : Z) : Z * Z * str :=
  match s with
  | [] => (acc, n, [])
  | c :: r =>
    if is_digit c then read_digits r (acc * 10 + Z.of_N (c - 48)) (n + 1)
    else (acc, n, s)
  end.

Definition read_sign (s : str) : bool * str :=
  match s with
  | 45%N :: r => (true, r)
  | 43%N :: r => (false, r)
  | _ => (false, s)
  end.

(** [inf], [infinity] and [nan], in any letter case. *)
Definition parse_inf_or_nan (s : str) : option float :=
  let '(neg, r) := read_sign s in
  let w := map PyStr.lower_cp r in
  if PyStr.eqb w (py "inf") || PyStr.eqb w (py "infinity") then
    Some (if neg then neg_infinity else infinity)
  else if PyStr.eqb w (py "nan") then Some nan
  else None.

(** [sign? (digits (. digits?)? | . digits) ((e|E) sign? digits)?] *)
Definition parse_decimal (s : str) : option (bool * Z * Z) :=
  let '(neg, r) := read_sign s in
  let '(m1, n1, r1) := read_digits r 0 0 in
  let '(m2, n2, r2) :=
    match r1 with
    | 46%N :: r' => read_digits r' m1 0
    | _ => (m1, 0, r1)
    end in
  if n1 + n2 =? 0 then None
  else
    match r2 with
    | [] => Some (neg, m2, - n2)
    | c :: r' =>
      if ((c =? 101) || (c =? 69))%N then
        let '(xneg, r3) := read_sign r' in
        match read_digits r3 0 0 with
        | (x, nx, []) =>
          if nx =? 0 then None
          else Some (neg, m2, (if xneg then - x else x) - n2)
        | _ => None
        end
      else None
    end.

(** [float(s)] on a string: [None] stands for [ValueError]. *)
Definition of_str (db : unicode_db) (s : str) : option float :=
  match remove_underscores 0%N (strip_c (transform db s)) with
  | None => None
  | Some u =>
    match parse_inf_or_nan u with
    | Some f => Some f
    | None =>
      match parse_decimal u with
      | Some (neg, M, E) => Some (of_decimal neg M E)
      | None => None
      end
    end
  end.

(** [x == 0], [math.isinf], [x != floor(x)] and the odd integers. *)
Definition is_zero (x : float) : bool := PrimFloat.eqb x 0%float.

Definition is_finite (x : float) : bool :=
  match Prim2SF x with
  | S754_finite _ _ _ | S754_zero _ => true
  | _ => false
  end.

(** The exact value of a finite float, as a fraction with a positive
    denominator. *)
Definition exact (x : float) : option (Z * Z) :=
  match Prim2SF x with
  | S754_zero _ => Some (0, 1)
  | S754_finite s m e =>
    let n := if s then Zneg m else Zpos m in
    Some (n * 2 ^ Z.max e 0, 2 ^ Z.max (- e) 0)
  | _ => None
  end.

(** ** [format(x, '.1f')] *)

(** [n / d] to the nearest integer, a tie to the even one, for natural
    [n] and positive [d]. *)
Definition round_half_even (n d : Z) : Z :=
  let q := n / d in
  match Z.compare (2 * (n mod d)) d with
  | Gt => q + 1
  | Eq => if Z.even q then q else q + 1
  | Lt => q
  end.

(** Fixed notation with one digit after the point: the exact value
    rounded to the nearest tenth. *)
Definition fixed1 (x : float) : str :=
  match Prim2SF x with
  | S754_nan => py "nan"
  | S754_infinity s => if s then py "-inf" else py "inf"
  | S754_zero s => if s then py "-0.0" else py "0.0"
  | S754_finite s m e =>
    let tenths := round_half_even (Zpos m * 2 ^ Z.max e 0 * 10) (2 ^ Z.max (- e) 0) in
    ((if s then [45%N] else [])
       ++ PyStr.of_Z (tenths / 10) ++ [46%N; (48 + Z.to_N (tenths mod 10))%N])%list
  end.

End PyFloat.

(* ================================================================== *)
(** * Exceptions, values and effects *)
(* ================================================================== *)

Module Py.

(** ** Exceptions *)

(** The classes the scripts raise or catch, with the classes of the
    [requests] library that [weather_server.py] catches by name. *)
Inductive exc_class :=
| BaseException
| KeyboardInterrupt
| SystemExit
| CancelledError
| OtherBaseException (name : str)
| Exception
| ArithmeticError
| ZeroDivisionError
| OverflowError
| LookupError
| KeyError
| IndexError
| ValueError
| TypeError
| AttributeError
| OSError
| EOFError
| RuntimeError
| NotImplementedError
| RequestException
| HTTPError
| RequestsJSONDecodeError
| OtherException (name : str).

(** Direct base classes. *)
Definition bases (c : exc_class) : list exc_class :=
  match c with
  | BaseException => []
  | KeyboardInterrupt | SystemExit | CancelledError
  | OtherBaseException _ => [BaseException]
  | Exception => [BaseException]
  | ArithmeticError | LookupError | ValueError | TypeError | AttributeError
  | OSError | EOFError | RuntimeError | OtherException _ => [Exception]
  | ZeroDivisionError | OverflowError => [ArithmeticError]
  | KeyError | IndexError => [LookupError]
  | NotImplementedError => [RuntimeError]
  | RequestException => [OSError]
  | HTTPError => [RequestException]
  | RequestsJSONDecodeError => [RequestException; ValueError]
  end.

Definition class_eqb (c d : exc_class) : bool :=
  match c, d with
  | BaseException, BaseException | KeyboardInterrupt, KeyboardInterrupt
  | SystemExit, SystemExit | CancelledError, CancelledError
  | Exception, Exception | ArithmeticError, ArithmeticError
  | ZeroDivisionError, ZeroDivisionError | OverflowError, OverflowError
  | LookupError, LookupError | KeyError, KeyError | IndexError, IndexError
  | ValueError, ValueError | TypeError, TypeError
  | AttributeError, AttributeError | OSError, OSError | EOFError, EOFError
  | RuntimeError, RuntimeError | NotImplementedError, NotImplementedError
  | RequestException, RequestException | HTTPError, HTTPError
  | RequestsJSONDecodeError, RequestsJSONDecodeError => true
  | OtherBaseException n, OtherBaseException m => PyStr.eqb n m
  | OtherException n, OtherException m => PyStr.eqb n m
  | _, _ => false
  end.

(** [issubclass(c, d)]; the hierarchy above is four levels deep. *)
Fixpoint issubclass_upto (depth : nat) (c d : exc_class) : bool :=
  class_eqb c d ||
  match depth with
  | O => false
  | S depth' => existsb (fun b => issubclass_upto depth' b d) (bases c)
  end.

Definition issubclass (c d : exc_class) : bool := issubclass_upto 4 c d.

(** An exception object: its class and [str(e)]. *)
Record exn := { exn_class : exc_class; exn_str : str }.

Definition isinstance (e : exn) (c : exc_class) : bool :=
  issubclass (exn_class e) c.

(** The result of evaluating an expression or running a block. *)
Inductive outcome (A : Type) :=
| Return (a : A)
| Raise (e : exn).
Arguments Return {A} a.
Arguments Raise {A} e.

(** ** Values *)

Inductive value :=
| VNone
| VBool (b : bool)
| VInt (z : Z)
| VFloat (f : float)
| VComplex (re im : float)
| VStr (s : str)
| VList (l : list value)
| VDict (d : list (str * value)).

(** [type(v).__name__]. *)
Definition type_name (v : value) : str :=
  match v with
  | VNone => py "NoneType"
  | VBool _ => py "bool"
  | VInt _ => py "int"
  | VFloat _ => py "float"
  | VComplex _ _ => py "complex"
  | VStr _ => py "str"
  | VList _ => py "list"
  | VDict _ => py "dict"
  end.

(** [bool(v)]. *)
Definition truthy (v : value) : bool :=
  match v with
  | VNone => false
  | VBool b => b
  | VInt z => negb (z =? 0)%Z
  | VFloat f => negb (PyFloat.is_zero f)
  | VComplex re im => negb (PyFloat.is_zero re && PyFloat.is_zero im)
  | VStr s => match s with [] => false | _ => true end
  | VList l => match l with [] => false | _ => true end
  | VDict d => match d with [] => false | _ => true end
  end.

(** ** [repr] and [str] *)

Definition hex_digit (n : N) : N := (if n <? 10 then 48 + n else 87 + n)%N.

Fixpoint hex_fixed (width : nat) (n : N) : str :=
  match width with
  | O => []
  | S w => (hex_fixed w (n / 16) ++ [hex_digit (n mod 16)])%list
  end.

Section Repr.
Variable db : unicode_db.

Definition isprintable (c : N) : bool :=
  if (c <? 128)%N then ((32 <=? c) && (c <? 127))%N else unicode_printable db c.

(** One character of [repr(s)], inside quotes [q]. *)
Definition repr_char (q c : N) : str :=
  if ((c =? q) || (c =? 92))%N then [92%N; c]
  else if (c =? 9)%N then py "\t"
  else if (c =? 10)%N then py "\n"
  else if (c =? 13)%N then py "\r"
  else if isprintable c then [c]
  else if (c <? 256)%N then (py "\x" ++ hex_fixed 2 c)%list
  else if (c <? 65536)%N then (py "\u" ++ hex_fixed 4 c)%list
  else (py "\U" ++ hex_fixed 8 c)%list.

(** [repr(s)] of a string: double quotes when it holds a single quote and
    no double quote, single quotes otherwise. *)
Definition repr_str (s : str) : str :=
  let q := if existsb (N.eqb 39) s && negb (existsb (N.eqb 34) s)
           then 34%N else 39%N in
  ([q] ++ flat_map (repr_char q) s ++ [q])%list.

(** A part of [str(z)] for a complex [z]: as [repr], whole numbers
    without [.0]. *)
Definition repr_part (x : float) : str :=
  match Prim2SF x with
  | S754_nan => py "nan"
  | S754_infinity false => py "inf"
  | S754_infinity true => py "-inf"
  | S754_zero false => py "0"
  | S754_zero true => py "-0"
  | S754_finite s m e =>
    let '(d, decpt) := PyFloat.shortest_digits (Zpos m) e in
    let body := PyFloat.format_r d decpt in
    let body := if PyStr.eqb (skipn (List.length body - 2) body) (py ".0")
                then firstn (List.length body - 2) body else body in
    ((if s then [45%N] else []) ++ body)%list
  end.

Definition repr_complex (re im : float) : str :=
  let im_s := repr_part im in
  match Prim2SF re with
  | S754_zero false => (im_s ++ py "j")%list
  | _ =>
    (py "(" ++ repr_part re
       ++ (if PyStr.startswith (py "-") im_s then [] else py "+")
       ++ im_s ++ py "j)")%list
  end.

Fixpoint repr (v : value) : str :=
  match v with
  | VNone => py "None"
  | VBool true => py "True"
  | VBool false => py "False"
  | VInt z => PyStr.of_Z z
  | VFloat f => PyFloat.repr f
  | VComplex re im => repr_complex re im
  | VStr s => repr_str s
  | VList l => (py "[" ++ PyStr.join (py ", ") (map repr l) ++ py "]")%list
  | VDict d =>
    (py "{"
       ++ PyStr.join (py ", ")
            (map (fun kv => (repr_str (fst kv) ++ py ": " ++ repr (snd kv))%list) d)
       ++ py "}")%list
  end.

(** [str(v)]: what an f-string and [print] show. *)
Definition to_str (v : value) : str :=
  match v with
  | VStr s => s
  | _ => repr v
  end.

End Repr.

(** ** Sequencing of fallible steps *)

Definition and_then {A B} (o : outcome A) (f : A -> outcome B) : outcome B :=
  match o with
  | Return a => f a
  | Raise e => Raise e
  end.

(** [try: body / except cls as e: handler(e)] around a pure block. *)
Definition guarded {A} (body : outcome A) (cls : exc_class)
    (handler : exn -> outcome A) : outcome A :=
  match body with
  | Raise e => if isinstance e cls then handler e else Raise e
  | r => r
  end.

(** A list comprehension [[f(x) for x in l]]: left to right, the first
    exception ends it. *)
Fixpoint comprehension {A B} (f : A -> outcome B) (l : list A) : outcome (list B) :=
  match l with
  | [] => Return []
  | x :: r =>
    and_then (f x) (fun y =>
    and_then (comprehension f r) (fun ys => Return (y :: ys)))
  end.

(** [float(s)] for a string. *)
Definition builtin_float (db : unicode_db) (s : str) : outcome float :=
  match PyFloat.of_str db s with
  | Some f => Return f
  | None =>
    Raise {| exn_class := ValueError;
             exn_str := (py "could not convert string to float: " ++ repr_str db s)%list |}
  end.

(** ** What the model takes from the interpreter and the C library *)

Record runtime := {
  unicode : unicode_db;
  (** [pow(x, y)] of the C library, for finite [x > 0], [x <> 1] and
      finite [y <> 0] *)
  libm_pow : float -> float -> float;
  (** a negative float to a fractional power, which is complex *)
  complex_pow : float -> float -> outcome value;
  (** the built-in [sum] on a non-empty list of floats (plain
      left-to-right addition before Python 3.12, compensated since) *)
  builtin_sum : list float -> float
}.

(** [sum] as it adds before Python 3.12: from [0], left to right. *)
Definition sum_left_to_right (l : list float) : float :=
  fold_left PrimFloat.add l 0%float.

(** ** Arithmetic on floats *)

(** [float(n)] for an integer: the nearest float. *)
Definition float_of_int (z : Z) : float :=
  SF2Prim (binary_normalize PyFloat.prec PyFloat.emax z 0 false).

(** [a / b]. *)
Definition truediv (a b : float) : outcome float :=
  if PyFloat.is_zero b then
    Raise {| exn_class := ZeroDivisionError; exn_str := py "float division by zero" |}
  else Return (a / b)%float.

(** [a / n] for an [int] divisor (here the length of a list, far below
    the range where converting it to a float overflows). *)
Definition truediv_int (a : float) (n : Z) : outcome float :=
  if (n =? 0)%Z then
    Raise {| exn_class := ZeroDivisionError; exn_str := py "float division by zero" |}
  else Return (a / float_of_int n)%float.

(** A float is an odd integer. *)
Definition is_odd_integer (x : float) : bool :=
  match PyFloat.exact x with
  | Some (n, d) => ((n mod d =? 0) && Z.odd (n / d))%Z
  | None => false
  end.

Definition is_integer (x : float) : bool :=
  match PyFloat.exact x with
  | Some (n, d) => (n mod d =? 0)%Z
  | None => false
  end.

Definition is_infinity (x : float) : bool :=
  match Prim2SF x with S754_infinity _ => true | _ => false end.

Definition sign_bit (x : float) : bool :=
  match Prim2SF x with
  | S754_zero s | S754_infinity s | S754_finite s _ _ => s
  | S754_nan => false
  end.

(** [base ** exponent] on floats, case by case as the interpreter
    decides it; only the last case reaches the C library. *)
Definition float_pow (rt : runtime) (iv iw : float) : outcome value :=
  if PyFloat.is_zero iw then Return (VFloat 1)
  else if PrimFloat.is_nan iv then Return (VFloat iv)
  else if PrimFloat.is_nan iw then
    Return (VFloat (if PrimFloat.eqb iv 1 then 1 else iw))%float
  else if is_infinity iw then
    let iv := PrimFloat.abs iv in
    if PrimFloat.eqb iv 1 then Return (VFloat 1)
    else if Bool.eqb (PrimFloat.ltb 0 iw) (PrimFloat.ltb 1 iv)
         then Return (VFloat (PrimFloat.abs iw))
         else Return (VFloat 0)
  else if is_infinity iv then
    let iw_is_odd := is_odd_integer iw in
    if PrimFloat.ltb 0 iw then
      Return (VFloat (if iw_is_odd then iv else PrimFloat.abs iv))
    else
      Return (VFloat (if iw_is_odd && sign_bit iv then (- 0) else 0))%float
  else if PyFloat.is_zero iv then
    if PrimFloat.ltb iw 0 then
      Raise {| exn_class := ZeroDivisionError;
               exn_str := py "0.0 cannot be raised to a negative power" |}
    else Return (VFloat (if is_odd_integer iw then iv else 0))
  else if PrimFloat.ltb iv 0 && negb (is_integer iw) then complex_pow rt iv iw
  else
    let negate_result := PrimFloat.ltb iv 0 && is_odd_integer iw in
    let iv := PrimFloat.abs iv in
    if PrimFloat.eqb iv 1 then
      Return (VFloat (if negate_result then (- 1) else 1))%float
    else
      let ix := libm_pow rt iv iw in
      if is_infinity ix then
        Raise {| exn_class := OverflowError;
                 exn_str := py "(34, 'Numerical result out of range')" |}
      else Return (VFloat (if negate_result then (- ix) else ix))%float.

(** ** Subscripts, methods and slices on decoded JSON

    The exceptions and their texts are those of CPython 3.11. *)

Definition type_error (msg : str) : exn :=
  {| exn_class := TypeError; exn_str := msg |}.

Definition attribute_error (v : value) (attr : str) : exn :=
  {| exn_class := AttributeError;
     exn_str := (py "'" ++ type_name v ++ py "' object has no attribute '"
                   ++ attr ++ py "'")%list |}.

Definition not_subscriptable (v : value) : exn :=
  type_error (py "'" ++ type_name v ++ py "' object is not subscriptable")%list.

Fixpoint lookup (k : str) (d : list (str * value)) : option value :=
  match d with
  | [] => None
  | (k', v) :: r => if PyStr.eqb k k' then Some v else lookup k r
  end.

Section Dynamic.
Variable db : unicode_db.

(** [v[k]] for a string key. *)
Definition getitem (v : value) (k : str) : outcome value :=
  match v with
  | VDict d =>
    match lookup k d with
    | Some x => Return x
    | None => Raise {| exn_class := KeyError; exn_str := repr_str db k |}
    end
  | VList _ =>
    Raise (type_error (py "list indices must be integers or slices, not str"))
  | VStr _ => Raise (type_error (py "string indices must be integers, not 'str'"))
  | _ => Raise (not_subscriptable v)
  end.

(** [v.get(k, default)]. *)
Definition get (v : value) (k : str) (default : value) : outcome value :=
  match v with
  | VDict d =>
    match lookup k d with
    | Some x => Return x
    | None => Return default
    end
  | _ => Raise (attribute_error v (py "get"))
  end.

(** [v[:n]]. *)
Definition slice_to (v : value) (n : nat) : outcome value :=
  match v with
  | VList l => Return (VList (firstn n l))
  | VStr s => Return (VStr (firstn n s))
  | VDict _ => Raise (type_error (py "unhashable type: 'slice'"))
  | _ => Raise (not_subscriptable v)
  end.

(** The items a [for] loop takes from [v]. *)
Definition iterate (v : value) : outcome (list value) :=
  match v with
  | VList l => Return l
  | VStr s => Return (map (fun c => VStr [c]) s)
  | VDict d => Return (map (fun kv => VStr (fst kv)) d)
  | _ =>
    Raise (type_error (py "'" ++ type_name v ++ py "' object is not iterable")%list)
  end.

End Dynamic.

(** [v[0]]. *)
Definition first_item (v : value) : outcome value :=
  match v with
  | VList (x :: _) => Return x
  | VList [] =>
    Raise {| exn_class := IndexError; exn_str := py "list index out of range" |}
  | VStr (c :: _) => Return (VStr [c])
  | VStr [] =>
    Raise {| exn_class := IndexError; exn_str := py "string index out of range" |}
  | VDict _ => Raise {| exn_class := KeyError; exn_str := py "0" |}
  | _ => Raise (not_subscriptable v)
  end.

(** [len(v)]. *)
Definition len (v : value) : outcome nat :=
  match v with
  | VStr s => Return (List.length s)
  | VList l => Return (List.length l)
  | VDict d => Return (List.length d)
  | _ =>
    Raise (type_error (py "object of type '" ++ type_name v ++ py "' has no len()")%list)
  end.

(** ** Arithmetic and formatting on decoded JSON

    A number of a JSON document arrives as an [int] or a [float], and
    the scripts do arithmetic on whatever arrives. *)

Definition overflow_error (msg : str) : exn :=
  {| exn_class := OverflowError; exn_str := msg |}.

Definition unsupported (op : str) (v : value) (other : str) : exn :=
  type_error (py "unsupported operand type(s) for " ++ op ++ py ": '"
                ++ type_name v ++ py "' and '" ++ other ++ py "'")%list.

(** [a + b] with a sequence on the left and something else on the right. *)
Definition cannot_concatenate (v : value) (other : str) : exn :=
  type_error (py "can only concatenate " ++ type_name v ++ py " (not "
                ++ [34%N] ++ other ++ [34%N] ++ py ") to " ++ type_name v)%list.

(** [float(n)] for an [int] operand: it fails beyond the floats. *)
Definition float_of_int_checked (z : Z) : outcome float :=
  let f := float_of_int z in
  if is_infinity f then Raise (overflow_error (py "int too large to convert to float"))
  else Return f.

(** [a / b] for two [int]s: the quotient, correctly rounded. *)
Definition int_truediv (a b : Z) : outcome float :=
  if (b =? 0)%Z then
    Raise {| exn_class := ZeroDivisionError; exn_str := py "division by zero" |}
  else if (a =? 0)%Z then Return (if (b <? 0)%Z then (- 0) else 0)%float
  else
    let negative := xorb (a <? 0)%Z (b <? 0)%Z in
    let '(q, e, l) :=
      SFdiv_core_binary PyFloat.prec PyFloat.emax (Z.abs a) 0 (Z.abs b) 0 in
    let r := SF2Prim (binary_round_aux PyFloat.prec PyFloat.emax negative q e l) in
    if is_infinity r then
      Raise (overflow_error (py "integer division result too large for a float"))
    else Return r.

(** The product and the quotient of two complex numbers, as the
    interpreter computes them. *)
Definition complex_prod (a b : float * float) : float * float :=
  (fst a * fst b - snd a * snd b, fst a * snd b + snd a * fst b)%float.

Definition complex_quot (a b : float * float) : outcome (float * float) :=
  let abs_breal := (if PrimFloat.ltb (fst b) 0 then - fst b else fst b)%float in
  let abs_bimag := (if PrimFloat.ltb (snd b) 0 then - snd b else snd b)%float in
  if PrimFloat.leb abs_bimag abs_breal then
    if PrimFloat.eqb abs_breal 0 then
      Raise {| exn_class := ZeroDivisionError;
               exn_str := py "complex division by zero" |}
    else
      let ratio := (snd b / fst b)%float in
      let denom := (fst b + snd b * ratio)%float in
      Return ((fst a + snd a * ratio) / denom, (snd a - fst a * ratio) / denom)%float
  else if PrimFloat.leb abs_breal abs_bimag then
    let ratio := (fst b / snd b)%float in
    let denom := (fst b * ratio + snd b)%float in
    Return ((fst a * ratio + snd a) / denom, (snd a * ratio - fst a) / denom)%float
  else Return (nan, nan).

Definition int_of_bool (b : bool) : Z := if b then 1 else 0.

(** [v * n] for an [int] literal [n]. *)
Definition mul_int (v : value) (n : Z) : outcome value :=
  match v with
  | VBool b => Return (VInt (int_of_bool b * n))
  | VInt z => Return (VInt (z * n))
  | VFloat f => and_then (float_of_int_checked n) (fun y => Return (VFloat (f * y)))
  | VComplex re im =>
    and_then (float_of_int_checked n) (fun y =>
    let p := complex_prod (re, im) (y, 0%float) in
    Return (VComplex (fst p) (snd p)))
  | VStr s => Return (VStr (List.concat (repeat s (Z.to_nat n))))
  | VList l => Return (VList (List.concat (repeat l (Z.to_nat n))))
  | VNone | VDict _ => Raise (unsupported (py "*") v (py "int"))
  end.

(** [v / n] for an [int] literal [n]. *)
Definition div_int (v : value) (n : Z) : outcome value :=
  match v with
  | VBool b => and_then (int_truediv (int_of_bool b) n) (fun q => Return (VFloat q))
  | VInt z => and_then (int_truediv z n) (fun q => Return (VFloat q))
  | VFloat f =>
    and_then (float_of_int_checked n) (fun y =>
    and_then (truediv f y) (fun q => Return (VFloat q)))
  | VComplex re im =>
    and_then (float_of_int_checked n) (fun y =>
    and_then (complex_quot (re, im) (y, 0%float)) (fun q =>
    Return (VComplex (fst q) (snd q))))
  | _ => Raise (unsupported (py "/") v (py "int"))
  end.

(** [v + n] for an [int] literal [n]. *)
Definition add_int (v : value) (n : Z) : outcome value :=
  match v with
  | VBool b => Return (VInt (int_of_bool b + n))
  | VInt z => Return (VInt (z + n))
  | VFloat f => and_then (float_of_int_checked n) (fun y => Return (VFloat (f + y)))
  | VComplex re im =>
    and_then (float_of_int_checked n) (fun y =>
    Return (VComplex (re + y) (im + 0)))
  | VStr _ | VList _ => Raise (cannot_concatenate v (py "int"))
  | VNone | VDict _ => Raise (unsupported (py "+") v (py "int"))
  end.

(** [v * x] for a [float] literal [x]. *)
Definition mul_float (v : value) (x : float) : outcome value :=
  match v with
  | VBool b =>
    and_then (float_of_int_checked (int_of_bool b)) (fun y => Return (VFloat (y * x)))
  | VInt z => and_then (float_of_int_checked z) (fun y => Return (VFloat (y * x)))
  | VFloat f => Return (VFloat (f * x))
  | VComplex re im =>
    let p := complex_prod (re, im) (x, 0%float) in
    Return (VComplex (fst p) (snd p))
  | VStr _ | VList _ =>
    Raise (type_error (py "can't multiply sequence by non-int of type 'float'"))
  | VNone | VDict _ => Raise (unsupported (py "*") v (py "float"))
  end.

(** The imaginary part of a formatted complex number always has its sign. *)
Definition with_sign (s : str) : str :=
  if PyStr.startswith (py "-") s then s else (py "+" ++ s)%list.

(** [format(v, '.1f')], which is what [{v:.1f}] in an f-string shows. *)
Definition format_1f (v : value) : outcome str :=
  match v with
  | VBool b =>
    and_then (float_of_int_checked (int_of_bool b)) (fun y => Return (PyFloat.fixed1 y))
  | VInt z => and_then (float_of_int_checked z) (fun y => Return (PyFloat.fixed1 y))
  | VFloat f => Return (PyFloat.fixed1 f)
  | VComplex re im =>
    Return (PyFloat.fixed1 re ++ with_sign (PyFloat.fixed1 im) ++ py "j")%list
  | VStr _ =>
    Raise {| exn_class := ValueError;
             exn_str := py "Unknown format code 'f' for object of type 'str'" |}
  | VNone | VList _ | VDict _ =>
    Raise (type_error (py "unsupported format string passed to " ++ type_name v
                         ++ py ".__format__")%list)
  end.

(** ** Effects: standard output and the network *)

(** What a response object of [requests] or [httpx] gives to the two
    calls the scripts make on it. *)
Record response := {
  raise_for_status : option exn;
  json : outcome value
}.

(** The provider: from the requests made so far and the argument of
    this [get] (a URL, or whatever value the script passes as one) to
    what [get] returns or raises. *)
Definition provider := list value -> value -> outcome response.

Record world := {
  stdout : list str;
  requested : list value;
  (** the agents built so far, each by the names of its tools *)
  agents : list (list str)
}.

Definition M (A : Type) : Type := world -> outcome A * world.

Definition ret {A} (a : A) : M A := fun w => (Return a, w).

Definition raise {A} (e : exn) : M A := fun w => (Raise e, w).

Definition bind {A B} (m : M A) (f : A -> M B) : M B :=
  fun w =>
    match m w with
    | (Return a, w') => f a w'
    | (Raise e, w') => (Raise e, w')
    end.

Definition lift {A} (o : outcome A) : M A := fun w => (o, w).

(** [try: body / except cls as e: handler(e)]. *)
Definition try_except {A} (body : M A) (cls : exc_class) (handler : exn -> M A) : M A :=
  fun w =>
    match body w with
    | (Raise e, w') => if isinstance e cls then handler e w' else (Raise e, w')
    | r => r
    end.

(** The world after some chunks of text went to standard output, and
    after one more request. *)
Definition printed (w : world) (chunks : list str) : world :=
  {| stdout := (stdout w ++ chunks)%list;
     requested := requested w;
     agents := agents w |}.

Definition asked (w : world) (url : value) : world :=
  {| stdout := stdout w;
     requested := (requested w ++ [url])%list;
     agents := agents w |}.

(** A line, as [print] writes it. *)
Definition line (s : str) : str := (s ++ [10%N])%list.

(** [print(s, end="")]. *)
Definition write (s : str) : M unit :=
  fun w => (Return tt, printed w [s]).

(** [print(s)]. *)
Definition print (s : str) : M unit := write (line s).

(** [get(url, ...)] against the provider. *)
Definition http_get (net : provider) (url : value) : M response :=
  fun w => (net (requested w) url, asked w url).

(** [response.raise_for_status()]. *)
Definition check_status (r : response) : M unit :=
  match raise_for_status r with
  | Some e => raise e
  | None => ret tt
  end.

(** A [for] loop over [l] whose body may raise. *)
Fixpoint for_each {A} (l : list A) (body : A -> M unit) : M unit :=
  match l with
  | [] => ret tt
  | x :: r => bind (body x) (fun _ => for_each r body)
  end.

End Py.

Export Py.

Declare Scope py_scope.
Delimit Scope py_scope with py_scope.
Notation "x <- m ;; k" := (Py.bind m (fun x => k))
  (at level 61, m at next level, right associativity) : py_scope.
Notation "m ;;; k" := (Py.bind m (fun _ => k))
  (at level 61, right associativity) : py_scope.

(* ================================================================== *)
(** * math_server.py *)
(* ================================================================== *)

Module math_server.
Local Open Scope list_scope.
Local Open Scope py_scope.

Section Tools.
Variable rt : runtime.

Definition add (a b : float) : M value :=
  let result := (a + b)%float in
  print (py "🧮 Adding: " ++ PyFloat.repr a ++ py " + " ++ PyFloat.repr b
           ++ py " = " ++ PyFloat.repr result) ;;;
  ret (VFloat result).

Definition multiply (a b : float) : M value :=
  let result := (a * b)%float in
  print (py "🧮 Multiplying: " ++ PyFloat.repr a ++ py " × " ++ PyFloat.repr b
           ++ py " = " ++ PyFloat.repr result) ;;;
  ret (VFloat result).

Definition subtract (a b : float) : M value :=
  let result := (a - b)%float in
  print (py "🧮 Subtracting: " ++ PyFloat.repr a ++ py " - " ++ PyFloat.repr b
           ++ py " = " ++ PyFloat.repr result) ;;;
  ret (VFloat result).

Definition divide (a b : float) : M value :=
  if PyFloat.is_zero b then ret (VStr (py "Error: Cannot divide by zero"))
  else
    result <- lift (truediv a b) ;;
    print (py "🧮 Dividing: " ++ PyFloat.repr a ++ py " ÷ " ++ PyFloat.repr b
             ++ py " = " ++ PyFloat.repr result) ;;;
    ret (VFloat result).

Definition power (base exponent : float) : M value :=
  result <- lift (float_pow rt base exponent) ;;
  print (py "🧮 Power: " ++ PyFloat.repr base ++ py " ^ " ++ PyFloat.repr exponent
           ++ py " = " ++ to_str (unicode rt) result) ;;;
  ret result.

Definition invalid_number_format : str :=
  py "Error: Invalid number format. Use comma-separated numbers like '1,2,3,4'".

Definition calculate_average (numbers : str) : M value :=
  try_except
    (num_list <- lift (comprehension
                         (fun x => builtin_float (unicode rt) (PyStr.strip x))
                         (PyStr.split 44 numbers)) ;;
     match num_list with
     | [] => ret (VStr (py "Error: No numbers provided"))
     | _ :: _ =>
       average <- lift (truediv_int (builtin_sum rt num_list)
                                    (Z.of_nat (List.length num_list))) ;;
       print (py "🧮 Average of " ++ to_str (unicode rt) (VList (map VFloat num_list))
                ++ py " = " ++ PyFloat.repr average) ;;;
       ret (VFloat average)
     end)
    ValueError
    (fun _ => ret (VStr invalid_number_format)).

End Tools.
End math_server.

(* ================================================================== *)
(** * The agent framework, as the scripts use it *)
(* ================================================================== *)

Module chat.
Local Open Scope list_scope.
Local Open Scope py_scope.

(** A message object of the framework, through the three attributes the
    scripts probe with [hasattr]; [None] is a missing attribute. *)
Record message := {
  tool_calls : option value;
  name : option value;
  content : option value;
  as_str : str
}.

(** What [agent.ainvoke] returns: a mapping that may hold the key
    ['messages']. *)
Definition response := option (list message).

(** One pass of the [while True] loop, as the outside world decides it:
    what [input] returns or raises, and what [agent.ainvoke] returns or
    raises if it is reached. *)
Record turn := {
  typed : outcome str;
  answer : outcome response
}.

(** [create_react_agent(llm, tools)]. *)
Definition built (w : world) (tools : list str) : world :=
  {| stdout := stdout w; requested := requested w; agents := agents w ++ [tools] |}.

Definition create_react_agent (tools : list str) : M unit :=
  fun w => (Return tt, built w tools).

(** How a session stands when the model stops following it. *)
Inductive session_end :=
| NoLLM
| ExitWord
| Interrupted
| ConnectFailed
| AwaitingInput.

(** The literals in which the two interactive loops differ. *)
Record labels := {
  using_tool : str;
  used_tool : str;
  interrupt_goodbye : str
}.

Definition exit_words : list str :=
  [py "quit"; py "exit"; py "bye"; py "q"; py "goodbye"].

Inductive step := Break | Continue.

Section Loop.
Variable db : unicode_db.
Variable lb : labels.

(** [for msg in response['messages'][1:-1]: ...] *)
Definition show_tool_usage (r : response) : M unit :=
  match r with
  | Some messages =>
    if (1 <? List.length messages)%nat then
      for_each (removelast (tl messages)) (fun msg =>
        let otherwise :=
          match name msg with
          | Some n =>
            if truthy n then print (used_tool lb ++ to_str db n) else ret tt
          | None => ret tt
          end in
        match tool_calls msg with
        | Some calls =>
          if truthy calls then
            items <- lift (iterate calls) ;;
            for_each items (fun tool_call =>
              n <- lift (getitem db tool_call (py "name")) ;;
              print (using_tool lb ++ to_str db n))
          else otherwise
        | None => otherwise
        end)
    else ret tt
  | None => ret tt
  end.

(** [last_message = response['messages'][-1]] and its printing. *)
Definition show_answer (r : response) : M unit :=
  match r with
  | Some (m :: ms) =>
    let last_message := last ms m in
    match content last_message with
    | Some c => print (to_str db c)
    | None => print (as_str last_message)
    end
  | _ => print (py "No response generated")
  end.

(** The body of the [try] in the loop. *)
Definition attempt (t : turn) : M step :=
  write (py "You: ") ;;;
  line <- lift (typed t) ;;
  let user_input := PyStr.strip line in
  if PyStr.mem (PyStr.lower db user_input) exit_words then
    print (py "👋 Goodbye!") ;;; ret Break
  else
    match user_input with
    | [] => ret Continue
    | _ :: _ =>
      write (py "🤖 Agent: ") ;;;
      r <- lift (answer t) ;;
      show_tool_usage r ;;;
      show_answer r ;;;
      print [] ;;;
      ret Continue
    end.

(** [while True: try: ... except KeyboardInterrupt: ... break
    except Exception as e: ... continue], along a script of turns.  When
    the script is used up the loop stands at [input]. *)
Fixpoint loop (script : list turn) : M session_end :=
  match script with
  | [] => write (py "You: ") ;;; ret AwaitingInput
  | t :: rest =>
    fun w =>
      match attempt t w with
      | (Return Break, w') => (Return ExitWord, w')
      | (Return Continue, w') => loop rest w'
      | (Raise e, w') =>
        if isinstance e KeyboardInterrupt then
          (print (interrupt_goodbye lb) ;;; ret Interrupted) w'
        else if isinstance e Exception then
          (print (py "❌ Error: " ++ exn_str e) ;;; loop rest) w'
        else (Raise e, w')
      end
  end.

End Loop.
End chat.

(* ================================================================== *)
(** * 1_basic_agent.py *)
(* ================================================================== *)

Module basic_agent.
Local Open Scope list_scope.
Local Open Scope py_scope.

Definition NWS_API_BASE : str := py "https://api.weather.gov".

Definition US_CITIES : list (str * (float * float)) :=
  [ (py "New York", (40.7128, -74.0060));
    (py "Los Angeles", (34.0522, -118.2437));
    (py "Chicago", (41.8781, -87.6298));
    (py "Houston", (29.7604, -95.3698));
    (py "Phoenix", (33.4484, -112.0740));
    (py "Philadelphia", (39.9526, -75.1652));
    (py "San Antonio", (29.4241, -98.4936));
    (py "San Diego", (32.7157, -117.1611));
    (py "Dallas", (32.7767, -96.7970));
    (py "Denver", (39.7392, -104.9903)) ]%float.

Definition not_found (city_name : str) (available : str) : str :=
  py "City '" ++ city_name ++ py "' not found. Available cities: " ++ available.

Definition points_url (lat lon : float) : str :=
  NWS_API_BASE ++ py "/points/" ++ PyFloat.repr lat ++ py "," ++ PyFloat.repr lon.

Section Tools.
Variable rt : runtime.
Variable net : provider.

Definition make_nws_request (url : value) : M value :=
  try_except
    (response <- http_get net url ;;
     check_status response ;;;
     lift (json response))
    Exception
    (fun e => print (py "Error making NWS request: " ++ exn_str e) ;;; ret VNone).

Definition format_period (period : value) : M str :=
  n <- lift (getitem (unicode rt) period (py "name")) ;;
  t <- lift (getitem (unicode rt) period (py "temperature")) ;;
  u <- lift (getitem (unicode rt) period (py "temperatureUnit")) ;;
  f <- lift (getitem (unicode rt) period (py "shortForecast")) ;;
  ret (py "  " ++ to_str (unicode rt) n ++ py ": " ++ to_str (unicode rt) t
         ++ py "°" ++ to_str (unicode rt) u ++ py " - " ++ to_str (unicode rt) f).

Fixpoint format_periods (periods : list value) : M (list str) :=
  match periods with
  | [] => ret []
  | period :: r =>
    forecast <- format_period period ;;
    forecasts <- format_periods r ;;
    ret (forecast :: forecasts)
  end.

Definition get_city_weather (city_name : str) : M value :=
  match PyStr.find city_name US_CITIES with
  | None =>
    ret (VStr (not_found city_name (PyStr.join (py ", ") (PyStr.keys US_CITIES))))
  | Some (lat, lon) =>
    points_data <- make_nws_request (VStr (points_url lat lon)) ;;
    if negb (truthy points_data) then
      ret (VStr (py "Unable to fetch forecast data for " ++ city_name ++ py "."))
    else
      properties <- lift (getitem (unicode rt) points_data (py "properties")) ;;
      forecast_url <- lift (getitem (unicode rt) properties (py "forecast")) ;;
      forecast_data <- make_nws_request forecast_url ;;
      if negb (truthy forecast_data) then
        ret (VStr (py "Unable to fetch detailed forecast for " ++ city_name ++ py "."))
      else
        properties <- lift (getitem (unicode rt) forecast_data (py "properties")) ;;
        periods <- lift (getitem (unicode rt) properties (py "periods")) ;;
        first3 <- lift (slice_to periods 3) ;;
        items <- lift (iterate first3) ;;
        forecasts <- format_periods items ;;
        ret (VStr (city_name ++ py " Weather Forecast:\n"
                     ++ PyStr.join (py "\n") forecasts))
  end.

Definition calculate (a b : float) (operation : str) : outcome str :=
  guarded
    (if PyStr.eqb (PyStr.lower (unicode rt) operation) (py "add") then
       let result := (a + b)%float in
       Return (PyFloat.repr a ++ py " + " ++ PyFloat.repr b ++ py " = "
                 ++ PyFloat.repr result)
     else if PyStr.eqb (PyStr.lower (unicode rt) operation) (py "subtract") then
       let result := (a - b)%float in
       Return (PyFloat.repr a ++ py " - " ++ PyFloat.repr b ++ py " = "
                 ++ PyFloat.repr result)
     else if PyStr.eqb (PyStr.lower (unicode rt) operation) (py "multiply") then
       let result := (a * b)%float in
       Return (PyFloat.repr a ++ py " × " ++ PyFloat.repr b ++ py " = "
                 ++ PyFloat.repr result)
     else if PyStr.eqb (PyStr.lower (unicode rt) operation) (py "divide") then
       if PyFloat.is_zero b then Return (py "Error: Cannot divide by zero")
       else
         and_then (truediv a b) (fun result =>
         Return (PyFloat.repr a ++ py " ÷ " ++ PyFloat.repr b ++ py " = "
                   ++ PyFloat.repr result))
     else
       Return (py "Unknown operation: " ++ operation
                 ++ py ". Use: add, subtract, multiply, divide"))
    Exception
    (fun e => Return (py "Error calculating: " ++ exn_str e)).

Definition city_info : list (str * str) :=
  [ (py "New York", py "Population: ~8.3M, Known for: Times Square, Statue of Liberty");
    (py "Los Angeles", py "Population: ~3.9M, Known for: Hollywood, Beaches");
    (py "Chicago", py "Population: ~2.7M, Known for: Deep dish pizza, Architecture");
    (py "Houston", py "Population: ~2.3M, Known for: Space Center, Oil industry");
    (py "Phoenix", py "Population: ~1.6M, Known for: Desert, Sunshine");
    (py "Philadelphia", py "Population: ~1.6M, Known for: Liberty Bell, Cheesesteaks");
    (py "San Antonio", py "Population: ~1.5M, Known for: The Alamo, River Walk");
    (py "San Diego", py "Population: ~1.4M, Known for: Zoo, Perfect weather");
    (py "Dallas", py "Population: ~1.3M, Known for: Cowboys, BBQ");
    (py "Denver", py "Population: ~715K, Known for: Mountains, Mile high city") ].

Definition get_city_info (city_name : str) : str :=
  match PyStr.find city_name city_info with
  | Some info => city_name ++ py ": " ++ info
  | None =>
    let available := PyStr.join (py ", ") (PyStr.keys city_info) in
    not_found city_name available
  end.

(** [create_llm], given what building the Bedrock client and the chat
    model does: [true] stands for the model object, [false] for [None]. *)
Definition create_llm (bedrock : outcome unit) : M bool :=
  try_except
    (lift bedrock ;;;
     print (py "✅ Using AWS Bedrock Claude") ;;;
     ret true)
    Exception
    (fun e =>
       print (py "⚠️  Bedrock setup failed: " ++ exn_str e) ;;;
       print (py "❌ No LLM available. Please configure AWS Bedrock.") ;;;
       ret false).

Definition loop_labels : chat.labels :=
  {| chat.using_tool := py "🔧 Using @tool: ";
     chat.used_tool := py "🔧 Used @tool: ";
     chat.interrupt_goodbye := py "\n👋 Goodbye!" |}.

Definition tool_names : list str :=
  [py "get_city_weather"; py "calculate"; py "get_city_info"].

Definition interactive_agent_with_tools
    (bedrock : outcome unit) (script : list chat.turn) : M chat.session_end :=
  print (py "🤖 Basic Agent Demo - Interactive Chat with @tool Functions") ;;;
  print (PyStr.replicate 65 61) ;;;
  print (py "Available tools:") ;;;
  print (py "🌤️  Weather: Ask about weather in major US cities") ;;;
  print (py "🔢 Math: Ask for calculations (add, subtract, multiply, divide)") ;;;
  print (py "🏙️  City Info: Ask about city information") ;;;
  print (py "Type 'quit' to exit") ;;;
  print [] ;;;
  llm <- create_llm bedrock ;;
  if negb llm then ret chat.NoLLM
  else
    chat.create_react_agent tool_names ;;;
    print (py "🛠️  Agent ready with tools: "
             ++ to_str (unicode rt) (VList (map VStr tool_names))) ;;;
    print [] ;;;
    chat.loop (unicode rt) loop_labels script.

Definition demo_queries : list str :=
  [ py "What's the weather in Denver?";
    py "Calculate 25 plus 17";
    py "Tell me about Chicago";
    py "What's 15 times 8?";
    py "Get weather for San Francisco and info about the city" ].

(** [enumerate(l, start)]. *)
Fixpoint enumerate {A} (start : N) (l : list A) : list (N * A) :=
  match l with
  | [] => []
  | x :: r => (start, x) :: enumerate (start + 1) r
  end.

(** [for msg in response['messages'][1:-1]: ...] of the demo, which
    shows tool calls only. *)
Definition demo_tool_usage (r : chat.response) : M unit :=
  match r with
  | Some messages =>
    if (1 <? List.length messages)%nat then
      for_each (removelast (tl messages)) (fun msg =>
        match chat.tool_calls msg with
        | Some calls =>
          if truthy calls then
            items <- lift (iterate calls) ;;
            for_each items (fun tool_call =>
              n <- lift (getitem (unicode rt) tool_call (py "name")) ;;
              print (py "🔧 @tool used: " ++ to_str (unicode rt) n))
          else ret tt
        | None => ret tt
        end)
    else ret tt
  | None => ret tt
  end.

(** [response['messages'][-1].content], cut to 200 characters.  The
    class of a message is the framework's; [class_name] gives its name
    for the text of the [AttributeError]. *)
Definition demo_answer (class_name : chat.message -> str) (r : chat.response)
  : M unit :=
  match r with
  | Some (m :: ms) =>
    let last_message := last ms m in
    match chat.content last_message with
    | Some result =>
      shown <- lift (slice_to result 200) ;;
      size <- lift (len result) ;;
      print (py "🤖 Response: " ++ to_str (unicode rt) shown
               ++ (if (200 <? size)%nat then py "..." else []))
    | None =>
      raise {| exn_class := AttributeError;
               exn_str := py "'" ++ class_name last_message
                            ++ py "' object has no attribute 'content'" |}
    end
  | _ => print (py "❌ No response generated")
  end.

(** One pass of the demo's loop. *)
Definition demo_query (class_name : chat.message -> str)
    (ainvoke : str -> outcome chat.response) (numbered : N * str) : M unit :=
  let '(i, query) := numbered in
  print (py "\n🔍 Demo " ++ PyStr.of_N i ++ py ": " ++ query) ;;;
  try_except
    (response <- lift (ainvoke query) ;;
     demo_tool_usage response ;;;
     demo_answer class_name response)
    Exception
    (fun e => print (py "❌ Error: " ++ exn_str e)) ;;;
  print (PyStr.replicate 40 45).

Definition demo_mode (bedrock : outcome unit) (class_name : chat.message -> str)
    (ainvoke : str -> outcome chat.response) : M unit :=
  print (py "🎬 Demo Mode - Automated @tool Examples") ;;;
  print (PyStr.replicate 50 61) ;;;
  llm <- create_llm bedrock ;;
  if negb llm then ret tt
  else
    chat.create_react_agent tool_names ;;;
    for_each (enumerate 1 demo_queries) (demo_query class_name ainvoke).

End Tools.
End basic_agent.

(* ================================================================== *)
(** * weather_server.py *)
(* ================================================================== *)

Module weather_server.
Local Open Scope list_scope.
Local Open Scope py_scope.

Definition NWS_API_BASE : str := py "https://api.weather.gov".

Definition nl : str := [10%N].

Definition points_url (latitude longitude : float) : str :=
  NWS_API_BASE ++ py "/points/" ++ PyFloat.repr latitude ++ py ","
    ++ PyFloat.repr longitude.

Definition alerts_url (latitude longitude : float) : str :=
  NWS_API_BASE ++ py "/alerts/active?point=" ++ PyFloat.repr latitude
    ++ py "," ++ PyFloat.repr longitude.

Section Tools.
Variable rt : runtime.
Variable net : provider.

Definition item (v : value) (k : string) : M value :=
  lift (getitem (unicode rt) v (py k)).

Definition show (v : value) : str := to_str (unicode rt) v.

(** The three lines a forecast period adds to [result]. *)
Definition format_period (period : value) : M str :=
  n <- item period "name" ;;
  t <- item period "temperature" ;;
  u <- item period "temperatureUnit" ;;
  f <- item period "shortForecast" ;;
  d <- item period "detailedForecast" ;;
  d150 <- lift (slice_to d 150) ;;
  ret (show n ++ py ": " ++ show t ++ py "¬∞" ++ show u ++ nl
         ++ py "  Conditions: " ++ show f ++ nl
         ++ py "  Details: " ++ show d150 ++ py "..." ++ nl ++ nl).

Fixpoint format_periods (result : str) (periods : list value) : M str :=
  match periods with
  | [] => ret result
  | period :: r =>
    lines <- format_period period ;;
    format_periods (result ++ lines) r
  end.

Definition get_weather_forecast (latitude longitude : float) (location_name : str)
  : M value :=
  try_except
    (try_except
       (response <- http_get net (VStr (points_url latitude longitude)) ;;
        check_status response ;;;
        points_data <- lift (json response) ;;
        properties <- item points_data "properties" ;;
        forecast_url <- item properties "forecast" ;;
        office <- item properties "gridId" ;;
        grid_x <- item properties "gridX" ;;
        grid_y <- item properties "gridY" ;;
        forecast_response <- http_get net forecast_url ;;
        check_status forecast_response ;;;
        forecast_data <- lift (json forecast_response) ;;
        properties <- item forecast_data "properties" ;;
        periods <- item properties "periods" ;;
        let result := py "Weather Forecast for " ++ location_name ++ nl in
        let result := result ++ py "Weather Office: " ++ show office
                        ++ py ", Grid: (" ++ show grid_x ++ py ", " ++ show grid_y
                        ++ py ")" ++ nl ++ nl in
        first5 <- lift (slice_to periods 5) ;;
        items <- lift (iterate first5) ;;
        result <- format_periods result items ;;
        ret (VStr result))
       RequestException
       (fun e => ret (VStr (py "Error fetching weather data: " ++ exn_str e))))
    KeyError
    (fun e => ret (VStr (py "Error parsing weather data: " ++ exn_str e))).

(** [s.split(sep)] on a value that may not be a string. *)
Definition split_method (v : value) (sep : N) : outcome (list str) :=
  match v with
  | VStr s => Return (PyStr.split sep s)
  | _ => Raise (attribute_error v (py "split"))
  end.

Definition dict_get (v : value) (k : string) (default : value) : M value :=
  lift (get v (py k) default).

(** [props.get(k, {}).get('value')]: the reading under [k], [None] when
    there is none. *)
Definition reading (props : value) (k : string) : M value :=
  quantity <- dict_get props k (VDict []) ;;
  lift (get quantity (py "value") VNone).

(** [props[k]['value']]. *)
Definition value_of (props : value) (k : string) : M value :=
  quantity <- item props k ;;
  item quantity "value".

(** [(temp_c * 9/5) + 32]. *)
Definition fahrenheit (temp_c : value) : outcome value :=
  and_then (mul_int temp_c 9) (fun nine_times =>
  and_then (div_int nine_times 5) (fun scaled =>
  add_int scaled 32)).

(** What each of the five optional readings adds to [result]. *)
Definition temperature_line (props : value) : M str :=
  present <- reading props "temperature" ;;
  if truthy present then
    temp_c <- value_of props "temperature" ;;
    temp_f <- lift (fahrenheit temp_c) ;;
    f <- lift (format_1f temp_f) ;;
    c <- lift (format_1f temp_c) ;;
    ret (py "Temperature: " ++ f ++ py "¬∞F (" ++ c ++ py "¬∞C)" ++ nl)
  else ret [].

Definition conditions_line (props : value) : M str :=
  present <- dict_get props "textDescription" VNone ;;
  if truthy present then
    description <- item props "textDescription" ;;
    ret (py "Conditions: " ++ show description ++ nl)
  else ret [].

Definition wind_speed_line (props : value) : M str :=
  present <- reading props "windSpeed" ;;
  if truthy present then
    wind_ms <- value_of props "windSpeed" ;;
    wind_mph <- lift (mul_float wind_ms 2.237) ;;
    s <- lift (format_1f wind_mph) ;;
    ret (py "Wind Speed: " ++ s ++ py " mph" ++ nl)
  else ret [].

Definition wind_direction_line (props : value) : M str :=
  present <- reading props "windDirection" ;;
  if truthy present then
    direction <- value_of props "windDirection" ;;
    ret (py "Wind Direction: " ++ show direction ++ py "¬∞" ++ nl)
  else ret [].

Definition humidity_line (props : value) : M str :=
  present <- reading props "relativeHumidity" ;;
  if truthy present then
    humidity <- value_of props "relativeHumidity" ;;
    s <- lift (format_1f humidity) ;;
    ret (py "Humidity: " ++ s ++ py "%" ++ nl)
  else ret [].

Definition no_stations (location_name : str) : str :=
  py "No observation stations found for " ++ location_name.

Definition get_current_conditions (latitude longitude : float) (location_name : str)
  : M value :=
  try_except
    (response <- http_get net (VStr (points_url latitude longitude)) ;;
     check_status response ;;;
     points_data <- lift (json response) ;;
     properties <- item points_data "properties" ;;
     stations_url <- item properties "observationStations" ;;
     stations_response <- http_get net stations_url ;;
     check_status stations_response ;;;
     stations_data <- lift (json stations_response) ;;
     features <- item stations_data "features" ;;
     if truthy features then
       features <- item stations_data "features" ;;
       station <- lift (first_item features) ;;
       station_url <- item station "id" ;;
       let obs_url := show station_url ++ py "/observations/latest" in
       obs_response <- http_get net (VStr obs_url) ;;
       check_status obs_response ;;;
       obs_data <- lift (json obs_response) ;;
       props <- item obs_data "properties" ;;
       let result := py "Current Conditions for " ++ location_name ++ nl in
       features <- item stations_data "features" ;;
       station <- lift (first_item features) ;;
       station_properties <- item station "properties" ;;
       station_name <- item station_properties "name" ;;
       let result := result ++ py "Station: " ++ show station_name ++ nl in
       timestamp <- dict_get props "timestamp" (VStr (py "N/A")) ;;
       let result := result ++ py "Time: " ++ show timestamp ++ nl in
       temperature <- temperature_line props ;;
       conditions <- conditions_line props ;;
       wind_speed <- wind_speed_line props ;;
       wind_direction <- wind_direction_line props ;;
       humidity <- humidity_line props ;;
       ret (VStr (result ++ temperature ++ conditions ++ wind_speed
                    ++ wind_direction ++ humidity))
     else ret (VStr (no_stations location_name)))
    Exception
    (fun e => ret (VStr (py "Error getting current conditions: " ++ exn_str e))).

(** What one alert adds to [result]. *)
Definition format_alert (alert : value) : M str :=
  props <- item alert "properties" ;;
  event <- dict_get props "event" (VStr (py "Unknown")) ;;
  severity <- dict_get props "severity" (VStr (py "Unknown")) ;;
  urgency <- dict_get props "urgency" (VStr (py "Unknown")) ;;
  area_desc <- dict_get props "areaDesc" (VStr []) ;;
  areas <- lift (split_method area_desc 59) ;;
  let lines :=
    py "Alert: " ++ show event ++ nl
      ++ py "Severity: " ++ show severity ++ nl
      ++ py "Urgency: " ++ show urgency ++ nl
      ++ py "Areas: " ++ PyStr.join (py ", ") (firstn 3 areas) ++ nl in
  headline <- dict_get props "headline" VNone ;;
  lines <- (if truthy headline then
              h <- item props "headline" ;;
              ret (lines ++ py "Headline: " ++ show h ++ nl)
            else ret lines) ;;
  description <- dict_get props "description" VNone ;;
  lines <- (if truthy description then
              d <- item props "description" ;;
              d200 <- lift (slice_to d 200) ;;
              ret (lines ++ py "Description: " ++ show d200 ++ py "..." ++ nl)
            else ret lines) ;;
  ret (lines ++ nl ++ PyStr.replicate 30 45 ++ nl ++ nl).

Fixpoint format_alerts (result : str) (alerts : list value) : M str :=
  match alerts with
  | [] => ret result
  | alert :: r =>
    lines <- format_alert alert ;;
    format_alerts (result ++ lines) r
  end.

Definition no_active_alerts (location_name : str) : str :=
  py "No active weather alerts for " ++ location_name.

Definition get_weather_alerts (latitude longitude : float) (location_name : str)
  : M value :=
  try_except
    (response <- http_get net (VStr (weather_server.alerts_url latitude longitude)) ;;
     check_status response ;;;
     alerts_data <- lift (json response) ;;
     features <- dict_get alerts_data "features" (VList []) ;;
     if negb (truthy features) then ret (VStr (no_active_alerts location_name))
     else
       let result := py "Active Weather Alerts for " ++ location_name ++ nl in
       let result := result ++ PyStr.replicate 50 61 ++ nl ++ nl in
       first5 <- lift (slice_to features 5) ;;
       items <- lift (iterate first5) ;;
       result <- format_alerts result items ;;
       ret (VStr result))
    Exception
    (fun e => ret (VStr (py "Error getting weather alerts: " ++ exn_str e))).

Definition cities : list (str * (float * float)) :=
  [ (py "san francisco", (37.7749, -122.4194));
    (py "new york", (40.7128, -74.0060));
    (py "los angeles", (34.0522, -118.2437));
    (py "chicago", (41.8781, -87.6298));
    (py "houston", (29.7604, -95.3698));
    (py "phoenix", (33.4484, -112.0740));
    (py "philadelphia", (39.9526, -75.1652));
    (py "san antonio", (29.4241, -98.4936));
    (py "san diego", (32.7157, -117.1611));
    (py "dallas", (32.7767, -96.7970));
    (py "miami", (25.7617, -80.1918));
    (py "atlanta", (33.7490, -84.3880));
    (py "boston", (42.3601, -71.0589));
    (py "seattle", (47.6062, -122.3321));
    (py "denver", (39.7392, -104.9903)) ]%float.

Definition get_city_weather (city_name : str) : M value :=
  let city_lower := PyStr.lower (unicode rt) city_name in
  match PyStr.find city_lower cities with
  | Some (lat, lon) =>
    get_weather_forecast lat lon (PyStr.title (unicode rt) city_name)
  | None =>
    let available := PyStr.join (py ", ") (PyStr.sorted (PyStr.keys cities)) in
    ret (VStr (py "City '" ++ city_name ++ py "' not found. Available cities: "
                 ++ available))
  end.

End Tools.
End weather_server.

(* ================================================================== *)
(** * 2_agent_with_mcp.py *)
(* ================================================================== *)

Module agent_with_mcp.
Local Open Scope list_scope.
Local Open Scope py_scope.

(** One entry of the client configuration. *)
Record server_params := {
  command : str;
  args : list str
}.

Definition mcp_config : list (str * server_params) :=
  [ (py "math",
     {| command := py "/path/to/your/.venv/bin/python";
        args := [py "/path/to/your/math_server.py"] |});
    (py "weather",
     {| command := py "/path/to/your/.venv/bin/python";
        args := [py "/path/to/your/weather_server.py"] |}) ].

(** The remote tool client, as the script meets it: what entering
    [async with MultiServerMCPClient(config)] gives, what [get_tools]
    then returns (the tools by name), and what leaving the block raises,
    if anything. *)
Record client := {
  get_tools : outcome (list str);
  aexit : option exn
}.

Definition connector := list (str * server_params) -> outcome client.

(** What building the Bedrock client and the chat model does: the
    client object's truth value, then the model. *)
Record bedrock := {
  bedrock_client : outcome bool;
  chat_model : outcome unit
}.

Section Script.
Variable rt : runtime.

Definition create_llm (b : bedrock) : M bool :=
  llm <- try_except
           (client_ok <- lift (bedrock_client b) ;;
            if client_ok then
              lift (chat_model b) ;;;
              print (py "✅ Using AWS Bedrock Claude") ;;;
              ret true
            else ret false)
           Exception
           (fun e => print (py "⚠️  Bedrock setup failed: " ++ exn_str e) ;;; ret false) ;;
  if llm then ret true
  else
    print (py "❌ No LLM available. Please configure AWS Bedrock or add another LLM provider.") ;;;
    print (py "💡 Set up AWS credentials with: aws configure") ;;;
    ret false.

Definition loop_labels : chat.labels :=
  {| chat.using_tool := [10%N] ++ py "🔧 Using tool: ";
     chat.used_tool := [10%N] ++ py "🔧 Used tool: ";
     chat.interrupt_goodbye := [10%N] ++ py "👋 Goodbye!" |}.

(** [async with enter as c: body(c)]: the block's exception, or the one
    raised on leaving, goes on; nothing is suppressed. *)
Definition async_with {A} (enter : outcome client) (body : client -> M A)
    (still_inside : A -> bool) : M A :=
  c <- lift enter ;;
  fun w =>
    match body c w with
    | (Return a, w') =>
      if still_inside a then (Return a, w')
      else match aexit c with
           | Some e => (Raise e, w')
           | None => (Return a, w')
           end
    | (Raise e, w') =>
      match aexit c with
      | Some e' => (Raise e', w')
      | None => (Raise e, w')
      end
    end.

Definition interactive_chat (b : bedrock) (connect : connector)
    (script : list chat.turn) : M chat.session_end :=
  print (py "🤖 Interactive MCP Agent") ;;;
  print (PyStr.replicate 40 61) ;;;
  print (py "Type 'quit' to exit") ;;;
  print [] ;;;
  llm <- create_llm b ;;
  if negb llm then ret chat.NoLLM
  else
    try_except
      (async_with (connect mcp_config)
         (fun c =>
            print (py "🔗 Connected to MCP servers") ;;;
            tools <- lift (get_tools c) ;;
            chat.create_react_agent tools ;;;
            print (py "🛠️  Available tools: "
                     ++ to_str (unicode rt) (VList (map VStr tools))) ;;;
            print [] ;;;
            chat.loop (unicode rt) loop_labels script)
         (fun e => match e with chat.AwaitingInput => true | _ => false end))
      Exception
      (fun e =>
         print (py "❌ Failed to connect to MCP servers: " ++ exn_str e) ;;;
         ret chat.ConnectFailed).

End Script.
End agent_with_mcp.

(* ================================================================== *)
(** * 3_weather_agent_mcp.py *)
(* ================================================================== *)

Module weather_agent_mcp.
Local Open Scope list_scope.

Definition US_CITIES : list str :=
  [ py "New York"; py "Los Angeles"; py "Chicago"; py "Houston"; py "Phoenix";
    py "Philadelphia"; py "San Antonio"; py "San Diego"; py "Dallas"; py "Denver" ].

(** [datetime.now()], to the minute. *)
Record datetime := {
  year : N;
  month : N;
  day : N;
  hour : N;
  minute : N
}.

(** [strftime("%Y-%m-%d %H:%M")]. *)
Definition strftime (t : datetime) : str :=
  PyStr.zero_padded 4 (year t) ++ py "-" ++ PyStr.zero_padded 2 (month t) ++ py "-"
    ++ PyStr.zero_padded 2 (day t) ++ py " " ++ PyStr.zero_padded 2 (hour t) ++ py ":"
    ++ PyStr.zero_padded 2 (minute t).

(** The file system: each file by name, with its bytes; [None] where
    there is no file. *)
Definition disk := str -> option (list N).

Definition store (d : disk) (path : str) (bytes : list N) : disk :=
  fun p => if PyStr.eqb p path then Some bytes else d p.

(** What the platform decides: whether [open] succeeds, and how text is
    encoded on its way to the file. *)
Record platform := {
  open_error : str -> str -> option exn;
  encode : str -> outcome (list N)
}.

(** An open text file, by its path; writes go to its end. *)
Record file := { path : str }.

(** [open(path, mode)] for the modes that write: ["w"] empties the file,
    ["a"] keeps what is there; both create a missing file. *)
Definition open_ (pf : platform) (p mode : str) (d : disk) : outcome file * disk :=
  match open_error pf p mode with
  | Some e => (Raise e, d)
  | None =>
    if PyStr.eqb mode (py "w") then (Return {| path := p |}, store d p [])
    else
      match d p with
      | Some _ => (Return {| path := p |}, d)
      | None => (Return {| path := p |}, store d p [])
      end
  end.

(** [f.write(s)]: the encoded text goes to the end of the file. *)
Definition write (pf : platform) (f : file) (s : str) (d : disk) : outcome unit * disk :=
  match encode pf s with
  | Raise e => (Raise e, d)
  | Return bytes =>
    let old := match d (path f) with Some c => c | None => [] end in
    (Return tt, store d (path f) (old ++ bytes))
  end.

Definition append_to_weather_summary (pf : platform) (now : datetime)
    (report title : str) (d : disk) : outcome unit * disk :=
  let timestamp := strftime now in
  match open_ pf (py "weather_summary.txt") (py "a") d with
  | (Raise e, d0) => (Raise e, d0)
  | (Return f, d0) =>
    match write pf f ([10%N] ++ title ++ py " - " ++ timestamp ++ [10%N]) d0 with
    | (Raise e, d1) => (Raise e, d1)
    | (Return _, d1) =>
      match write pf f (PyStr.replicate 50 61 ++ [10%N]) d1 with
      | (Raise e, d2) => (Raise e, d2)
      | (Return _, d2) => write pf f (report ++ [10%N]) d2
      end
    end
  end.

(** [report + "\n"] for whatever object the caller hands over. *)
Definition plus_newline (report : value) : outcome str :=
  match report with
  | VStr s => Return (s ++ [10%N])
  | VList _ => Raise (cannot_concatenate report (py "str"))
  | _ => Raise (unsupported (py "+") report (py "str"))
  end.

(** [append_to_weather_summary] as it runs on any object: the heading
    and the rule are written before [report + "\n"] is evaluated. *)
Definition append_object (pf : platform) (now : datetime)
    (report : value) (title : str) (d : disk) : outcome unit * disk :=
  let timestamp := strftime now in
  match open_ pf (py "weather_summary.txt") (py "a") d with
  | (Raise e, d0) => (Raise e, d0)
  | (Return f, d0) =>
    match write pf f ([10%N] ++ title ++ py " - " ++ timestamp ++ [10%N]) d0 with
    | (Raise e, d1) => (Raise e, d1)
    | (Return _, d1) =>
      match write pf f (PyStr.replicate 50 61 ++ [10%N]) d1 with
      | (Raise e, d2) => (Raise e, d2)
      | (Return _, d2) =>
        match plus_newline report with
        | Raise e => (Raise e, d2)
        | Return text => write pf f text d2
        end
      end
    end
  end.

(** The script's only server. *)
Definition mcp_config : list (str * agent_with_mcp.server_params) :=
  [ (py "weather",
     {| agent_with_mcp.command := py "/path/to/your/.venv/bin/python";
        agent_with_mcp.args := [py "/path/to/your/weather_server.py"] |}) ].

Definition prompt : str :=
  py "Generate a comprehensive weather report for these major US cities: "
    ++ PyStr.join (py ", ") US_CITIES ++ py "." ++ [10%N] ++ [10%N]
    ++ py "For each city, please:" ++ [10%N]
    ++ py "1. Use the get_city_weather tool to get the weather forecast" ++ [10%N]
    ++ py "2. Present the information in a clear, organized format with each city's weather clearly separated" ++ [10%N]
    ++ py "3. Include temperature, conditions, and forecast details" ++ [10%N]
    ++ [10%N]
    ++ py "Use the available MCP weather tools to get the most current information for each city."
    ++ [10%N]
    ++ py "Format the output as a clean summary with clear headings for each city.".

(** What [agent.ainvoke] returns to this script: the mapping's
    ['messages'] if it has the key, each message by its [content] (an
    attribute every message class of the framework has). *)
Definition reply := option (list value).

(** The script acts on standard output and on the file system. *)
Definition session : Type := world * disk.

Definition IO (A : Type) : Type := session -> outcome A * session.

Definition done {A} (a : A) : IO A := fun s => (Return a, s).

Definition then_ {A B} (m : IO A) (f : A -> IO B) : IO B :=
  fun s =>
    match m s with
    | (Return a, s') => f a s'
    | (Raise e, s') => (Raise e, s')
    end.

(** A step on standard output, and a step on the file system. *)
Definition say {A} (m : M A) : IO A :=
  fun s => let '(o, w) := m (fst s) in (o, (w, snd s)).

Definition on_disk {A} (f : disk -> outcome A * disk) : IO A :=
  fun s => let '(o, d) := f (snd s) in (o, (fst s, d)).

(** [try: body / except cls as e: handler(e)]. *)
Definition attempt {A} (body : IO A) (cls : exc_class) (handler : exn -> IO A) : IO A :=
  fun s =>
    match body s with
    | (Raise e, s') => if isinstance e cls then handler e s' else (Raise e, s')
    | r => r
    end.

(** [async with enter as c: body(c)]: leaving the block may raise, and
    what it raises replaces what the block raised. *)
Definition with_client {A} (enter : outcome agent_with_mcp.client)
    (body : agent_with_mcp.client -> IO A) : IO A :=
  fun s =>
    match enter with
    | Raise e => (Raise e, s)
    | Return c =>
      match body c s, agent_with_mcp.aexit c with
      | (_, s'), Some e => (Raise e, s')
      | r, None => r
      end
    end.

Definition report_title : str := py "MCP 10-City Weather".

Definition generate_mcp_weather_report (rt : runtime) (bedrock : outcome unit)
    (connect : agent_with_mcp.connector) (ainvoke : str -> outcome reply)
    (pf : platform) (now : datetime) : IO unit :=
  then_ (say (print (py "🌤️  Generating MCP Weather Reports..."))) (fun _ =>
  then_ (attempt
           (say (bind (lift bedrock) (fun _ =>
                 bind (print (py "✅ Connected to AWS Bedrock")) (fun _ =>
                 ret true))))
           Exception
           (fun e =>
              say (bind (print (py "❌ Failed to setup LLM: " ++ exn_str e)) (fun _ =>
                   ret false)))) (fun llm =>
  if negb llm then done tt
  else
    attempt
      (then_ (say (print (py "🔗 Connecting to MCP weather server..."))) (fun _ =>
       with_client (connect mcp_config) (fun c =>
         then_ (say (print (py "✅ Connected to MCP server"))) (fun _ =>
         then_ (say (lift (agent_with_mcp.get_tools c))) (fun tools =>
         then_ (say (print (py "🛠️  Available MCP tools: "
                              ++ to_str (unicode rt) (VList (map VStr tools))))) (fun _ =>
         then_ (say (chat.create_react_agent tools)) (fun _ =>
         then_ (say (print (py "🔧 Running MCP agent to generate reports..."))) (fun _ =>
         then_ (say (lift (ainvoke prompt))) (fun response =>
         match response with
         | Some (m :: ms) =>
           let report := last ms m in
           then_ (say (print ([10%N] ++ PyStr.replicate 60 61))) (fun _ =>
           then_ (say (print (py "MCP WEATHER REPORT - 10 US CITIES"))) (fun _ =>
           then_ (say (print (PyStr.replicate 60 61))) (fun _ =>
           then_ (say (print (to_str (unicode rt) report))) (fun _ =>
           then_ (say (print (PyStr.replicate 60 61))) (fun _ =>
           then_ (on_disk (append_object pf now report report_title)) (fun _ =>
           say (print ([10%N] ++ py "✅ MCP report appended to weather_summary.txt"))))))))
         | _ => say (print (py "❌ No response generated"))
         end)))))))))
      Exception
      (fun e =>
         say (print (py "❌ Error connecting to MCP server or generating report: "
                       ++ exn_str e))))).

End weather_agent_mcp.

(* ================================================================== *)
(** * Instances on which the model is run *)
(* ================================================================== *)

(** Unicode tables that leave every code point beyond ASCII as it is.
    The inputs evaluated below are ASCII, for which the tables are never
    consulted. *)
Definition reference_unicode : unicode_db :=
  {| unicode_lower := map PyStr.lower_cp;
     unicode_title := PyStr.title_ascii false;
     unicode_decimal := fun _ => None;
     unicode_printable := fun _ => true |}.

(** A runtime that adds as Python 3.11 does; its [pow] is not reached by
    the inputs evaluated below. *)
Definition reference_runtime : runtime :=
  {| unicode := reference_unicode;
     libm_pow := fun _ _ => nan;
     complex_pow := fun _ _ => Return (VComplex nan nan);
     builtin_sum := sum_left_to_right |}.

Definition empty_world : world :=
  {| stdout := []; requested := []; agents := [] |}.

(** Letter case: two code points are the same letter when they are equal
    or one is the upper-case ASCII form of the other; two strings differ
    only in letter case when they are the same letters, place by place. *)
Definition same_letter (c d : N) : bool :=
  ((c =? d) || (PyStr.is_upper_cp c && (c + 32 =? d))
   || (PyStr.is_upper_cp d && (d + 32 =? c)))%N.

Definition caseless_eq (s t : str) : Prop :=
  Forall2 (fun c d => same_letter c d = true) s t.

(** A keyword in lower case: ASCII, no capital letter. *)
Definition lowercase_ascii (s : str) : bool :=
  forallb (fun d => (d <? 128)%N && negb (PyStr.is_upper_cp d)) s.

(* ================================================================== *)
(** * Facts about strings *)
(* ================================================================== *)

Lemma str_eqb_eq (s t : str) : PyStr.eqb s t = true <-> s = t.
Proof.
  revert t; induction s as [|c s IH]; intros [|d t]; simpl; split;
    try congruence; try reflexivity.
  - intros H. apply andb_true_iff in H as [H1 H2].
    apply N.eqb_eq in H1. apply IH in H2. congruence.
  - intros H. injection H as -> ->.
    rewrite N.eqb_refl. simpl. now apply IH.
Qed.

Lemma str_eqb_refl (s : str) : PyStr.eqb s s = true.
Proof. now apply str_eqb_eq. Qed.

Lemma str_eqb_neq (s t : str) : PyStr.eqb s t = false <-> s <> t.
Proof.
  split.
  - intros H E. apply str_eqb_eq in E. congruence.
  - intros H. destruct (PyStr.eqb s t) eqn:E; [|reflexivity].
    apply str_eqb_eq in E. contradiction.
Qed.


Lemma startswith_app (p s t : str) :
  PyStr.startswith p s = true -> PyStr.startswith p (s ++ t) = true.
Proof.
  revert s; induction p as [|c p IH]; intros [|d s]; simpl; try congruence.
  intros H. apply andb_true_iff in H as [H1 H2].
  rewrite H1. simpl. now apply IH.
Qed.

Lemma contains_app_l (p s t : str) :
  PyStr.contains p s = true -> PyStr.contains p (s ++ t) = true.
Proof.
  induction s as [|d s IH]; simpl.
  - rewrite orb_false_r. destruct p; [|discriminate].
    intros _. destruct t; reflexivity.
  - intros H. apply orb_true_iff in H as [H|H].
    + change (d :: s ++ t) with ((d :: s) ++ t).
      rewrite (startswith_app p (d :: s) t H). reflexivity.
    + rewrite (IH H). apply orb_true_r.
Qed.

Lemma contains_app_r (p s t : str) :
  PyStr.contains p t = true -> PyStr.contains p (s ++ t) = true.
Proof.
  intros H. induction s as [|d s IH]; simpl; [exact H|].
  rewrite IH. apply orb_true_r.
Qed.

Lemma contains_refl (p : str) : PyStr.contains p p = true.
Proof.
  assert (H : forall q, PyStr.startswith q q = true).
  { induction q as [|c q IH]; simpl; [reflexivity|].
    now rewrite N.eqb_refl, IH. }
  destruct p; simpl; [reflexivity|].
  rewrite N.eqb_refl, H. reflexivity.
Qed.

(** Every item of a joined list occurs in the joined string. *)
Lemma contains_join (sep x : str) (l : list str) :
  In x l -> PyStr.contains x (PyStr.join sep l) = true.
Proof.
  induction l as [|y l IH]; simpl; [contradiction|].
  intros [->|H].
  - destruct l; [apply contains_refl|].
    apply contains_app_l, contains_refl.
  - destruct l as [|z l]; [contradiction|].
    apply contains_app_r, contains_app_r. now apply IH.
Qed.

Lemma same_letter_lower (c d : N) :
  same_letter c d = true ->
  ((d <? 128)%N && negb (PyStr.is_upper_cp d)) = true ->
  (c <? 128)%N = true /\ PyStr.lower_cp c = d.
Proof.
  unfold same_letter, PyStr.lower_cp, PyStr.is_upper_cp.
  intros H K.
  apply andb_true_iff in K as [K1 K2]. apply N.ltb_lt in K1.
  apply negb_true_iff in K2.
  destruct ((65 <=? c)%N && (c <=? 90)%N) eqn:U.
  - apply andb_true_iff in U as [U1 U2].
    apply N.leb_le in U1. apply N.leb_le in U2.
    split; [apply N.ltb_lt; lia|].
    simpl in H. rewrite K2 in H. simpl in H. rewrite orb_false_r in H.
    apply orb_true_iff in H as [H|H]; apply N.eqb_eq in H; [|exact H].
    subst d. apply andb_false_iff in K2 as [K2|K2]; apply N.leb_gt in K2; lia.
  - simpl in H. rewrite K2 in H. simpl in H. rewrite !orb_false_r in H.
    apply N.eqb_eq in H. subst d. split; [now apply N.ltb_lt|reflexivity].
Qed.

(** A string that differs from a lower-case ASCII keyword only in letter
    case is ASCII, and [lower] maps it to the keyword, whatever the
    Unicode tables. *)
Lemma lower_caseless (db : unicode_db) (s k : str) :
  caseless_eq s k -> lowercase_ascii k = true -> PyStr.lower db s = k.
Proof.
  intros H K.
  assert (A : PyStr.isascii s = true /\ map PyStr.lower_cp s = k).
  { induction H as [|c d s k Hcd Hsk IH]; [split; reflexivity|].
    simpl in K. apply andb_true_iff in K as [K1 K2].
    destruct (same_letter_lower c d Hcd K1) as [E1 E2].
    destruct (IH K2) as [I1 I2].
    split; simpl; [now rewrite E1, I1 | now rewrite E2, I2]. }
  destruct A as [A1 A2]. unfold PyStr.lower. now rewrite A1.
Qed.

(* ================================================================== *)
(** * The arithmetic tools *)
(* ================================================================== *)

Arguments PyFloat.repr : simpl never.

Inductive operation := Add | Subtract | Multiply | Divide.

(** The name of an operation, as [calculate] compares it. *)
Definition keyword (op : operation) : str :=
  match op with
  | Add => py "add"
  | Subtract => py "subtract"
  | Multiply => py "multiply"
  | Divide => py "divide"
  end.

Definition symbol (op : operation) : str :=
  match op with
  | Add => py " + "
  | Subtract => py " - "
  | Multiply => py " × "
  | Divide => py " ÷ "
  end.

(** The binary64 operation: the exact result rounded to the nearest
    float, ties to even, infinite on overflow. *)
Definition binary64 (op : operation) (a b : float) : float :=
  match op with
  | Add => a + b
  | Subtract => a - b
  | Multiply => a * b
  | Divide => a / b
  end%float.

(** What [calculate] answers for a known operation. *)
Definition calculate_answer (op : operation) (a b : float) : str :=
  match op with
  | Divide =>
    if PyFloat.is_zero b then py "Error: Cannot divide by zero"
    else (PyFloat.repr a ++ symbol op ++ PyFloat.repr b ++ py " = "
            ++ PyFloat.repr (binary64 op a b))%list
  | _ =>
    (PyFloat.repr a ++ symbol op ++ PyFloat.repr b ++ py " = "
       ++ PyFloat.repr (binary64 op a b))%list
  end.

(** [r] is exactly the result of [op] on [a] and [b], as numbers: the
    fractions are compared by cross-multiplication (denominators are
    positive). *)
Definition exact_result (op : operation) (a b r : float) : Prop :=
  match PyFloat.exact a, PyFloat.exact b, PyFloat.exact r with
  | Some (na, da), Some (nb, db), Some (nr, dr) =>
    match op with
    | Add => ((na * db + nb * da) * dr = nr * (da * db))%Z
    | Subtract => ((na * db - nb * da) * dr = nr * (da * db))%Z
    | Multiply => ((na * nb) * dr = nr * (da * db))%Z
    | Divide => ((na * db) * dr = nr * (da * nb))%Z
    end
  | _, _, _ => False
  end.

Lemma keyword_lowercase (op : operation) : lowercase_ascii (keyword op) = true.
Proof. destruct op; reflexivity. Qed.

(** C1, as amended.  For all floats [a] and [b] and every operation name
    that equals add, subtract, multiply or divide up to letter case,
    [calculate] returns the line that shows the binary64 result of the
    operation (the exact result rounded to nearest, infinite on
    overflow); a division by zero returns the text "Error: Cannot divide
    by zero", and so does the math server's [divide], for every [a],
    leaving the output untouched. *)
Theorem calculate_arithmetic (rt : runtime) (a b : float) (name : str)
    (op : operation) :
  caseless_eq name (keyword op) ->
  basic_agent.calculate rt a b name = Return (calculate_answer op a b)
  /\ (PyFloat.is_zero b = true ->
      forall w, math_server.divide a b w
                = (Return (VStr (py "Error: Cannot divide by zero")), w)).
Proof.
  intros H. split.
  - pose proof (lower_caseless (unicode rt) name (keyword op) H
                  (keyword_lowercase op)) as L.
    unfold basic_agent.calculate. rewrite L.
    destruct op.
    + change (PyStr.eqb (keyword Add) (py "add")) with true.
      reflexivity.
    + change (PyStr.eqb (keyword Subtract) (py "add")) with false.
      change (PyStr.eqb (keyword Subtract) (py "subtract")) with true.
      reflexivity.
    + change (PyStr.eqb (keyword Multiply) (py "add")) with false.
      change (PyStr.eqb (keyword Multiply) (py "subtract")) with false.
      change (PyStr.eqb (keyword Multiply) (py "multiply")) with true.
      reflexivity.
    + change (PyStr.eqb (keyword Divide) (py "add")) with false.
      change (PyStr.eqb (keyword Divide) (py "subtract")) with false.
      change (PyStr.eqb (keyword Divide) (py "multiply")) with false.
      change (PyStr.eqb (keyword Divide) (py "divide")) with true.
      unfold calculate_answer, truediv.
      destruct (PyFloat.is_zero b); reflexivity.
  - intros Z w. unfold math_server.divide. rewrite Z. reflexivity.
Qed.

(** The theorem applies: the name ADD, in capitals, on 25 and 17. *)
Lemma calculate_arithmetic_witness :
  basic_agent.calculate reference_runtime 25 17 (py "ADD")
  = Return (calculate_answer Add 25 17)
  /\ (PyFloat.is_zero 17 = true ->
      forall w, math_server.divide 25 17 w
                = (Return (VStr (py "Error: Cannot divide by zero")), w)).
Proof.
  apply (calculate_arithmetic reference_runtime 25 17 (py "ADD") Add).
  repeat constructor.
Defined.

(** C1, as stated, fails.  Two finite numbers whose sum [calculate]
    shows as [inf], and two whose sum it shows as the first of them: in
    neither case is the number in the returned string the sum of the
    arguments. *)
Lemma calculate_not_exact :
  (PyFloat.is_finite 1e308 = true
   /\ basic_agent.calculate reference_runtime 1e308 1e308 (py "add")
      = Return (py "1e+308 + 1e+308 = inf")
   /\ ~ exact_result Add 1e308 1e308 (1e308 + 1e308))
  /\ (PyFloat.is_finite 1e16 = true /\ PyFloat.is_finite 1 = true
      /\ basic_agent.calculate reference_runtime 1e16 1 (py "add")
         = Return (py "1e+16 + 1.0 = 1e+16")
      /\ ~ exact_result Add 1e16 1 (1e16 + 1)).
Proof.
  split; [split; [|split] | split; [|split; [|split]]];
    try (vm_compute; reflexivity).
  - vm_compute. intros F. exact F.
  - vm_compute. discriminate.
Qed.

(** C4, as amended.  On 25 and 17 with the operation add, [calculate]
    returns exactly "25.0 + 17.0 = 42.0": the arguments are floats and
    are shown as floats. *)
Theorem calculate_25_plus_17 (rt : runtime) :
  basic_agent.calculate rt 25 17 (py "add") = Return (py "25.0 + 17.0 = 42.0").
Proof. vm_compute. reflexivity. Qed.

(** C4, as stated, fails: the returned string is not
    "25 + 17 = 42.0". *)
Lemma calculate_25_plus_17_not_as_stated :
  basic_agent.calculate reference_runtime 25 17 (py "add")
  = Return (py "25.0 + 17.0 = 42.0")
  /\ py "25.0 + 17.0 = 42.0" <> py "25 + 17 = 42.0".
Proof.
  split; [vm_compute; reflexivity|].
  vm_compute. discriminate.
Qed.

(** A provider whose every reply is the JSON document
    [{"properties": null}], with status 200. *)
Definition null_properties : provider :=
  fun _ _ => Return {| raise_for_status := None;
                       json := Return (VDict [(py "properties", VNone)]) |}.

(** C2 fails on the code.  [power] has no guard and no handler: zero to
    a negative power raises [ZeroDivisionError] to the caller, where
    [divide] next to it answers a zero divisor with a text.  The two
    forecast tools raise [TypeError] on a reply whose ["properties"] is
    [null]: the handlers of [get_weather_forecast] take
    [RequestException] and [KeyError] only, and the basic agent's
    [get_city_weather] has none. *)
Theorem tools_raise_to_the_caller (rt : runtime) (w : world) :
  math_server.power rt 0 (-1) w
  = (Raise {| exn_class := ZeroDivisionError;
              exn_str := py "0.0 cannot be raised to a negative power" |}, w)
  /\ math_server.divide 1 0 w
     = (Return (VStr (py "Error: Cannot divide by zero")), w)
  /\ fst (weather_server.get_weather_forecast rt null_properties
            39.7392 (-104.9903) (py "Denver") w)
     = Raise {| exn_class := TypeError;
                exn_str := py "'NoneType' object is not subscriptable" |}
  /\ fst (basic_agent.get_city_weather rt null_properties (py "Denver") w)
     = Raise {| exn_class := TypeError;
                exn_str := py "'NoneType' object is not subscriptable" |}.
Proof.
  split; [|split; [|split]]; vm_compute; reflexivity.
Qed.

(* ================================================================== *)
(** * The average of a list *)
(* ================================================================== *)


Lemma split_no_separator (sep : N) (s : str) :
  forallb (fun c => negb (c =? sep)%N) s = true -> PyStr.split sep s = [s].
Proof.
  induction s as [|c s IH]; simpl; [reflexivity|].
  intros H. apply andb_true_iff in H as [H1 H2].
  apply negb_true_iff in H1. rewrite H1, (IH H2). reflexivity.
Qed.

Lemma space_is_no_comma (s : str) :
  forallb PyStr.isspace s = true ->
  forallb (fun c => negb (c =? 44)%N) s = true.
Proof.
  induction s as [|c s IH]; simpl; [reflexivity|].
  intros H. apply andb_true_iff in H as [H1 H2].
  rewrite (IH H2), andb_true_r.
  destruct (c =? 44)%N eqn:E; [|reflexivity].
  apply N.eqb_eq in E. subst c. discriminate H1.
Qed.

Lemma lstrip_spaces (s : str) :
  forallb PyStr.isspace s = true -> PyStr.lstrip s = [].
Proof.
  induction s as [|c s IH]; simpl; [reflexivity|].
  intros H. apply andb_true_iff in H as [H1 H2]. now rewrite H1, IH.
Qed.

Lemma strip_spaces (s : str) :
  forallb PyStr.isspace s = true -> PyStr.strip s = [].
Proof.
  intros H. unfold PyStr.strip. rewrite (lstrip_spaces s H). reflexivity.
Qed.

(** The parsed items of a comma-separated string. *)
Definition parsed (rt : runtime) (numbers : str) : outcome (list float) :=
  comprehension (fun x => builtin_float (unicode rt) (PyStr.strip x))
                (PyStr.split 44 numbers).







(* ================================================================== *)
(** * The location lookup tools *)
(* ================================================================== *)

(** The text a lookup tool returns for a name it does not know. *)
Definition not_found_message (city_name : str) (valid : list str) : str :=
  (py "City '" ++ city_name ++ py "' not found. Available cities: "
     ++ PyStr.join (py ", ") valid)%list.

(** A text names every item of a list. *)
Definition lists_all (msg : str) (names : list str) : Prop :=
  Forall (fun k => PyStr.contains k msg = true) names.

Lemma not_found_lists_all (city_name : str) (valid names : list str) :
  incl names valid -> lists_all (not_found_message city_name valid) names.
Proof.
  intros H. apply Forall_forall. intros k K.
  unfold not_found_message.
  apply contains_app_r, contains_app_r, contains_app_r, contains_join.
  now apply H.
Qed.

Lemma find_some_key {A} (k : str) (d : list (str * A)) (v : A) :
  PyStr.find k d = Some v -> In k (PyStr.keys d).
Proof.
  induction d as [|[k' v'] d IH]; simpl; [discriminate|].
  destruct (PyStr.eqb k k') eqn:E.
  - apply str_eqb_eq in E. now left.
  - intros H. right. now apply IH.
Qed.

Ltac in_list := repeat (first [left; reflexivity | right]).

Lemma sorted_cities_complete :
  incl (PyStr.keys weather_server.cities)
       (PyStr.sorted (PyStr.keys weather_server.cities)).
Proof.
  intros k K. vm_compute in K. vm_compute.
  repeat (destruct K as [<-|K]; [in_list|]). contradiction.
Qed.

Lemma cities_lowercase (k : str) :
  In k (PyStr.keys weather_server.cities) -> lowercase_ascii k = true.
Proof.
  intros K. vm_compute in K.
  repeat (destruct K as [<-|K]; [reflexivity|]). contradiction.
Qed.

(** ** The requests a tool makes only grow *)

Definition grows {A} (m : M A) : Prop :=
  forall w, exists more, requested (snd (m w)) = requested w ++ more.

Lemma grows_ret {A} (a : A) : grows (ret a).
Proof. intros w. exists []. simpl. now rewrite app_nil_r. Qed.

Lemma grows_lift {A} (o : outcome A) : grows (lift o).
Proof. intros w. exists []. simpl. now rewrite app_nil_r. Qed.

Lemma grows_print (s : str) : grows (print s).
Proof. intros w. exists []. simpl. now rewrite app_nil_r. Qed.

Lemma grows_bind {A B} (m : M A) (f : A -> M B) :
  grows m -> (forall a, grows (f a)) -> grows (bind m f).
Proof.
  intros Hm Hf w. unfold bind.
  destruct (Hm w) as [r1 E1].
  destruct (m w) as [[a|e] w1]; simpl in *.
  - destruct (Hf a w1) as [r2 E2]. exists (r1 ++ r2).
    now rewrite E2, E1, app_assoc.
  - now exists r1.
Qed.

Lemma grows_try_except {A} (m : M A) (c : exc_class) (h : exn -> M A) :
  grows m -> (forall e, grows (h e)) -> grows (try_except m c h).
Proof.
  intros Hm Hh w. unfold try_except.
  destruct (Hm w) as [r1 E1].
  destruct (m w) as [[a|e] w1]; simpl in *.
  - now exists r1.
  - destruct (isinstance e c); simpl; [|now exists r1].
    destruct (Hh e w1) as [r2 E2]. exists (r1 ++ r2).
    now rewrite E2, E1, app_assoc.
Qed.

Lemma grows_http_get (net : provider) (url : value) : grows (http_get net url).
Proof. intros w. now exists [url]. Qed.

Lemma grows_check_status (r : response) : grows (check_status r).
Proof.
  intros w. exists []. unfold check_status.
  destruct (raise_for_status r); simpl; now rewrite app_nil_r.
Qed.

Lemma grows_make_nws_request (net : provider) (url : value) :
  grows (basic_agent.make_nws_request net url).
Proof.
  unfold basic_agent.make_nws_request.
  apply grows_try_except.
  - apply grows_bind; [apply grows_http_get|]. intros r.
    apply grows_bind; [apply grows_check_status|]. intros _. apply grows_lift.
  - intros e. apply grows_bind; [apply grows_print|]. intros _. apply grows_ret.
Qed.

Lemma grows_format_periods (rt : runtime) (l : list value) :
  grows (basic_agent.format_periods rt l).
Proof.
  induction l as [|p l IH]; simpl; [apply grows_ret|].
  apply grows_bind.
  - unfold basic_agent.format_period.
    repeat (apply grows_bind; [apply grows_lift|]; intros ?).
    apply grows_ret.
  - intros s. apply grows_bind; [exact IH|]. intros ?. apply grows_ret.
Qed.

(** The first request of [make_nws_request] is its argument, and it makes
    no other. *)
Lemma make_nws_request_requested (net : provider) (url : value) (w : world) :
  requested (snd (basic_agent.make_nws_request net url w)) = requested w ++ [url].
Proof.
  unfold basic_agent.make_nws_request, try_except, bind, http_get, check_status, lift.
  destruct (net (requested w) url) as [r|e]; simpl.
  - destruct (raise_for_status r) as [e|]; simpl.
    + destruct (isinstance e Exception); reflexivity.
    + destruct (json r) as [v|e]; simpl; [reflexivity|].
      destruct (isinstance e Exception); reflexivity.
  - destruct (isinstance e Exception); reflexivity.
Qed.

(** A name of the basic agent's table is looked up: the tool's first
    request is the point resolution for that city's coordinates. *)
Lemma basic_lookup_requests (rt : runtime) (net : provider) (city_name : str)
    (lat lon : float) (w : world) :
  PyStr.find city_name basic_agent.US_CITIES = Some (lat, lon) ->
  exists more,
    requested (snd (basic_agent.get_city_weather rt net city_name w))
    = requested w ++ VStr (basic_agent.points_url lat lon) :: more.
Proof.
  intros F. unfold basic_agent.get_city_weather. rewrite F.
  match goal with
  | |- context [bind (basic_agent.make_nws_request net ?u) ?k] =>
    set (url := u); set (rest := k)
  end.
  assert (G : forall v, grows (rest v)).
  { intros v. unfold rest.
    destruct (negb (truthy v)); [apply grows_ret|].
    repeat (apply grows_bind; [apply grows_lift|]; intros ?).
    apply grows_bind; [apply grows_make_nws_request|]. intros fd.
    destruct (negb (truthy fd)); [apply grows_ret|].
    repeat (apply grows_bind; [apply grows_lift|]; intros ?).
    apply grows_bind; [apply grows_format_periods|]. intros ?. apply grows_ret. }
  pose proof (make_nws_request_requested net url w) as R.
  unfold bind.
  destruct (basic_agent.make_nws_request net url w) as [[v|e] w1]; simpl in R |- *.
  - destruct (G v w1) as [more E]. exists more.
    rewrite E, R, <- app_assoc. reflexivity.
  - exists []. exact R.
Qed.

(** C3, as amended.  The weather server's [get_city_weather] matches a
    name against its table up to letter case: a name that differs from
    an entry only in letter case gets that entry's forecast.  The basic
    agent's [get_city_weather] and [get_city_info] match the exact name:
    an entry's own spelling is looked up.  Each of the three answers a
    name it does not match with a text that lists every city of its
    table. *)
Theorem city_lookup (rt : runtime) (net : provider) (city_name : str) (w : world) :
  (forall key lat lon,
     caseless_eq city_name key ->
     PyStr.find key weather_server.cities = Some (lat, lon) ->
     weather_server.get_city_weather rt net city_name w
     = weather_server.get_weather_forecast rt net lat lon
         (PyStr.title (unicode rt) city_name) w)
  /\ (PyStr.find (PyStr.lower (unicode rt) city_name) weather_server.cities = None ->
      let msg := not_found_message city_name
                   (PyStr.sorted (PyStr.keys weather_server.cities)) in
      weather_server.get_city_weather rt net city_name w = (Return (VStr msg), w)
      /\ lists_all msg (PyStr.keys weather_server.cities))
  /\ (forall lat lon,
        PyStr.find city_name basic_agent.US_CITIES = Some (lat, lon) ->
        exists more,
          requested (snd (basic_agent.get_city_weather rt net city_name w))
          = requested w ++ VStr (basic_agent.points_url lat lon) :: more)
  /\ (PyStr.find city_name basic_agent.US_CITIES = None ->
      let msg := not_found_message city_name (PyStr.keys basic_agent.US_CITIES) in
      basic_agent.get_city_weather rt net city_name w = (Return (VStr msg), w)
      /\ lists_all msg (PyStr.keys basic_agent.US_CITIES))
  /\ (forall info,
        PyStr.find city_name basic_agent.city_info = Some info ->
        basic_agent.get_city_info city_name = city_name ++ py ": " ++ info)
  /\ (PyStr.find city_name basic_agent.city_info = None ->
      let msg := not_found_message city_name (PyStr.keys basic_agent.city_info) in
      basic_agent.get_city_info city_name = msg
      /\ lists_all msg (PyStr.keys basic_agent.city_info)).
Proof.
  split; [|split; [|split; [|split; [|split]]]].
  - intros key lat lon C F.
    pose proof (cities_lowercase key (find_some_key _ _ _ F)) as L.
    unfold weather_server.get_city_weather.
    rewrite (lower_caseless (unicode rt) city_name key C L), F. reflexivity.
  - intros F msg. split.
    + unfold weather_server.get_city_weather. rewrite F. reflexivity.
    + apply not_found_lists_all, sorted_cities_complete.
  - intros lat lon F. now apply basic_lookup_requests.
  - intros F msg. split.
    + unfold basic_agent.get_city_weather. rewrite F. reflexivity.
    + apply not_found_lists_all, incl_refl.
  - intros info F. unfold basic_agent.get_city_info. now rewrite F.
  - intros F msg. split.
    + unfold basic_agent.get_city_info. now rewrite F.
    + apply not_found_lists_all, incl_refl.
Qed.

(** C3, as stated, fails.  The name "denver" differs from the entry
    "Denver" of the basic agent's table only in letter case, and both of
    its lookup tools answer that the city is not found. *)
Lemma basic_lookup_is_case_sensitive :
  caseless_eq (py "denver") (py "Denver")
  /\ In (py "Denver") (PyStr.keys basic_agent.US_CITIES)
  /\ basic_agent.get_city_weather reference_runtime null_properties (py "denver")
       empty_world
     = (Return (VStr (py "City 'denver' not found. Available cities: New York, Los Angeles, Chicago, Houston, Phoenix, Philadelphia, San Antonio, San Diego, Dallas, Denver")),
        empty_world)
  /\ basic_agent.get_city_info (py "denver")
     = py "City 'denver' not found. Available cities: New York, Los Angeles, Chicago, Houston, Phoenix, Philadelphia, San Antonio, San Diego, Dallas, Denver".
Proof.
  split; [|split; [|split]].
  - repeat constructor.
  - vm_compute. in_list.
  - vm_compute. reflexivity.
  - vm_compute. reflexivity.
Qed.

(** The theorem applies: DENVER, in capitals, on the weather server. *)
Lemma city_lookup_witness :
  weather_server.get_city_weather reference_runtime null_properties (py "DENVER")
    empty_world
  = weather_server.get_weather_forecast reference_runtime null_properties
      39.7392 (-104.9903) (py "Denver") empty_world.
Proof.
  destruct (city_lookup reference_runtime null_properties (py "DENVER") empty_world)
    as [H _].
  rewrite (H (py "denver") 39.7392%float (-104.9903)%float);
    [reflexivity | repeat constructor | reflexivity].
Defined.

(* ================================================================== *)
(** * The alerts tool *)
(* ================================================================== *)

(** The alert features of a reply: [alerts_data.get('features', [])]. *)
Definition features_of (alerts_data : value) : outcome value :=
  get alerts_data (py "features") (VList []).

(** The texts with which the tools of the weather server report a
    failure begin with the word Error. *)
Definition reports_error (s : str) : bool := PyStr.startswith (py "Error") s.

(** C5.  For every location, when the query for active alerts succeeds
    and its reply holds no alert feature, [get_weather_alerts] returns
    "No active weather alerts for" followed by the location name, having
    made that one request; the text is not an error report. *)
Theorem no_alerts_is_success (rt : runtime) (net : provider) (lat lon : float)
    (location_name : str) (w : world) (r : response) (alerts_data : value) :
  net (requested w) (VStr (weather_server.alerts_url lat lon)) = Return r ->
  raise_for_status r = None ->
  json r = Return alerts_data ->
  features_of alerts_data = Return (VList []) ->
  weather_server.get_weather_alerts rt net lat lon location_name w
  = (Return (VStr (py "No active weather alerts for " ++ location_name)),
     asked w (VStr (weather_server.alerts_url lat lon)))
  /\ reports_error (py "No active weather alerts for " ++ location_name) = false.
Proof.
  intros N S J F. split; [|reflexivity].
  unfold weather_server.get_weather_alerts, try_except, bind, http_get,
    check_status, weather_server.dict_get, lift.
  rewrite N, S, J. fold (features_of alerts_data). rewrite F. reflexivity.
Qed.

(** A provider that answers every request with an empty collection of
    features. *)
Definition no_features : provider :=
  fun _ _ =>
    Return {| raise_for_status := None;
              json := Return (VDict [(py "type", VStr (py "FeatureCollection"));
                                     (py "features", VList [])]) |}.

(** The theorem applies: Denver, with no alert in force. *)
Lemma no_alerts_is_success_witness :
  weather_server.get_weather_alerts reference_runtime no_features
    39.7392 (-104.9903) (py "Denver") empty_world
  = (Return (VStr (py "No active weather alerts for " ++ py "Denver")),
     asked empty_world (VStr (weather_server.alerts_url 39.7392 (-104.9903))))
  /\ reports_error (py "No active weather alerts for " ++ py "Denver") = false.
Proof.
  apply (no_alerts_is_success reference_runtime no_features 39.7392 (-104.9903)
           (py "Denver") empty_world
           {| raise_for_status := None;
              json := Return (VDict [(py "type", VStr (py "FeatureCollection"));
                                     (py "features", VList [])]) |}
           (VDict [(py "type", VStr (py "FeatureCollection"));
                   (py "features", VList [])]));
    reflexivity.
Defined.

(* ================================================================== *)
(** * The interactive loops *)
(* ================================================================== *)

(** What [except Exception] takes is no keyboard interrupt. *)
Lemma exception_is_no_interrupt (e : exn) :
  isinstance e Exception = true -> isinstance e KeyboardInterrupt = false.
Proof.
  destruct e as [c s]. destruct c; vm_compute; congruence.
Qed.

(** One pass of the loop, unfolded. *)
Lemma loop_cons (db : unicode_db) (lb : chat.labels) (t : chat.turn)
    (rest : list chat.turn) (w : world) :
  chat.loop db lb (t :: rest) w
  = match chat.attempt db lb t w with
    | (Return chat.Break, w') => (Return chat.ExitWord, w')
    | (Return chat.Continue, w') => chat.loop db lb rest w'
    | (Raise e, w') =>
      if isinstance e KeyboardInterrupt then
        (Return chat.Interrupted, printed w' [line (chat.interrupt_goodbye lb)])
      else if isinstance e Exception then
        chat.loop db lb rest (printed w' [line (py "❌ Error: " ++ exn_str e)])
      else (Raise e, w')
    end.
Proof.
  change (chat.loop db lb (t :: rest) w)
    with (match chat.attempt db lb t w with
          | (Return chat.Break, w') => (Return chat.ExitWord, w')
          | (Return chat.Continue, w') => chat.loop db lb rest w'
          | (Raise e, w') =>
            if isinstance e KeyboardInterrupt then
              bind (print (chat.interrupt_goodbye lb))
                   (fun _ => ret chat.Interrupted) w'
            else if isinstance e Exception then
              bind (print (py "❌ Error: " ++ exn_str e))
                   (fun _ => chat.loop db lb rest) w'
            else (Raise e, w')
          end).
  destruct (chat.attempt db lb t w) as [[[|]|e] w']; try reflexivity.
Qed.

(** A block that ends in [continue] never breaks out of the loop. *)
Definition never_breaks (m : M chat.step) : Prop :=
  forall w w', m w <> (Return chat.Break, w').

Lemma never_breaks_ret : never_breaks (ret chat.Continue).
Proof. intros w w' H. discriminate H. Qed.

Lemma never_breaks_bind {A} (m : M A) (f : A -> M chat.step) :
  (forall a, never_breaks (f a)) -> never_breaks (bind m f).
Proof.
  intros H w w' E. unfold bind in E.
  destruct (m w) as [[a|e] w1]; [now apply (H a w1 w')|discriminate].
Qed.

(** The loop breaks on an exit word only: the line typed, stripped and
    in lower case, is one of the five exit words. *)
Lemma attempt_break (db : unicode_db) (lb : chat.labels) (t : chat.turn)
    (w w' : world) :
  chat.attempt db lb t w = (Return chat.Break, w') ->
  exists typed_line,
    chat.typed t = Return typed_line
    /\ PyStr.mem (PyStr.lower db (PyStr.strip typed_line)) chat.exit_words = true.
Proof.
  unfold chat.attempt. intros H.
  unfold bind at 1 in H. unfold write at 1 in H. cbv beta iota in H.
  unfold bind at 1 in H. unfold lift at 1 in H. cbv beta iota in H.
  destruct (chat.typed t) as [typed_line|e]; [|discriminate].
  exists typed_line. split; [reflexivity|].
  destruct (PyStr.mem (PyStr.lower db (PyStr.strip typed_line)) chat.exit_words);
    [reflexivity|].
  exfalso. revert H.
  destruct (PyStr.strip typed_line); [discriminate|].
  apply never_breaks_bind. intros _.
  apply never_breaks_bind. intros r.
  apply never_breaks_bind. intros _.
  apply never_breaks_bind. intros _.
  apply never_breaks_bind. intros _.
  apply never_breaks_ret.
Qed.

(** A block raises faults only: whatever it raises is an instance of
    [Exception]. *)
Definition raises_only_faults {A} (m : M A) : Prop :=
  forall w e w', m w = (Raise e, w') -> isinstance e Exception = true.

Lemma faults_ret {A} (a : A) : raises_only_faults (ret a).
Proof. intros w e w' H. discriminate H. Qed.

Lemma faults_print (s : str) : raises_only_faults (print s).
Proof. intros w e w' H. discriminate H. Qed.

Lemma faults_bind {A B} (m : M A) (f : A -> M B) :
  raises_only_faults m -> (forall a, raises_only_faults (f a)) ->
  raises_only_faults (bind m f).
Proof.
  intros Hm Hf w e w' H. unfold bind in H.
  destruct (m w) as [[a|e1] w1] eqn:E.
  - now apply (Hf a w1 e w').
  - injection H as <- <-. now apply (Hm w e1 w1).
Qed.

Lemma faults_lift {A} (o : outcome A) :
  (forall e, o = Raise e -> isinstance e Exception = true) ->
  raises_only_faults (lift o).
Proof.
  intros H w e w' E. unfold lift in E. injection E as E _. now apply H.
Qed.

Lemma faults_for_each {A} (l : list A) (f : A -> M unit) :
  (forall a, raises_only_faults (f a)) -> raises_only_faults (for_each l f).
Proof.
  intros H. induction l as [|a l IH]; simpl; [apply faults_ret|].
  apply faults_bind; [apply H|]. intros _. exact IH.
Qed.

Lemma getitem_fault (db : unicode_db) (v : value) (k : str) (e : exn) :
  getitem db v k = Raise e -> isinstance e Exception = true.
Proof.
  destruct v; simpl; try (intros H; injection H as <-; reflexivity).
  destruct (lookup k d); [discriminate|].
  intros H; injection H as <-; reflexivity.
Qed.

Lemma iterate_fault (v : value) (e : exn) :
  iterate v = Raise e -> isinstance e Exception = true.
Proof.
  destruct v; simpl; try discriminate;
    intros H; injection H as <-; reflexivity.
Qed.

Lemma faults_show_tool_usage (db : unicode_db) (lb : chat.labels) (r : chat.response) :
  raises_only_faults (chat.show_tool_usage db lb r).
Proof.
  unfold chat.show_tool_usage.
  destruct r as [messages|]; [|apply faults_ret].
  destruct (1 <? List.length messages)%nat; [|apply faults_ret].
  apply faults_for_each. intros msg.
  assert (O : raises_only_faults
                match chat.name msg with
                | Some n => if truthy n
                            then print (chat.used_tool lb ++ to_str db n)
                            else ret tt
                | None => ret tt
                end).
  { destruct (chat.name msg) as [n|]; [|apply faults_ret].
    destruct (truthy n); [apply faults_print|apply faults_ret]. }
  destruct (chat.tool_calls msg) as [calls|]; [|exact O].
  destruct (truthy calls); [|exact O].
  apply faults_bind; [apply faults_lift, iterate_fault|]. intros items.
  apply faults_for_each. intros tool_call.
  apply faults_bind; [apply faults_lift, getitem_fault|]. intros n.
  apply faults_print.
Qed.

Lemma faults_show_answer (db : unicode_db) (r : chat.response) :
  raises_only_faults (chat.show_answer db r).
Proof.
  unfold chat.show_answer.
  destruct r as [[|m ms]|]; try apply faults_print.
  destruct (chat.content (last ms m)); apply faults_print.
Qed.

(** An exception is raised in a turn by [input] or by the agent. *)
Definition raised_in (t : chat.turn) (e : exn) : Prop :=
  chat.typed t = Raise e \/ chat.answer t = Raise e.

(** What a pass of the loop raises comes from [input] or from the agent,
    or it is a fault raised while the answer is shown. *)
Lemma attempt_raises (db : unicode_db) (lb : chat.labels) (t : chat.turn)
    (w w' : world) (e : exn) :
  chat.attempt db lb t w = (Raise e, w') ->
  raised_in t e \/ isinstance e Exception = true.
Proof.
  unfold chat.attempt, raised_in. intros H.
  unfold bind at 1 in H. unfold write at 1 in H. cbv beta iota in H.
  unfold bind at 1 in H. unfold lift at 1 in H. cbv beta iota in H.
  destruct (chat.typed t) as [typed_line|e1].
  2:{ injection H as <- _. now left; left. }
  destruct (PyStr.mem (PyStr.lower db (PyStr.strip typed_line)) chat.exit_words).
  { discriminate H. }
  destruct (PyStr.strip typed_line); [discriminate H|].
  unfold bind at 1 in H. unfold write at 1 in H. cbv beta iota in H.
  unfold bind at 1 in H. unfold lift at 1 in H. cbv beta iota in H.
  destruct (chat.answer t) as [r|e1].
  2:{ injection H as <- _. now left; right. }
  right. revert H. apply faults_bind; [apply faults_show_tool_usage|]. intros _.
  apply faults_bind; [apply faults_show_answer|]. intros _.
  apply faults_bind; [apply faults_print|]. intros _. apply faults_ret.
Qed.

(** How a session can stand after any script: at an exit word that was
    typed, at a keyboard interrupt that [input] or the agent raised,
    waiting for input, or left by an exception of [input] or of the
    agent that is no fault (no instance of [Exception]) and no keyboard
    interrupt. *)
Definition ended_properly (db : unicode_db) (script : list chat.turn)
    (r : outcome chat.session_end) : Prop :=
  match r with
  | Return chat.ExitWord =>
    exists t typed_line,
      In t script /\ chat.typed t = Return typed_line
      /\ PyStr.mem (PyStr.lower db (PyStr.strip typed_line)) chat.exit_words = true
  | Return chat.Interrupted =>
    exists t e,
      In t script /\ raised_in t e /\ isinstance e KeyboardInterrupt = true
  | Return chat.AwaitingInput => True
  | Return _ => False
  | Raise e =>
    exists t,
      In t script /\ raised_in t e
      /\ isinstance e Exception = false /\ isinstance e KeyboardInterrupt = false
  end.

(** Every exception that [input] or the agent raises along a script is a
    fault or a keyboard interrupt. *)
Definition only_faults_and_interrupts (script : list chat.turn) : Prop :=
  forall t e,
    In t script -> raised_in t e ->
    isinstance e Exception = true \/ isinstance e KeyboardInterrupt = true.

Lemma ended_properly_cons (db : unicode_db) (t : chat.turn)
    (script : list chat.turn) (r : outcome chat.session_end) :
  ended_properly db script r -> ended_properly db (t :: script) r.
Proof.
  destruct r as [[]|e]; simpl; try tauto.
  - intros (t' & l & I & H). exists t', l. tauto.
  - intros (t' & e & I & H). exists t', e. tauto.
  - intros (t' & I & H). exists t'. tauto.
Qed.

Lemma loop_ends_properly (db : unicode_db) (lb : chat.labels)
    (script : list chat.turn) (w : world) :
  ended_properly db script (fst (chat.loop db lb script w)).
Proof.
  revert w. induction script as [|t rest IH]; intros w; [exact I|].
  rewrite loop_cons.
  destruct (chat.attempt db lb t w) as [[[|]|e] w'] eqn:A.
  - destruct (attempt_break db lb t w w' A) as (l & T & X).
    exists t, l. simpl. tauto.
  - apply ended_properly_cons, IH.
  - destruct (attempt_raises db lb t w w' e A) as [R|F].
    + destruct (isinstance e KeyboardInterrupt) eqn:K.
      * exists t, e. simpl. tauto.
      * destruct (isinstance e Exception) eqn:X.
        -- apply ended_properly_cons, IH.
        -- exists t. simpl. tauto.
    + rewrite (exception_is_no_interrupt e F), F.
      apply ended_properly_cons, IH.
Qed.

(** Along a script on which nothing but faults and keyboard interrupts
    is raised, the session stands at an exit word, at a keyboard
    interrupt or at the prompt. *)
Lemma loop_ends_on_word_or_interrupt (db : unicode_db) (lb : chat.labels)
    (script : list chat.turn) (w : world) :
  only_faults_and_interrupts script ->
  fst (chat.loop db lb script w) = Return chat.ExitWord
  \/ fst (chat.loop db lb script w) = Return chat.Interrupted
  \/ fst (chat.loop db lb script w) = Return chat.AwaitingInput.
Proof.
  intros H. pose proof (loop_ends_properly db lb script w) as E.
  destruct (fst (chat.loop db lb script w)) as [[]|e]; simpl in E;
    try tauto; try contradiction.
  destruct E as (t & I & R & X & K).
  destruct (H t e I R); congruence.
Qed.

(** A Bedrock setup that succeeds. *)
Definition bedrock_ok : agent_with_mcp.bedrock :=
  {| agent_with_mcp.bedrock_client := Return true;
     agent_with_mcp.chat_model := Return tt |}.

(** With a model and a connected client, [interactive_chat] is the loop,
    started after the banner. *)
Lemma interactive_chat_is_the_loop (rt : runtime) (connect : agent_with_mcp.connector)
    (c : agent_with_mcp.client) (tools : list str) (script : list chat.turn)
    (w : world) :
  connect agent_with_mcp.mcp_config = Return c ->
  agent_with_mcp.get_tools c = Return tools ->
  agent_with_mcp.aexit c = None ->
  exists w',
    agent_with_mcp.interactive_chat rt bedrock_ok connect script w
    = chat.loop (unicode rt) agent_with_mcp.loop_labels script w'
    /\ agents w' = agents w ++ [tools].
Proof.
  intros C T X.
  unfold agent_with_mcp.interactive_chat, agent_with_mcp.create_llm, bedrock_ok,
    agent_with_mcp.async_with, agent_with_mcp.bedrock_client,
    agent_with_mcp.chat_model.
  rewrite C.
  unfold try_except, bind, print, write, lift, ret, chat.create_react_agent,
    isinstance.
  cbv beta iota. rewrite T. unfold negb. cbv beta iota.
  match goal with
  | |- context [chat.loop _ _ script ?w1] => exists w1
  end.
  split; [|reflexivity].
  pose proof (loop_ends_properly (unicode rt) agent_with_mcp.loop_labels script) as E.
  match goal with
  | |- context [chat.loop _ _ script ?w1] => specialize (E w1); set (start := w1) in *
  end.
  destruct (chat.loop (unicode rt) agent_with_mcp.loop_labels script start)
    as [[s|e] w2].
  - rewrite X. destruct s; reflexivity.
  - rewrite X. simpl in E. destruct E as (t & _ & _ & E & _).
    unfold isinstance in E. rewrite E. reflexivity.
Qed.

(** With a model, [interactive_agent_with_tools] is the loop, started
    after the banner. *)
Lemma interactive_agent_is_the_loop (rt : runtime) (script : list chat.turn)
    (w : world) :
  exists w',
    basic_agent.interactive_agent_with_tools rt (Return tt) script w
    = chat.loop (unicode rt) basic_agent.loop_labels script w'
    /\ agents w' = agents w ++ [basic_agent.tool_names].
Proof.
  unfold basic_agent.interactive_agent_with_tools, basic_agent.create_llm.
  unfold try_except, bind, print, write, lift, ret, chat.create_react_agent.
  unfold negb. cbv beta iota.
  match goal with
  | |- context [chat.loop _ _ script ?w1] => exists w1
  end.
  split; reflexivity.
Qed.

(** C7.  In the interactive loop of either script, a turn that raises a
    fault (an instance of [Exception], from [input], from the agent or
    from showing its answer) prints the error and the loop goes on with
    the next turn; and along any script of turns on which nothing but
    faults and keyboard interrupts is raised, the session stands at an
    exit word that was typed, at a keyboard interrupt that was raised,
    or at the prompt for the next input.  Both scripts run this loop. *)
Theorem faults_do_not_end_the_session (rt : runtime) (script : list chat.turn)
    (w : world) :
  (forall lb t rest w0 e w1,
     chat.attempt (unicode rt) lb t w0 = (Raise e, w1) ->
     isinstance e Exception = true ->
     chat.loop (unicode rt) lb (t :: rest) w0
     = chat.loop (unicode rt) lb rest
         (printed w1 [line (py "❌ Error: " ++ exn_str e)]))
  /\ (forall lb,
        ended_properly (unicode rt) script (fst (chat.loop (unicode rt) lb script w))
        /\ (only_faults_and_interrupts script ->
            fst (chat.loop (unicode rt) lb script w) = Return chat.ExitWord
            \/ fst (chat.loop (unicode rt) lb script w) = Return chat.Interrupted
            \/ fst (chat.loop (unicode rt) lb script w) = Return chat.AwaitingInput))
  /\ (exists w',
        basic_agent.interactive_agent_with_tools rt (Return tt) script w
        = chat.loop (unicode rt) basic_agent.loop_labels script w')
  /\ (forall connect c tools,
        connect agent_with_mcp.mcp_config = Return c ->
        agent_with_mcp.get_tools c = Return tools ->
        agent_with_mcp.aexit c = None ->
        exists w',
          agent_with_mcp.interactive_chat rt bedrock_ok connect script w
          = chat.loop (unicode rt) agent_with_mcp.loop_labels script w').
Proof.
  split; [|split; [|split]].
  - intros lb t rest w0 e w1 A X.
    rewrite loop_cons, A, (exception_is_no_interrupt e X), X. reflexivity.
  - intros lb. split; [apply loop_ends_properly|].
    apply loop_ends_on_word_or_interrupt.
  - destruct (interactive_agent_is_the_loop rt script w) as (w' & E & _).
    now exists w'.
  - intros connect c tools C T X.
    destruct (interactive_chat_is_the_loop rt connect c tools script w C T X)
      as (w' & E & _).
    now exists w'.
Qed.

(** A turn in which the agent fails, and a turn in which the user types
    an exit word. *)
Definition failing_turn : chat.turn :=
  {| chat.typed := Return (py "hello");
     chat.answer := Raise {| exn_class := RuntimeError; exn_str := py "boom" |} |}.

Definition quit_turn : chat.turn :=
  {| chat.typed := Return (py "Quit");
     chat.answer := Return None |}.

(** The theorem applies: after the failing turn the loop goes on with
    the turn that follows. *)
Lemma faults_do_not_end_the_session_witness :
  chat.loop reference_unicode basic_agent.loop_labels [failing_turn; quit_turn]
    empty_world
  = chat.loop reference_unicode basic_agent.loop_labels [quit_turn]
      (printed (printed (printed empty_world [py "You: "]) [py "🤖 Agent: "])
         [line (py "❌ Error: boom")]).
Proof.
  apply (proj1 (faults_do_not_end_the_session reference_runtime [] empty_world)
           basic_agent.loop_labels failing_turn [quit_turn] empty_world
           {| exn_class := RuntimeError; exn_str := py "boom" |});
    reflexivity.
Defined.

(** The same session, run to its end: the error is shown, the user is
    prompted again, and the exit word ends the session. *)
Example failing_turn_then_quit :
  chat.loop reference_unicode basic_agent.loop_labels [failing_turn; quit_turn]
    empty_world
  = (Return chat.ExitWord,
     printed empty_world
       [py "You: "; py "🤖 Agent: "; line (py "❌ Error: boom");
        py "You: "; line (py "👋 Goodbye!")]).
Proof. vm_compute. reflexivity. Qed.

(* ================================================================== *)
(** * Starting the remote tool client *)
(* ================================================================== *)

(** The world after some lines were printed, one by one. *)
Definition after_lines (w : world) (lines : list str) : world :=
  fold_left (fun w l => printed w [line l]) lines w.

(** What [interactive_chat] prints before it connects. *)
Definition banner : list str :=
  [py "🤖 Interactive MCP Agent"; PyStr.replicate 40 61; py "Type 'quit' to exit";
   []; py "✅ Using AWS Bedrock Claude"].

(** When the client does not start, no agent is built, whatever the
    Bedrock setup did. *)
Lemma no_client_no_agent (rt : runtime) (b : agent_with_mcp.bedrock)
    (connect : agent_with_mcp.connector) (script : list chat.turn) (w : world)
    (e : exn) :
  connect agent_with_mcp.mcp_config = Raise e ->
  agents (snd (agent_with_mcp.interactive_chat rt b connect script w)) = agents w.
Proof.
  intros C.
  unfold agent_with_mcp.interactive_chat, agent_with_mcp.create_llm,
    agent_with_mcp.async_with.
  rewrite C.
  unfold try_except, bind, print, write, lift, ret. cbv beta iota.
  destruct (agent_with_mcp.bedrock_client b) as [[|]|e1]; cbv beta iota.
  - destruct (agent_with_mcp.chat_model b) as [[]|e2]; cbv beta iota.
    + unfold negb. cbv beta iota. destruct (isinstance e Exception); reflexivity.
    + destruct (isinstance e2 Exception); reflexivity.
  - reflexivity.
  - destruct (isinstance e1 Exception); reflexivity.
Qed.

(** C8, as amended.  When the client's start-up raises, the session
    never builds an agent, with whatever tools; when what it raises is
    an instance of [Exception], the session ends there, having printed
    the banner and one line: "Failed to connect to MCP servers:"
    followed by the text of the exception, whatever that text names. *)
Theorem connection_failure_aborts (rt : runtime) (b : agent_with_mcp.bedrock)
    (connect : agent_with_mcp.connector) (script : list chat.turn) (w : world)
    (e : exn) :
  connect agent_with_mcp.mcp_config = Raise e ->
  agents (snd (agent_with_mcp.interactive_chat rt b connect script w)) = agents w
  /\ (isinstance e Exception = true ->
      agent_with_mcp.interactive_chat rt bedrock_ok connect script w
      = (Return chat.ConnectFailed,
         after_lines w
           (banner ++ [py "❌ Failed to connect to MCP servers: " ++ exn_str e]))).
Proof.
  intros C. split; [now apply (no_client_no_agent rt b connect script w e)|].
  intros X.
  unfold agent_with_mcp.interactive_chat, agent_with_mcp.create_llm, bedrock_ok,
    agent_with_mcp.async_with, agent_with_mcp.bedrock_client,
    agent_with_mcp.chat_model.
  rewrite C.
  unfold try_except, bind, print, write, lift, ret. unfold negb.
  cbv beta iota. rewrite X. reflexivity.
Qed.

(** A client whose start-up fails as a missing interpreter does. *)
Definition missing_interpreter : exn :=
  {| exn_class := OSError;
     exn_str := py "[Errno 2] No such file or directory: '/path/to/your/.venv/bin/python'" |}.

Definition unreachable : agent_with_mcp.connector :=
  fun _ => Raise missing_interpreter.

(** The theorem applies: the start-up fails, on the script of one exit
    word. *)
Lemma connection_failure_aborts_witness :
  agents (snd (agent_with_mcp.interactive_chat reference_runtime bedrock_ok
                 unreachable [quit_turn] empty_world))
  = agents empty_world
  /\ (isinstance missing_interpreter Exception = true ->
      agent_with_mcp.interactive_chat reference_runtime bedrock_ok unreachable
        [quit_turn] empty_world
      = (Return chat.ConnectFailed,
         after_lines empty_world
           (banner ++ [py "❌ Failed to connect to MCP servers: "
                         ++ exn_str missing_interpreter]))).
Proof.
  exact (connection_failure_aborts reference_runtime bedrock_ok unreachable
           [quit_turn] empty_world missing_interpreter eq_refl).
Defined.

(** C8, as stated, fails.  The client is configured with the servers
    math and weather; its start-up fails; the one diagnostic line is
    "Failed to connect to MCP servers:" with the text of the exception,
    and no line of the output names either server. *)
Lemma diagnostic_names_no_server :
  PyStr.keys agent_with_mcp.mcp_config = [py "math"; py "weather"]
  /\ last (stdout (snd (agent_with_mcp.interactive_chat reference_runtime bedrock_ok
                          unreachable [] empty_world))) []
     = line (py "❌ Failed to connect to MCP servers: [Errno 2] No such file or directory: '/path/to/your/.venv/bin/python'")
  /\ existsb (fun l => PyStr.contains (py "math") l || PyStr.contains (py "weather") l)
       (stdout (snd (agent_with_mcp.interactive_chat reference_runtime bedrock_ok
                       unreachable [] empty_world)))
     = false.
Proof.
  split; [|split]; vm_compute; reflexivity.
Qed.

(* ================================================================== *)
(** * The weather log *)
(* ================================================================== *)

Definition summary_file : str := py "weather_summary.txt".

(** The bytes of a file that may not exist. *)
Definition bytes_of (d : weather_agent_mcp.disk) (p : str) : list N :=
  match d p with
  | Some c => c
  | None => []
  end.

(** The three texts of a report section, in the order written: the
    title with the timestamp, the rule, the report. *)
Definition heading (now : weather_agent_mcp.datetime) (title : str) : str :=
  [10%N] ++ title ++ py " - " ++ weather_agent_mcp.strftime now ++ [10%N].

Definition rule : str := PyStr.replicate 50 61 ++ [10%N].

Definition body (report : str) : str := report ++ [10%N].

Lemma store_same (d : weather_agent_mcp.disk) (p : str) (c : list N) :
  weather_agent_mcp.store d p c p = Some c.
Proof. unfold weather_agent_mcp.store. now rewrite str_eqb_refl. Qed.

Lemma store_other (d : weather_agent_mcp.disk) (p q : str) (c : list N) :
  q <> p -> weather_agent_mcp.store d p c q = d q.
Proof.
  intros H. unfold weather_agent_mcp.store.
  apply str_eqb_neq in H. now rewrite H.
Qed.




(** Run on a log that holds the text "old" and a platform that writes
    UTF-8: the log keeps "old" and gains the section. *)
Definition utf8_platform : weather_agent_mcp.platform :=
  {| weather_agent_mcp.open_error := fun _ _ => None;
     weather_agent_mcp.encode := fun s => Return (PyStr.utf8_encode s) |}.

Example log_after_one_report :
  snd (weather_agent_mcp.append_to_weather_summary utf8_platform
         {| weather_agent_mcp.year := 2025; weather_agent_mcp.month := 3;
            weather_agent_mcp.day := 9; weather_agent_mcp.hour := 7;
            weather_agent_mcp.minute := 5 |}
         (py "Sunny") (py "MCP 10-City Weather")
         (fun p => if PyStr.eqb p summary_file then Some (py "old") else None))
    summary_file
  = Some (PyStr.utf8_encode
            (py "old" ++ [10%N] ++ py "MCP 10-City Weather - 2025-03-09 07:05"
               ++ [10%N] ++ PyStr.replicate 50 61 ++ [10%N] ++ py "Sunny" ++ [10%N])).
Proof. vm_compute. reflexivity. Qed.

(* ================================================================== *)
(** * Further properties: what the tools return, raise and request *)
(* ================================================================== *)

(** ** The calculator of the basic agent *)


(** ** What a block raises, returns and requests *)

(** Whatever the block raises satisfies [P]. *)
Definition raises_within {A} (P : exn -> Prop) (m : M A) : Prop :=
  forall w e w', m w = (Raise e, w') -> P e.

(** Whatever the block returns satisfies [P]. *)
Definition returns_within {A} (P : A -> Prop) (m : M A) : Prop :=
  forall w a w', m w = (Return a, w') -> P a.

(** The block makes at most [n] requests, and takes none back. *)
Definition asks_at_most {A} (n : nat) (m : M A) : Prop :=
  forall w, exists more,
    requested (snd (m w)) = requested w ++ more /\ (List.length more <= n)%nat.

(** The block prints nothing. *)
Definition silent {A} (m : M A) : Prop :=
  forall w, stdout (snd (m w)) = stdout w.

Lemma raises_ret {A} (P : exn -> Prop) (a : A) : raises_within P (ret a).
Proof. intros w e w' H. discriminate H. Qed.

Lemma raises_print (P : exn -> Prop) (s : str) : raises_within P (print s).
Proof. intros w e w' H. discriminate H. Qed.

Lemma raises_lift {A} (P : exn -> Prop) (o : outcome A) :
  (forall e, o = Raise e -> P e) -> raises_within P (lift o).
Proof. intros H w e w' E. injection E as E _. now apply H. Qed.

Lemma raises_bind {A B} (P : exn -> Prop) (m : M A) (f : A -> M B) :
  raises_within P m -> (forall a, raises_within P (f a)) ->
  raises_within P (bind m f).
Proof.
  intros Hm Hf w e w' H. unfold bind in H.
  destruct (m w) as [[a|e1] w1] eqn:E.
  - now apply (Hf a w1 e w').
  - injection H as <- <-. now apply (Hm w e1 w1).
Qed.

Lemma raises_weaken {A} (P Q : exn -> Prop) (m : M A) :
  (forall e, P e -> Q e) -> raises_within P m -> raises_within Q m.
Proof. intros PQ H w e w' E. apply PQ. now apply (H w e w'). Qed.

(** A handler that returns: the handled class does not leave the [try]. *)
Lemma raises_try_except {A} (P : exn -> Prop) (m : M A) (c : exc_class)
    (h : exn -> M A) :
  raises_within P m -> (forall e, raises_within (fun _ => False) (h e)) ->
  raises_within (fun e => P e /\ isinstance e c = false) (try_except m c h).
Proof.
  intros Hm Hh w e w' H. unfold try_except in H.
  destruct (m w) as [[a|e1] w1] eqn:E; [discriminate H|].
  destruct (isinstance e1 c) eqn:I.
  - destruct (Hh e1 w1 e w' H).
  - injection H as <- <-. split; [now apply (Hm w e1 w1)|exact I].
Qed.

Lemma returns_ret {A} (P : A -> Prop) (a : A) : P a -> returns_within P (ret a).
Proof. intros H w a' w' E. injection E as <- _. exact H. Qed.

Lemma returns_bind {A B} (P : B -> Prop) (m : M A) (f : A -> M B) :
  (forall a, returns_within P (f a)) -> returns_within P (bind m f).
Proof.
  intros Hf w b w' H. unfold bind in H.
  destruct (m w) as [[a|e1] w1]; [|discriminate H].
  now apply (Hf a w1 b w').
Qed.

Lemma returns_try_except {A} (P : A -> Prop) (m : M A) (c : exc_class)
    (h : exn -> M A) :
  returns_within P m -> (forall e, returns_within P (h e)) ->
  returns_within P (try_except m c h).
Proof.
  intros Hm Hh w a w' H. unfold try_except in H.
  destruct (m w) as [[a1|e1] w1] eqn:E.
  - injection H as <- <-. now apply (Hm w a1 w1).
  - destruct (isinstance e1 c); [|discriminate H]. now apply (Hh e1 w1 a w').
Qed.

Lemma asks_weaken {A} (n k : nat) (m : M A) :
  (n <= k)%nat -> asks_at_most n m -> asks_at_most k m.
Proof.
  intros L H w. destruct (H w) as [more [E B]]. exists more. split; [exact E|lia].
Qed.

Lemma asks_ret {A} (a : A) : asks_at_most 0 (ret a).
Proof. intros w. exists []. split; [symmetry; apply app_nil_r|apply le_n]. Qed.

Lemma asks_lift {A} (o : outcome A) : asks_at_most 0 (lift o).
Proof. intros w. exists []. split; [symmetry; apply app_nil_r|apply le_n]. Qed.

Lemma asks_print (s : str) : asks_at_most 0 (print s).
Proof. intros w. exists []. split; [symmetry; apply app_nil_r|apply le_n]. Qed.

Lemma asks_http_get (net : provider) (url : value) : asks_at_most 1 (http_get net url).
Proof. intros w. exists [url]. split; [reflexivity|apply le_n]. Qed.

Lemma asks_check_status (r : response) : asks_at_most 0 (check_status r).
Proof.
  unfold check_status. destruct (raise_for_status r); intros w; exists [];
    (split; [symmetry; apply app_nil_r|apply le_n]).
Qed.

Lemma asks_bind {A B} (n k : nat) (m : M A) (f : A -> M B) :
  asks_at_most n m -> (forall a, asks_at_most k (f a)) ->
  asks_at_most (n + k) (bind m f).
Proof.
  intros Hm Hf w. unfold bind.
  destruct (Hm w) as [l1 [E1 B1]].
  destruct (m w) as [[a|e] w1]; simpl in E1.
  - destruct (Hf a w1) as [l2 [E2 B2]]. exists (l1 ++ l2). split.
    + rewrite E2, E1. symmetry. apply app_assoc.
    + rewrite length_app. lia.
  - exists l1. split; [exact E1|lia].
Qed.

Lemma asks_try_except {A} (n k : nat) (m : M A) (c : exc_class) (h : exn -> M A) :
  asks_at_most n m -> (forall e, asks_at_most k (h e)) ->
  asks_at_most (n + k) (try_except m c h).
Proof.
  intros Hm Hh w. unfold try_except.
  destruct (Hm w) as [l1 [E1 B1]].
  destruct (m w) as [[a|e] w1]; simpl in E1.
  - exists l1. split; [exact E1|lia].
  - destruct (isinstance e c).
    + destruct (Hh e w1) as [l2 [E2 B2]]. exists (l1 ++ l2). split.
      * rewrite E2, E1. symmetry. apply app_assoc.
      * rewrite length_app. lia.
    + exists l1. split; [exact E1|lia].
Qed.

Lemma silent_ret {A} (a : A) : silent (ret a).
Proof. intros w. reflexivity. Qed.

Lemma silent_lift {A} (o : outcome A) : silent (lift o).
Proof. intros w. reflexivity. Qed.

Lemma silent_http_get (net : provider) (url : value) : silent (http_get net url).
Proof. intros w. reflexivity. Qed.

Lemma silent_check_status (r : response) : silent (check_status r).
Proof. unfold check_status. destruct (raise_for_status r); intros w; reflexivity. Qed.

Lemma silent_bind {A B} (m : M A) (f : A -> M B) :
  silent m -> (forall a, silent (f a)) -> silent (bind m f).
Proof.
  intros Hm Hf w. unfold bind. pose proof (Hm w) as E.
  destruct (m w) as [[a|e] w1]; simpl in E.
  - rewrite (Hf a w1). exact E.
  - exact E.
Qed.

Lemma silent_try_except {A} (m : M A) (c : exc_class) (h : exn -> M A) :
  silent m -> (forall e, silent (h e)) -> silent (try_except m c h).
Proof.
  intros Hm Hh w. unfold try_except. pose proof (Hm w) as E.
  destruct (m w) as [[a|e] w1]; simpl in E; [exact E|].
  destruct (isinstance e c); [|exact E]. rewrite (Hh e w1). exact E.
Qed.

(** ** Fetching a document for the basic agent *)

(** What the three calls of a fetch give when nothing is caught: the
    decoded document, or the first exception. *)
Definition fetched (net : provider) (url : value) (w : world) : outcome value :=
  and_then (net (requested w) url) (fun r =>
    match raise_for_status r with
    | Some e => Raise e
    | None => json r
    end).

(** X2.  [make_nws_request] makes exactly one request.  It raises no
    fault: a fault of the request, of the status check or of the
    decoding is printed on one line and answered with [None]; only an
    exception that is no [Exception] leaves it.  A document is returned
    as it was decoded, with nothing printed. *)
Theorem make_nws_request_absorbs_faults (net : provider) (url : value) (w : world) :
  let r := basic_agent.make_nws_request net url w in
  requested (snd r) = requested w ++ [url]
  /\ match fetched net url w with
     | Return v => r = (Return v, asked w url)
     | Raise e =>
       if isinstance e Exception then
         r = (Return VNone,
              printed (asked w url) [line (py "Error making NWS request: " ++ exn_str e)])
       else r = (Raise e, asked w url)
     end.
Proof.
  cbv zeta. split; [apply make_nws_request_requested|].
  unfold fetched, basic_agent.make_nws_request, try_except, bind, http_get,
    check_status, lift, and_then.
  destruct (net (requested w) url) as [r|e]; cbv beta iota.
  - destruct (raise_for_status r) as [e|]; cbv beta iota.
    + unfold raise. destruct (isinstance e Exception); reflexivity.
    + unfold ret. cbv beta iota. destruct (json r) as [v|e]; [reflexivity|].
      destruct (isinstance e Exception); reflexivity.
  - destruct (isinstance e Exception); reflexivity.
Qed.

Lemma returns_lift {A} (o : outcome A) : returns_within (fun a => o = Return a) (lift o).
Proof. intros w a w' E. injection E as E _. exact E. Qed.

Lemma returns_bind_from {A B} (Q : A -> Prop) (P : B -> Prop) (m : M A)
    (f : A -> M B) :
  returns_within Q m -> (forall a, Q a -> returns_within P (f a)) ->
  returns_within P (bind m f).
Proof.
  intros Hm Hf w b w' H. unfold bind in H.
  destruct (m w) as [[a|e1] w1] eqn:E; [|discriminate H].
  apply (Hf a (Hm w a w1 E) w1 b w' H).
Qed.

(** ** The forecast of the basic agent *)

(** The faults of a malformed document: a missing key or a value of the
    wrong type. *)
Definition shape_fault (e : exn) : Prop :=
  exn_class e = TypeError \/ exn_class e = KeyError.

Lemma getitem_shape_fault (db : unicode_db) (v : value) (k : str) (e : exn) :
  getitem db v k = Raise e -> shape_fault e.
Proof.
  destruct v; simpl; try (intros H; injection H as <-; left; reflexivity).
  destruct (lookup k d); [discriminate|].
  intros H; injection H as <-; right; reflexivity.
Qed.

Lemma slice_to_shape_fault (v : value) (n : nat) (e : exn) :
  slice_to v n = Raise e -> shape_fault e.
Proof.
  destruct v; simpl; try discriminate; intros H; injection H as <-; left; reflexivity.
Qed.

Lemma iterate_shape_fault (v : value) (e : exn) :
  iterate v = Raise e -> shape_fault e.
Proof.
  destruct v; simpl; try discriminate; intros H; injection H as <-; left; reflexivity.
Qed.

(** A slice of a value holds at most as many items as were asked for. *)
Lemma slice_to_items (v u : value) (n : nat) (items : list value) :
  slice_to v n = Return u -> iterate u = Return items ->
  (List.length items <= n)%nat.
Proof.
  destruct v; simpl; try discriminate; intros H; injection H as <-; simpl;
    intros I; injection I as <-.
  - rewrite length_map. apply firstn_le_length.
  - apply firstn_le_length.
Qed.

(** What leaves a fetch is no fault. *)
Lemma make_nws_request_raises (net : provider) (url : value) :
  raises_within (fun e => isinstance e Exception = false)
                (basic_agent.make_nws_request net url).
Proof.
  unfold basic_agent.make_nws_request.
  eapply raises_weaken;
    [|apply (raises_try_except (fun _ => True))].
  - intros e [_ H]. exact H.
  - intros w e w' _. exact I.
  - intros e. apply raises_bind; [apply raises_print|]. intros _. apply raises_ret.
Qed.

Lemma asks_make_nws_request (net : provider) (url : value) :
  asks_at_most 1 (basic_agent.make_nws_request net url).
Proof.
  intros w. exists [url]. split; [apply make_nws_request_requested|apply le_n].
Qed.

Definition forecast_line (l : str) : Prop := PyStr.startswith (py "  ") l = true.

Lemma basic_format_period_returns (rt : runtime) (period : value) :
  returns_within forecast_line (basic_agent.format_period rt period).
Proof.
  unfold basic_agent.format_period.
  do 4 (apply returns_bind; intros ?).
  apply returns_ret. reflexivity.
Qed.

Lemma basic_format_periods_returns (rt : runtime) (periods : list value) :
  returns_within
    (fun forecasts => List.length forecasts = List.length periods
                      /\ Forall forecast_line forecasts)
    (basic_agent.format_periods rt periods).
Proof.
  induction periods as [|p r IH]; simpl.
  - apply returns_ret. split; [reflexivity|constructor].
  - eapply returns_bind_from; [apply basic_format_period_returns|].
    intros l Hl.
    eapply returns_bind_from; [apply IH|].
    intros ls [Hn Hf]. apply returns_ret. split.
    + simpl. now rewrite Hn.
    + now constructor.
Qed.

Lemma basic_format_periods_shape (rt : runtime) (periods : list value) :
  raises_within shape_fault (basic_agent.format_periods rt periods).
Proof.
  induction periods as [|p r IH]; simpl; [apply raises_ret|].
  apply raises_bind.
  - unfold basic_agent.format_period.
    do 4 (apply raises_bind; [apply raises_lift, getitem_shape_fault|]; intros ?).
    apply raises_ret.
  - intros l. apply raises_bind; [exact IH|]. intros ls. apply raises_ret.
Qed.

Lemma asks_basic_format_periods (rt : runtime) (periods : list value) :
  asks_at_most 0 (basic_agent.format_periods rt periods).
Proof.
  induction periods as [|p r IH]; simpl; [apply asks_ret|].
  apply (asks_bind 0 0).
  - unfold basic_agent.format_period.
    do 4 (apply (asks_bind 0 0); [apply asks_lift|]; intros ?).
    apply asks_ret.
  - intros l. apply (asks_bind 0 0); [exact IH|]. intros ls. apply asks_ret.
Qed.

(** The four answers of the basic agent's [get_city_weather]. *)
Definition basic_weather_answer (city_name : str) (v : value) : Prop :=
  v = VStr (not_found_message city_name (PyStr.keys basic_agent.US_CITIES))
  \/ v = VStr (py "Unable to fetch forecast data for " ++ city_name ++ py ".")
  \/ v = VStr (py "Unable to fetch detailed forecast for " ++ city_name ++ py ".")
  \/ exists forecasts,
       (List.length forecasts <= 3)%nat
       /\ Forall forecast_line forecasts
       /\ v = VStr (city_name ++ py " Weather Forecast:\n"
                      ++ PyStr.join (py "\n") forecasts).

(** X3.  Whatever the basic agent's [get_city_weather] returns is one of
    four texts: the list of the cities it knows, one of the two texts
    for a fetch that gave nothing, or the heading with at most three
    forecast lines, each indented by two blanks. *)
Theorem basic_weather_answers (rt : runtime) (net : provider) (city_name : str)
    (w : world) (v : value) :
  fst (basic_agent.get_city_weather rt net city_name w) = Return v ->
  basic_weather_answer city_name v.
Proof.
  intros H.
  assert (R : returns_within (basic_weather_answer city_name)
                (basic_agent.get_city_weather rt net city_name)).
  { unfold basic_agent.get_city_weather.
    destruct (PyStr.find city_name basic_agent.US_CITIES) as [[lat lon]|].
    2:{ apply returns_ret. left. reflexivity. }
    apply returns_bind. intros points_data.
    destruct (negb (truthy points_data)).
    { apply returns_ret. right. left. reflexivity. }
    do 2 (apply returns_bind; intros ?).
    apply returns_bind. intros forecast_data.
    destruct (negb (truthy forecast_data)).
    { apply returns_ret. right. right. left. reflexivity. }
    do 2 (apply returns_bind; intros ?).
    eapply returns_bind_from; [apply returns_lift|]. intros first3 S3.
    eapply returns_bind_from; [apply returns_lift|]. intros items It.
    eapply returns_bind_from; [apply basic_format_periods_returns|].
    intros forecasts [Hn Hf]. apply returns_ret.
    right. right. right. exists forecasts. split; [|split; [exact Hf|reflexivity]].
    rewrite Hn. exact (slice_to_items _ _ _ _ S3 It). }
  destruct (basic_agent.get_city_weather rt net city_name w) as [o w'] eqn:E.
  simpl in H. subst o. exact (R w v w' E).
Qed.

(** A provider for Denver: the point resolution, then a forecast of four
    periods. *)
Definition period (name forecast : string) (temperature : Z) : value :=
  VDict [(py "name", VStr (py name)); (py "temperature", VInt temperature);
         (py "temperatureUnit", VStr (py "F")); (py "shortForecast", VStr (py forecast));
         (py "detailedForecast", VStr (py forecast))].

Definition four_periods : value :=
  VDict [(py "properties",
          VDict [(py "periods",
                  VList [period "Tonight" "Clear" 41; period "Monday" "Sunny" 65;
                         period "Monday Night" "Mostly Clear" 43;
                         period "Tuesday" "Windy" 58])])].

Definition denver_grid : value :=
  VDict [(py "properties",
          VDict [(py "forecast", VStr (py "https://api.weather.gov/gridpoints/BOU/63,62/forecast"));
                 (py "gridId", VStr (py "BOU")); (py "gridX", VInt 63);
                 (py "gridY", VInt 62)])].

Definition denver_forecast : provider :=
  fun past _ =>
    Return {| raise_for_status := None;
              json := Return match past with [] => denver_grid | _ => four_periods end |}.

Definition denver_answer : value :=
  VStr (py "Denver Weather Forecast:\n  Tonight: 41°F - Clear\n  Monday: 65°F - Sunny\n  Monday Night: 43°F - Mostly Clear").

(** The theorem applies: of four periods, three are shown. *)
Lemma basic_weather_answers_witness : basic_weather_answer (py "Denver") denver_answer.
Proof.
  apply (basic_weather_answers reference_runtime denver_forecast (py "Denver")
           empty_world denver_answer).
  vm_compute. reflexivity.
Defined.

(** X4.  The basic agent's [get_city_weather] makes at most two
    requests.  A fault of the network never leaves it; the faults it
    raises come from a document of an unexpected shape, as a [KeyError]
    or a [TypeError]. *)
Theorem basic_weather_failures (rt : runtime) (net : provider) (city_name : str)
    (w : world) :
  let r := basic_agent.get_city_weather rt net city_name w in
  (exists more, requested (snd r) = requested w ++ more /\ (List.length more <= 2)%nat)
  /\ (forall e, fst r = Raise e ->
        isinstance e Exception = false \/ shape_fault e).
Proof.
  cbv zeta. split.
  - revert w. change (asks_at_most 2 (basic_agent.get_city_weather rt net city_name)).
    unfold basic_agent.get_city_weather.
    destruct (PyStr.find city_name basic_agent.US_CITIES) as [[lat lon]|].
    2:{ apply (asks_weaken 0); [lia|apply asks_ret]. }
    apply (asks_bind 1 1); [apply asks_make_nws_request|]. intros points_data.
    destruct (negb (truthy points_data)).
    { apply (asks_weaken 0); [lia|apply asks_ret]. }
    do 2 (apply (asks_bind 0 1); [apply asks_lift|]; intros ?).
    apply (asks_bind 1 0); [apply asks_make_nws_request|]. intros forecast_data.
    destruct (negb (truthy forecast_data)); [apply asks_ret|].
    do 4 (apply (asks_bind 0 0); [apply asks_lift|]; intros ?).
    apply (asks_bind 0 0); [apply asks_basic_format_periods|]. intros ?.
    apply asks_ret.
  - intros e H.
    assert (R : raises_within
                  (fun e => isinstance e Exception = false \/ shape_fault e)
                  (basic_agent.get_city_weather rt net city_name)).
    { unfold basic_agent.get_city_weather.
      destruct (PyStr.find city_name basic_agent.US_CITIES) as [[lat lon]|].
      2:{ apply raises_ret. }
      apply raises_bind.
      { eapply raises_weaken; [|apply make_nws_request_raises]. intros; now left. }
      intros points_data.
      destruct (negb (truthy points_data)); [apply raises_ret|].
      do 2 (apply raises_bind;
            [apply raises_lift; intros ? G; right; exact (getitem_shape_fault _ _ _ _ G)|];
            intros ?).
      apply raises_bind.
      { eapply raises_weaken; [|apply make_nws_request_raises]. intros; now left. }
      intros forecast_data.
      destruct (negb (truthy forecast_data)); [apply raises_ret|].
      do 2 (apply raises_bind;
            [apply raises_lift; intros ? G; right; exact (getitem_shape_fault _ _ _ _ G)|];
            intros ?).
      apply raises_bind;
        [apply raises_lift; intros ? G; right; exact (slice_to_shape_fault _ _ _ G)|].
      intros first3.
      apply raises_bind;
        [apply raises_lift; intros ? G; right; exact (iterate_shape_fault _ _ G)|].
      intros items.
      apply raises_bind.
      { eapply raises_weaken; [|apply basic_format_periods_shape]. intros; now right. }
      intros ?. apply raises_ret. }
    destruct (basic_agent.get_city_weather rt net city_name w) as [o w'] eqn:E.
    simpl in H. subst o. exact (R w e w' E).
Qed.

Lemma returns_try_except_from {A} (P : A -> Prop) (m : M A) (c : exc_class)
    (h : exn -> M A) :
  returns_within P m ->
  (forall e, isinstance e c = true -> returns_within P (h e)) ->
  returns_within P (try_except m c h).
Proof.
  intros Hm Hh w a w' H. unfold try_except in H.
  destruct (m w) as [[a1|e1] w1] eqn:E.
  - injection H as <- <-. now apply (Hm w a1 w1).
  - destruct (isinstance e1 c) eqn:I; [|discriminate H].
    now apply (Hh e1 I w1 a w').
Qed.

Lemma returns_weaken {A} (P Q : A -> Prop) (m : M A) :
  (forall a, P a -> Q a) -> returns_within P m -> returns_within Q m.
Proof. intros PQ H w a w' E. apply PQ. now apply (H w a w'). Qed.

(** Steps that neither print nor request. *)
Ltac quiet_steps :=
  repeat first
    [ apply asks_ret | apply asks_lift | apply asks_check_status
    | apply silent_ret | apply silent_lift | apply silent_check_status
    | apply silent_http_get
    | apply (asks_bind 0 0); [|intros ?]
    | apply silent_bind; [|intros ?]
    | match goal with
      | |- asks_at_most _ (if ?b then _ else _) => destruct b
      | |- silent (if ?b then _ else _) => destruct b
      end ].

(** ** The forecast of the weather server *)

(** A block of three lines, which ends with the dots of the cut-off
    details and an empty line. *)
Definition forecast_block (b : str) : Prop :=
  exists text, b = text ++ py "..." ++ weather_server.nl ++ weather_server.nl.

Lemma server_format_period_returns (rt : runtime) (period : value) :
  returns_within forecast_block (weather_server.format_period rt period).
Proof.
  unfold weather_server.format_period.
  do 6 (apply returns_bind; intros ?).
  apply returns_ret. eexists.
  repeat rewrite app_assoc. reflexivity.
Qed.

Lemma server_format_periods_returns (rt : runtime) (periods : list value) (result : str) :
  returns_within
    (fun s => exists blocks,
                List.length blocks = List.length periods
                /\ Forall forecast_block blocks
                /\ s = result ++ List.concat blocks)
    (weather_server.format_periods rt result periods).
Proof.
  revert result. induction periods as [|p r IH]; intros result; simpl.
  - apply returns_ret. exists []. split; [reflexivity|].
    split; [constructor|]. simpl. symmetry. apply app_nil_r.
  - eapply returns_bind_from; [apply server_format_period_returns|].
    intros b Hb. eapply returns_weaken; [|apply IH].
    intros s [blocks [Hn [Hf Hs]]]. exists (b :: blocks). split; [simpl; now rewrite Hn|].
    split; [now constructor|]. simpl. rewrite Hs. symmetry. apply app_assoc.
Qed.

Lemma server_format_periods_quiet (rt : runtime) (periods : list value) (result : str) :
  asks_at_most 0 (weather_server.format_periods rt result periods)
  /\ silent (weather_server.format_periods rt result periods).
Proof.
  revert result. induction periods as [|p r IH]; intros result; simpl.
  - split; quiet_steps.
  - split.
    + apply (asks_bind 0 0).
      * unfold weather_server.format_period, weather_server.item. quiet_steps.
      * intros ?. apply IH.
    + apply silent_bind.
      * unfold weather_server.format_period, weather_server.item. quiet_steps.
      * intros ?. apply IH.
Qed.

(** The three answers of [get_weather_forecast]. *)
Definition forecast_answer (location_name : str) (v : value) : Prop :=
  (exists e, isinstance e RequestException = true
             /\ v = VStr (py "Error fetching weather data: " ++ exn_str e))
  \/ (exists e, isinstance e KeyError = true
                /\ v = VStr (py "Error parsing weather data: " ++ exn_str e))
  \/ exists office grid_x grid_y blocks,
       (List.length blocks <= 5)%nat
       /\ Forall forecast_block blocks
       /\ v = VStr ((py "Weather Forecast for " ++ location_name ++ weather_server.nl)
                      ++ (py "Weather Office: " ++ office ++ py ", Grid: (" ++ grid_x
                            ++ py ", " ++ grid_y ++ py ")" ++ weather_server.nl
                            ++ weather_server.nl)
                      ++ List.concat blocks).

(** X5.  Whatever [get_weather_forecast] returns is a text of one of
    three kinds: the report of a failed request, the report of a missing
    key, or the heading with the office and the grid, followed by at
    most five blocks, each ending with the dots that follow the details
    and an empty line. *)
Theorem forecast_answers (rt : runtime) (net : provider) (latitude longitude : float)
    (location_name : str) (w : world) (v : value) :
  fst (weather_server.get_weather_forecast rt net latitude longitude location_name w)
  = Return v ->
  forecast_answer location_name v.
Proof.
  intros H.
  assert (R : returns_within (forecast_answer location_name)
                (weather_server.get_weather_forecast rt net latitude longitude
                   location_name)).
  { unfold weather_server.get_weather_forecast.
    apply returns_try_except_from.
    2:{ intros e I. apply returns_ret. right. left. exists e. now split. }
    apply returns_try_except_from.
    2:{ intros e I. apply returns_ret. left. exists e. now split. }
    do 5 (apply returns_bind; intros ?).
    apply returns_bind; intros office.
    apply returns_bind; intros grid_x.
    apply returns_bind; intros grid_y.
    do 5 (apply returns_bind; intros ?).
    eapply returns_bind_from; [apply returns_lift|]. intros first5 S5.
    eapply returns_bind_from; [apply returns_lift|]. intros items It.
    eapply returns_bind_from; [apply server_format_periods_returns|].
    intros s [blocks [Hn [Hf Hs]]]. apply returns_ret.
    right. right.
    exists (weather_server.show rt office), (weather_server.show rt grid_x),
      (weather_server.show rt grid_y), blocks.
    split; [|split; [exact Hf|]].
    - rewrite Hn. exact (slice_to_items _ _ _ _ S5 It).
    - rewrite Hs. f_equal. symmetry. apply app_assoc. }
  destruct (weather_server.get_weather_forecast rt net latitude longitude
              location_name w) as [o w'] eqn:E.
  simpl in H. subst o. exact (R w v w' E).
Qed.

Definition denver_report : value :=
  VStr (py "Weather Forecast for Denver" ++ weather_server.nl
          ++ py "Weather Office: BOU, Grid: (63, 62)" ++ weather_server.nl
          ++ weather_server.nl
          ++ py "Tonight: 41¬∞F" ++ weather_server.nl
          ++ py "  Conditions: Clear" ++ weather_server.nl
          ++ py "  Details: Clear..." ++ weather_server.nl ++ weather_server.nl
          ++ py "Monday: 65¬∞F" ++ weather_server.nl
          ++ py "  Conditions: Sunny" ++ weather_server.nl
          ++ py "  Details: Sunny..." ++ weather_server.nl ++ weather_server.nl
          ++ py "Monday Night: 43¬∞F" ++ weather_server.nl
          ++ py "  Conditions: Mostly Clear" ++ weather_server.nl
          ++ py "  Details: Mostly Clear..." ++ weather_server.nl ++ weather_server.nl
          ++ py "Tuesday: 58¬∞F" ++ weather_server.nl
          ++ py "  Conditions: Windy" ++ weather_server.nl
          ++ py "  Details: Windy..." ++ weather_server.nl ++ weather_server.nl).

(** The theorem applies: Denver, with a forecast of four periods. *)
Lemma forecast_answers_witness : forecast_answer (py "Denver") denver_report.
Proof.
  apply (forecast_answers reference_runtime denver_forecast 39.7392 (-104.9903)
           (py "Denver") empty_world denver_report).
  vm_compute. reflexivity.
Defined.

(** X6.  [get_weather_forecast] makes at most two requests and prints
    nothing.  What it raises is neither a [RequestException] nor a
    [KeyError]: those two are answered with a text. *)
Theorem forecast_failures (rt : runtime) (net : provider) (latitude longitude : float)
    (location_name : str) (w : world) :
  let r := weather_server.get_weather_forecast rt net latitude longitude
             location_name w in
  (exists more, requested (snd r) = requested w ++ more /\ (List.length more <= 2)%nat)
  /\ stdout (snd r) = stdout w
  /\ (forall e, fst r = Raise e ->
        isinstance e RequestException = false /\ isinstance e KeyError = false).
Proof.
  cbv zeta. split; [|split].
  - revert w.
    change (asks_at_most 2 (weather_server.get_weather_forecast rt net latitude
                              longitude location_name)).
    unfold weather_server.get_weather_forecast, weather_server.item.
    apply (asks_try_except 2 0); [|intros e; apply asks_ret].
    apply (asks_try_except 2 0); [|intros e; apply asks_ret].
    apply (asks_bind 1 1); [apply asks_http_get|]. intros response.
    do 7 (apply (asks_bind 0 1); [quiet_steps|]; intros ?).
    apply (asks_bind 1 0); [apply asks_http_get|]. intros forecast_response.
    do 6 (apply (asks_bind 0 0); [quiet_steps|]; intros ?).
    apply (asks_bind 0 0); [apply server_format_periods_quiet|]. intros ?.
    apply asks_ret.
  - revert w.
    change (silent (weather_server.get_weather_forecast rt net latitude
                      longitude location_name)).
    unfold weather_server.get_weather_forecast, weather_server.item.
    apply silent_try_except; [|intros e; apply silent_ret].
    apply silent_try_except; [|intros e; apply silent_ret].
    do 15 (apply silent_bind; [quiet_steps|]; intros ?).
    apply silent_bind; [apply server_format_periods_quiet|]. intros ?.
    apply silent_ret.
  - intros e H.
    assert (R : raises_within
                  (fun e => (True /\ isinstance e RequestException = false)
                            /\ isinstance e KeyError = false)
                  (weather_server.get_weather_forecast rt net latitude longitude
                     location_name)).
    { unfold weather_server.get_weather_forecast.
      apply raises_try_except; [|intros e0; apply raises_ret].
      apply raises_try_except; [|intros e0; apply raises_ret].
      intros w0 e0 w1 _. exact I. }
    destruct (weather_server.get_weather_forecast rt net latitude longitude
                location_name w) as [o w'] eqn:E.
    simpl in H. subst o. destruct (R w e w' E) as [[_ R1] R2]. now split.
Qed.

(** ** The alerts of the weather server *)

(** What one alert adds: its lines, an empty line, a rule of thirty
    dashes and an empty line. *)
Definition alert_block (b : str) : Prop :=
  exists text,
    b = (py "Alert: " ++ text) ++ weather_server.nl ++ PyStr.replicate 30 45
          ++ weather_server.nl ++ weather_server.nl.

Lemma format_alert_returns (rt : runtime) (alert : value) :
  returns_within alert_block (weather_server.format_alert rt alert).
Proof.
  unfold weather_server.format_alert.
  apply returns_bind; intros props.
  apply returns_bind; intros event.
  apply returns_bind; intros severity.
  apply returns_bind; intros urgency.
  apply returns_bind; intros area_desc.
  apply returns_bind; intros areas.
  apply returns_bind; intros headline.
  eapply returns_bind_from with
    (Q := fun lines => exists text, lines = py "Alert: " ++ text).
  { destruct (truthy headline).
    - apply returns_bind; intros h. apply returns_ret. eexists.
      rewrite <- app_assoc. reflexivity.
    - apply returns_ret. eexists. reflexivity. }
  intros lines [text ->].
  apply returns_bind; intros description.
  eapply returns_bind_from with
    (Q := fun lines => exists text, lines = py "Alert: " ++ text).
  { destruct (truthy description).
    - do 2 (apply returns_bind; intros ?). apply returns_ret. eexists.
      rewrite <- app_assoc. reflexivity.
    - apply returns_ret. eexists. reflexivity. }
  intros lines [text' ->]. apply returns_ret. exists text'. reflexivity.
Qed.

Lemma format_alerts_returns (rt : runtime) (alerts : list value) (result : str) :
  returns_within
    (fun s => exists blocks,
                List.length blocks = List.length alerts
                /\ Forall alert_block blocks
                /\ s = result ++ List.concat blocks)
    (weather_server.format_alerts rt result alerts).
Proof.
  revert result. induction alerts as [|a r IH]; intros result; simpl.
  - apply returns_ret. exists []. split; [reflexivity|].
    split; [constructor|]. simpl. symmetry. apply app_nil_r.
  - eapply returns_bind_from; [apply format_alert_returns|].
    intros b Hb. eapply returns_weaken; [|apply IH].
    intros s [blocks [Hn [Hf Hs]]]. exists (b :: blocks). split; [simpl; now rewrite Hn|].
    split; [now constructor|]. simpl. rewrite Hs. symmetry. apply app_assoc.
Qed.

Lemma format_alert_quiet (rt : runtime) (alert : value) :
  asks_at_most 0 (weather_server.format_alert rt alert)
  /\ silent (weather_server.format_alert rt alert).
Proof.
  unfold weather_server.format_alert, weather_server.item, weather_server.dict_get.
  split; quiet_steps.
Qed.

Lemma format_alerts_quiet (rt : runtime) (alerts : list value) (result : str) :
  asks_at_most 0 (weather_server.format_alerts rt result alerts)
  /\ silent (weather_server.format_alerts rt result alerts).
Proof.
  revert result. induction alerts as [|a r IH]; intros result; simpl.
  - split; quiet_steps.
  - split.
    + apply (asks_bind 0 0); [apply format_alert_quiet|]. intros ?. apply IH.
    + apply silent_bind; [apply format_alert_quiet|]. intros ?. apply IH.
Qed.

(** The three answers of [get_weather_alerts]. *)
Definition alerts_answer (location_name : str) (v : value) : Prop :=
  v = VStr (weather_server.no_active_alerts location_name)
  \/ (exists e, isinstance e Exception = true
                /\ v = VStr (py "Error getting weather alerts: " ++ exn_str e))
  \/ exists blocks,
       (0 < List.length blocks <= 5)%nat
       /\ Forall alert_block blocks
       /\ v = VStr (((py "Active Weather Alerts for " ++ location_name
                        ++ weather_server.nl)
                       ++ PyStr.replicate 50 61 ++ weather_server.nl
                       ++ weather_server.nl)
                      ++ List.concat blocks).

(** The items of a true value's slice: at least one, when one was asked
    for. *)
Lemma slice_to_some_item (v u : value) (n : nat) (items : list value) :
  truthy v = true -> slice_to v (S n) = Return u -> iterate u = Return items ->
  (0 < List.length items)%nat.
Proof.
  destruct v; simpl; try discriminate.
  - destruct s; [discriminate|]. intros _ H; injection H as <-; simpl.
    intros I; injection I as <-. simpl. lia.
  - destruct l; [discriminate|]. intros _ H; injection H as <-; simpl.
    intros I; injection I as <-. simpl. lia.
Qed.

(** X7.  [get_weather_alerts] makes exactly one request and prints
    nothing.  It raises no fault: it returns the text for no alert, the
    report of a fault, or the heading followed by one to five alerts,
    each closed by a rule; only an exception that is no [Exception]
    leaves it. *)
Theorem alerts_always_answer (rt : runtime) (net : provider) (latitude longitude : float)
    (location_name : str) (w : world) :
  let r := weather_server.get_weather_alerts rt net latitude longitude
             location_name w in
  requested (snd r)
  = requested w ++ [VStr (weather_server.alerts_url latitude longitude)]
  /\ stdout (snd r) = stdout w
  /\ match fst r with
     | Return v => alerts_answer location_name v
     | Raise e => isinstance e Exception = false
     end.
Proof.
  cbv zeta. split; [|split].
  - assert (Q : forall response : response,
              asks_at_most 0
                (bind (check_status response) (fun _ =>
                 bind (lift (json response)) (fun alerts_data =>
                 bind (weather_server.dict_get alerts_data "features" (VList []))
                   (fun features =>
                 if negb (truthy features)
                 then ret (VStr (weather_server.no_active_alerts location_name))
                 else
                   bind (lift (slice_to features 5)) (fun first5 =>
                   bind (lift (iterate first5)) (fun items =>
                   bind (weather_server.format_alerts rt
                           ((py "Active Weather Alerts for " ++ location_name
                               ++ weather_server.nl)
                              ++ PyStr.replicate 50 61 ++ weather_server.nl
                              ++ weather_server.nl) items) (fun result =>
                   ret (VStr result))))))))).
    { intros response. unfold weather_server.dict_get.
      apply (asks_bind 0 0); [quiet_steps|]. intros _.
      apply (asks_bind 0 0); [quiet_steps|]. intros alerts_data.
      apply (asks_bind 0 0); [quiet_steps|]. intros features.
      destruct (negb (truthy features)); [apply asks_ret|].
      do 2 (apply (asks_bind 0 0); [quiet_steps|]; intros ?).
      apply (asks_bind 0 0); [apply format_alerts_quiet|]. intros ?. apply asks_ret. }
    unfold weather_server.get_weather_alerts, try_except.
    unfold bind at 1. unfold http_get at 1. cbv beta iota.
    destruct (net (requested w) (VStr (weather_server.alerts_url latitude longitude)))
      as [response|e].
    + destruct (Q response (asked w (VStr (weather_server.alerts_url latitude
                                             longitude)))) as [more [E L]].
      destruct more; [|simpl in L; lia]. rewrite app_nil_r in E.
      match goal with
      | E : requested (snd ?x) = _ |- context [match ?y with _ => _ end] =>
        change y with x; destruct x as [[v|e] w1]
      end; simpl in E |- *; [exact E|].
      destruct (isinstance e Exception); exact E.
    + destruct (isinstance e Exception); reflexivity.
  - revert w.
    change (silent (weather_server.get_weather_alerts rt net latitude longitude
                      location_name)).
    unfold weather_server.get_weather_alerts, weather_server.dict_get.
    apply silent_try_except; [|intros e; apply silent_ret].
    do 4 (apply silent_bind; [quiet_steps|]; intros ?).
    match goal with |- silent (if ?b then _ else _) => destruct b end;
      [apply silent_ret|].
    do 2 (apply silent_bind; [quiet_steps|]; intros ?).
    apply silent_bind; [apply format_alerts_quiet|]. intros ?. apply silent_ret.
  - assert (R : returns_within (alerts_answer location_name)
                  (weather_server.get_weather_alerts rt net latitude longitude
                     location_name)).
    { unfold weather_server.get_weather_alerts.
      apply returns_try_except_from.
      2:{ intros e I. apply returns_ret. right. left. exists e. now split. }
      do 3 (apply returns_bind; intros ?).
      apply returns_bind; intros features.
      destruct (truthy features) eqn:T; simpl.
      2:{ apply returns_ret. left. reflexivity. }
      eapply returns_bind_from; [apply returns_lift|]. intros first5 S5.
      eapply returns_bind_from; [apply returns_lift|]. intros items It.
      eapply returns_bind_from; [apply format_alerts_returns|].
      intros s [blocks [Hn [Hf Hs]]]. apply returns_ret.
      right. right. exists blocks. split; [|split; [exact Hf|]].
      - rewrite Hn. split.
        + exact (slice_to_some_item _ _ _ _ T S5 It).
        + exact (slice_to_items _ _ _ _ S5 It).
      - rewrite Hs. reflexivity. }
    assert (F : raises_within (fun e => True /\ isinstance e Exception = false)
                  (weather_server.get_weather_alerts rt net latitude longitude
                     location_name)).
    { unfold weather_server.get_weather_alerts.
      apply raises_try_except; [|intros e0; apply raises_ret].
      intros w0 e0 w1 _. exact I. }
    destruct (weather_server.get_weather_alerts rt net latitude longitude
                location_name w) as [[v|e] w'] eqn:E; simpl.
    + exact (R w v w' E).
    + exact (proj2 (F w e w' E)).
Qed.

(** ** The current conditions of the weather server *)

(** A line that a reading adds, or nothing. *)
Definition optional_line (label : string) (l : str) : Prop :=
  l = [] \/ exists text, l = py label ++ text ++ weather_server.nl.

Lemma temperature_line_returns (rt : runtime) (props : value) :
  returns_within (optional_line "Temperature: ") (weather_server.temperature_line rt props).
Proof.
  unfold weather_server.temperature_line.
  apply returns_bind; intros present.
  destruct (truthy present); [|apply returns_ret; now left].
  apply returns_bind; intros temp_c.
  apply returns_bind; intros temp_f.
  apply returns_bind; intros f.
  apply returns_bind; intros c.
  apply returns_ret. right. exists (f ++ py "¬∞F (" ++ c ++ py "¬∞C)").
  repeat rewrite <- app_assoc. reflexivity.
Qed.

Lemma conditions_line_returns (rt : runtime) (props : value) :
  returns_within (optional_line "Conditions: ") (weather_server.conditions_line rt props).
Proof.
  unfold weather_server.conditions_line.
  apply returns_bind; intros present.
  destruct (truthy present); [|apply returns_ret; now left].
  apply returns_bind; intros description.
  apply returns_ret. right. eexists. reflexivity.
Qed.

Lemma wind_speed_line_returns (rt : runtime) (props : value) :
  returns_within (optional_line "Wind Speed: ") (weather_server.wind_speed_line rt props).
Proof.
  unfold weather_server.wind_speed_line.
  apply returns_bind; intros present.
  destruct (truthy present); [|apply returns_ret; now left].
  apply returns_bind; intros wind_ms.
  apply returns_bind; intros wind_mph.
  apply returns_bind; intros s.
  apply returns_ret. right. exists (s ++ py " mph").
  repeat rewrite <- app_assoc. reflexivity.
Qed.

Lemma wind_direction_line_returns (rt : runtime) (props : value) :
  returns_within (optional_line "Wind Direction: ")
                 (weather_server.wind_direction_line rt props).
Proof.
  unfold weather_server.wind_direction_line.
  apply returns_bind; intros present.
  destruct (truthy present); [|apply returns_ret; now left].
  apply returns_bind; intros direction.
  apply returns_ret. right. exists (weather_server.show rt direction ++ py "¬∞").
  repeat rewrite <- app_assoc. reflexivity.
Qed.

Lemma humidity_line_returns (rt : runtime) (props : value) :
  returns_within (optional_line "Humidity: ") (weather_server.humidity_line rt props).
Proof.
  unfold weather_server.humidity_line.
  apply returns_bind; intros present.
  destruct (truthy present); [|apply returns_ret; now left].
  apply returns_bind; intros humidity.
  apply returns_bind; intros s.
  apply returns_ret. right. exists (s ++ py "%").
  repeat rewrite <- app_assoc. reflexivity.
Qed.

Ltac unfold_lines :=
  unfold weather_server.temperature_line, weather_server.conditions_line,
    weather_server.wind_speed_line, weather_server.wind_direction_line,
    weather_server.humidity_line, weather_server.reading, weather_server.value_of,
    weather_server.item, weather_server.dict_get.

(** The three answers of [get_current_conditions]: the third is the
    heading, the station, the time and at most five lines of readings in
    a fixed order. *)
Definition conditions_answer (location_name : str) (v : value) : Prop :=
  v = VStr (weather_server.no_stations location_name)
  \/ (exists e, isinstance e Exception = true
                /\ v = VStr (py "Error getting current conditions: " ++ exn_str e))
  \/ exists station time temperature conditions wind_speed wind_direction humidity,
       optional_line "Temperature: " temperature
       /\ optional_line "Conditions: " conditions
       /\ optional_line "Wind Speed: " wind_speed
       /\ optional_line "Wind Direction: " wind_direction
       /\ optional_line "Humidity: " humidity
       /\ v = VStr ((((py "Current Conditions for " ++ location_name
                         ++ weather_server.nl)
                        ++ py "Station: " ++ station ++ weather_server.nl)
                       ++ py "Time: " ++ time ++ weather_server.nl)
                      ++ temperature ++ conditions ++ wind_speed ++ wind_direction
                      ++ humidity).

(** X8.  [get_current_conditions] makes at most three requests and
    prints nothing.  It raises no fault: it returns the text for a point
    without stations, the report of a fault, or the heading, the
    station, the time and the lines of the readings; only an exception
    that is no [Exception] leaves it. *)
Theorem current_conditions_always_answer (rt : runtime) (net : provider)
    (latitude longitude : float) (location_name : str) (w : world) :
  let r := weather_server.get_current_conditions rt net latitude longitude
             location_name w in
  (exists more, requested (snd r) = requested w ++ more /\ (List.length more <= 3)%nat)
  /\ stdout (snd r) = stdout w
  /\ match fst r with
     | Return v => conditions_answer location_name v
     | Raise e => isinstance e Exception = false
     end.
Proof.
  cbv zeta. split; [|split].
  - revert w.
    change (asks_at_most 3 (weather_server.get_current_conditions rt net latitude
                              longitude location_name)).
    unfold weather_server.get_current_conditions.
    apply (asks_try_except 3 0); [|intros e; apply asks_ret].
    apply (asks_bind 1 2); [apply asks_http_get|]. intros response.
    do 4 (apply (asks_bind 0 2); [unfold_lines; quiet_steps|]; intros ?).
    apply (asks_bind 1 1); [apply asks_http_get|]. intros stations_response.
    do 3 (apply (asks_bind 0 1); [unfold_lines; quiet_steps|]; intros ?).
    match goal with |- asks_at_most _ (if ?b then _ else _) => destruct b end.
    2:{ apply (asks_weaken 0); [lia|apply asks_ret]. }
    do 3 (apply (asks_bind 0 1); [unfold_lines; quiet_steps|]; intros ?).
    apply (asks_bind 1 0); [apply asks_http_get|]. intros obs_response.
    do 13 (apply (asks_bind 0 0); [unfold_lines; quiet_steps|]; intros ?).
    apply asks_ret.
  - revert w.
    change (silent (weather_server.get_current_conditions rt net latitude
                      longitude location_name)).
    unfold weather_server.get_current_conditions.
    apply silent_try_except; [|intros e; apply silent_ret].
    do 9 (apply silent_bind; [unfold_lines; quiet_steps|]; intros ?).
    match goal with |- silent (if ?b then _ else _) => destruct b end;
      [|apply silent_ret].
    do 17 (apply silent_bind; [unfold_lines; quiet_steps|]; intros ?).
    apply silent_ret.
  - assert (R : returns_within (conditions_answer location_name)
                  (weather_server.get_current_conditions rt net latitude longitude
                     location_name)).
    { unfold weather_server.get_current_conditions.
      apply returns_try_except_from.
      2:{ intros e I. apply returns_ret. right. left. exists e. now split. }
      do 8 (apply returns_bind; intros ?).
      apply returns_bind; intros features.
      destruct (truthy features).
      2:{ apply returns_ret. left. reflexivity. }
      do 10 (apply returns_bind; intros ?).
      apply returns_bind; intros station_name.
      apply returns_bind; intros timestamp.
      eapply returns_bind_from; [apply temperature_line_returns|]. intros l1 H1.
      eapply returns_bind_from; [apply conditions_line_returns|]. intros l2 H2.
      eapply returns_bind_from; [apply wind_speed_line_returns|]. intros l3 H3.
      eapply returns_bind_from; [apply wind_direction_line_returns|]. intros l4 H4.
      eapply returns_bind_from; [apply humidity_line_returns|]. intros l5 H5.
      apply returns_ret. right. right.
      exists (weather_server.show rt station_name), (weather_server.show rt timestamp),
        l1, l2, l3, l4, l5.
      split; [exact H1|]. split; [exact H2|]. split; [exact H3|].
      split; [exact H4|]. split; [exact H5|]. reflexivity. }
    assert (F : raises_within (fun e => True /\ isinstance e Exception = false)
                  (weather_server.get_current_conditions rt net latitude longitude
                     location_name)).
    { unfold weather_server.get_current_conditions.
      apply raises_try_except; [|intros e0; apply raises_ret].
      intros w0 e0 w1 _. exact I. }
    destruct (weather_server.get_current_conditions rt net latitude longitude
                location_name w) as [[v|e] w'] eqn:E; simpl.
    + exact (R w v w' E).
    + exact (proj2 (F w e w' E)).
Qed.

(** The reading under [k] is there and counts as false: zero, as an
    [int] or as a [float] of either sign, or [null]. *)
Definition reading_is (props : value) (k : string) (z : value) : Prop :=
  exists d q,
    props = VDict d /\ lookup (py k) d = Some (VDict q)
    /\ lookup (py "value") q = Some z.

Definition zero_or_null (z : value) : Prop :=
  z = VInt 0 \/ z = VFloat 0 \/ z = VFloat (-0) \/ z = VNone.

Lemma zero_or_null_false (z : value) : zero_or_null z -> truthy z = false.
Proof. intros [->|[->|[->| ->]]]; reflexivity. Qed.

Lemma reading_found (props : value) (k : string) (z : value) (w : world) :
  reading_is props k z -> weather_server.reading props k w = (Return z, w).
Proof.
  intros [d [q [-> [L1 L2]]]].
  unfold weather_server.reading, weather_server.dict_get, bind, lift, get.
  rewrite L1, L2. reflexivity.
Qed.

(** The four readings that are numbers, each with its key in the
    observation and the line it adds. *)
Inductive quantity := Temperature | WindSpeed | WindDirection | RelativeHumidity.

Definition key_of (q : quantity) : string :=
  match q with
  | Temperature => "temperature"
  | WindSpeed => "windSpeed"
  | WindDirection => "windDirection"
  | RelativeHumidity => "relativeHumidity"
  end.

Definition line_of (rt : runtime) (q : quantity) : value -> M str :=
  match q with
  | Temperature => weather_server.temperature_line rt
  | WindSpeed => weather_server.wind_speed_line rt
  | WindDirection => weather_server.wind_direction_line rt
  | RelativeHumidity => weather_server.humidity_line rt
  end.

(** X9.  A reading of exactly zero is treated as a missing one: at
    0 degrees Celsius, in a calm, with the wind from the north (0
    degrees) or at 0 percent humidity, the line of that reading is left
    out of the current conditions, and no fault arises. *)
Theorem zero_readings_are_left_out (rt : runtime) (q : quantity) (props z : value)
    (w : world) :
  reading_is props (key_of q) z -> zero_or_null z ->
  line_of rt q props w = (Return [], w).
Proof.
  intros R Z. pose proof (zero_or_null_false z Z) as T.
  destruct q; simpl in R |- *.
  - unfold weather_server.temperature_line. unfold bind at 1.
    rewrite (reading_found props _ z w R), T. reflexivity.
  - unfold weather_server.wind_speed_line. unfold bind at 1.
    rewrite (reading_found props _ z w R), T. reflexivity.
  - unfold weather_server.wind_direction_line. unfold bind at 1.
    rewrite (reading_found props _ z w R), T. reflexivity.
  - unfold weather_server.humidity_line. unfold bind at 1.
    rewrite (reading_found props _ z w R), T. reflexivity.
Qed.

(** An observation at the freezing point, in a calm from the north. *)
Definition freezing_calm : value :=
  VDict [(py "timestamp", VStr (py "2025-01-01T06:00:00+00:00"));
         (py "temperature", VDict [(py "value", VInt 0)]);
         (py "textDescription", VStr (py "Clear"));
         (py "windSpeed", VDict [(py "value", VInt 0)]);
         (py "windDirection", VDict [(py "value", VInt 0)]);
         (py "relativeHumidity", VDict [(py "value", VFloat 64.25)])].

(** The theorem applies: the wind from the north is not shown. *)
Lemma zero_readings_are_left_out_witness :
  line_of reference_runtime WindDirection freezing_calm empty_world
  = (Return [], empty_world).
Proof.
  apply (zero_readings_are_left_out reference_runtime WindDirection freezing_calm
           (VInt 0) empty_world).
  - eexists _, _. split; [reflexivity|]. split; vm_compute; reflexivity.
  - left. reflexivity.
Defined.

(** Whole degrees Celsius, in tenths of a degree Fahrenheit: exactly
    [18 c + 320]. *)
Definition tenths_text (t : Z) : str :=
  (if (t <? 0)%Z then py "-" else [])
    ++ PyStr.of_Z (Z.abs t / 10) ++ py "." ++ PyStr.of_Z (Z.abs t mod 10).

Definition shown_fahrenheit (temp_c : value) : outcome str :=
  and_then (weather_server.fahrenheit temp_c) format_1f.

Definition celsius_range : list Z := map (fun n => (Z.of_nat n - 100)%Z) (seq 0 201).

Lemma in_celsius_range (c : Z) : (-100 <= c <= 100)%Z -> In c celsius_range.
Proof.
  intros H. unfold celsius_range. apply in_map_iff.
  exists (Z.to_nat (c + 100)). split; [lia|]. apply in_seq. lia.
Qed.

Definition converts_exactly (c : Z) : bool :=
  match shown_fahrenheit (VInt c) with
  | Return s => PyStr.eqb s (tenths_text (18 * c + 320))
  | Raise _ => false
  end.

(** X10.  For a reading in whole degrees Celsius between -100 and 100,
    the Fahrenheit figure that the current conditions show is exact:
    [9 c / 5 + 32], which has one digit after the point, survives the
    two roundings of the float arithmetic and the rounding of the
    format. *)
Theorem whole_degrees_convert_exactly (c : Z) :
  (-100 <= c <= 100)%Z ->
  shown_fahrenheit (VInt c) = Return (tenths_text (18 * c + 320)).
Proof.
  intros H.
  assert (A : forallb converts_exactly celsius_range = true)
    by (vm_compute; reflexivity).
  rewrite forallb_forall in A. specialize (A c (in_celsius_range c H)).
  unfold converts_exactly in A.
  destruct (shown_fahrenheit (VInt c)) as [s|e]; [|discriminate A].
  apply str_eqb_eq in A. now subst s.
Qed.

(** The theorem applies: 37 degrees Celsius are 98.6 degrees Fahrenheit. *)
Lemma whole_degrees_convert_exactly_witness :
  shown_fahrenheit (VInt 37) = Return (tenths_text (18 * 37 + 320)).
Proof. apply (whole_degrees_convert_exactly 37). lia. Defined.

(** ** The average of the math server *)

Lemma comprehension_raises {A B} (f : A -> outcome B) (l : list A) (e : exn) :
  comprehension f l = Raise e -> exists x, In x l /\ f x = Raise e.
Proof.
  induction l as [|x r IH]; simpl; [discriminate|].
  destruct (f x) as [y|e1] eqn:F; simpl.
  - destruct (comprehension f r) as [ys|e2]; simpl; [discriminate|].
    intros H. injection H as ->. destruct (IH eq_refl) as [x' [I F']].
    exists x'. split; [now right|exact F'].
  - intros H. injection H as ->. exists x. split; [now left|exact F].
Qed.

Lemma builtin_float_raises (db : unicode_db) (s : str) (e : exn) :
  builtin_float db s = Raise e -> exn_class e = ValueError.
Proof.
  unfold builtin_float. destruct (PyFloat.of_str db s); [discriminate|].
  intros H. injection H as <-. reflexivity.
Qed.

(** X11.  [calculate_average] raises nothing, whatever the text.  When
    an item of the list is no number (an empty item, as after a trailing
    comma, or any text that [float] does not read), the answer is the
    text about the number format, and nothing is printed. *)
Theorem calculate_average_never_raises (rt : runtime) (numbers : str) (w : world) :
  (exists v, fst (math_server.calculate_average rt numbers w) = Return v)
  /\ (forall e, parsed rt numbers = Raise e ->
        math_server.calculate_average rt numbers w
        = (Return (VStr math_server.invalid_number_format), w)).
Proof.
  assert (B : forall e, parsed rt numbers = Raise e ->
                math_server.calculate_average rt numbers w
                = (Return (VStr math_server.invalid_number_format), w)).
  { intros e P. pose proof P as P'. unfold parsed in P'.
    apply comprehension_raises in P'. destruct P' as [x [_ F]].
    apply builtin_float_raises in F.
    unfold math_server.calculate_average, try_except, bind, lift.
    fold (parsed rt numbers). rewrite P. unfold isinstance. rewrite F. reflexivity. }
  split; [|exact B].
  destruct (parsed rt numbers) as [nums|e] eqn:P.
  - unfold math_server.calculate_average, try_except, bind, lift.
    fold (parsed rt numbers). rewrite P.
    destruct nums as [|x r]; [eexists; reflexivity|].
    unfold truediv_int.
    destruct (Z.of_nat (List.length (x :: r)) =? 0)%Z eqn:Z0.
    { apply Z.eqb_eq in Z0. simpl in Z0. lia. }
    eexists. reflexivity.
  - rewrite (B e eq_refl). eexists. reflexivity.
Qed.

(** Blanks around an item. *)
Definition padded (x y : str) : Prop :=
  exists l r,
    forallb PyStr.isspace l = true /\ forallb PyStr.isspace r = true
    /\ y = l ++ x ++ r.

Definition no_comma (x : str) : Prop :=
  forallb (fun c => negb (c =? 44)%N) x = true.

Lemma lstrip_app_spaces (l s : str) :
  forallb PyStr.isspace l = true -> PyStr.lstrip (l ++ s) = PyStr.lstrip s.
Proof.
  induction l as [|c l IH]; simpl; [reflexivity|].
  intros H. apply andb_prop in H. destruct H as [C H]. rewrite C. now apply IH.
Qed.

Lemma lstrip_app (x r : str) :
  PyStr.lstrip (x ++ r)
  = if forallb PyStr.isspace x then PyStr.lstrip r else PyStr.lstrip x ++ r.
Proof.
  induction x as [|c x IH]; simpl; [reflexivity|].
  destruct (PyStr.isspace c); simpl; [exact IH|reflexivity].
Qed.

Lemma rstrip_app_spaces (s r : str) :
  forallb PyStr.isspace r = true -> PyStr.rstrip (s ++ r) = PyStr.rstrip s.
Proof.
  intros H. unfold PyStr.rstrip. rewrite rev_app_distr.
  rewrite lstrip_app_spaces; [reflexivity|].
  rewrite forallb_forall in *. intros c I. apply H. now apply in_rev.
Qed.

Lemma strip_padded (x y : str) : padded x y -> PyStr.strip y = PyStr.strip x.
Proof.
  intros [l [r [L [R ->]]]]. unfold PyStr.strip.
  rewrite (lstrip_app_spaces l _ L), lstrip_app.
  destruct (forallb PyStr.isspace x) eqn:X.
  - rewrite (lstrip_spaces r R), (lstrip_spaces x X). reflexivity.
  - apply rstrip_app_spaces. exact R.
Qed.

Lemma split_cons_other (sep c : N) (s : str) :
  (c =? sep)%N = false ->
  PyStr.split sep (c :: s)
  = match PyStr.split sep s with
    | x :: xs => (c :: x) :: xs
    | [] => [[c]]
    end.
Proof. intros H. simpl. rewrite H. reflexivity. Qed.

Lemma split_app_sep (sep : N) (x s : str) :
  forallb (fun c => negb (c =? sep)%N) x = true ->
  PyStr.split sep (x ++ sep :: s) = x :: PyStr.split sep s.
Proof.
  induction x as [|c x IH]; intros H.
  - simpl. rewrite N.eqb_refl. reflexivity.
  - simpl in H. apply andb_prop in H. destruct H as [C H].
    apply negb_true_iff in C.
    change ((c :: x) ++ sep :: s) with (c :: (x ++ sep :: s)).
    rewrite (split_cons_other _ _ _ C), (IH H). reflexivity.
Qed.

(** [split] undoes [join], when no item holds the separator. *)
Lemma split_join (sep : N) (items : list str) :
  items <> [] ->
  Forall (fun x => forallb (fun c => negb (c =? sep)%N) x = true) items ->
  PyStr.split sep (PyStr.join [sep] items) = items.
Proof.
  induction items as [|x r IH]; [congruence|].
  intros _ F. inversion F as [|? ? Fx Fr]; subst.
  destruct r as [|y r'].
  - simpl. now apply split_no_separator.
  - change (PyStr.join [sep] (x :: y :: r'))
      with (x ++ [sep] ++ PyStr.join [sep] (y :: r')).
    change (x ++ [sep] ++ PyStr.join [sep] (y :: r'))
      with (x ++ sep :: PyStr.join [sep] (y :: r')).
    rewrite (split_app_sep _ _ _ Fx). f_equal. apply IH; [discriminate|exact Fr].
Qed.

Lemma padded_no_comma (x y : str) : padded x y -> no_comma x -> no_comma y.
Proof.
  intros [l [r [L [R ->]]]] X. unfold no_comma in *.
  rewrite !forallb_app, X, (space_is_no_comma l L), (space_is_no_comma r R).
  reflexivity.
Qed.

Lemma comprehension_ext {A B} (f : A -> outcome B) (R : A -> A -> Prop)
    (xs ys : list A) :
  (forall x y, R x y -> f y = f x) -> Forall2 R xs ys ->
  comprehension f ys = comprehension f xs.
Proof.
  intros E F. induction F as [|x y xs ys Rxy _ IH]; simpl; [reflexivity|].
  now rewrite (E x y Rxy), IH.
Qed.

(** X12.  Blanks around the items of the list do not matter to
    [calculate_average]: a list whose items are padded with blanks gets
    the answer of the list without the padding. *)
Theorem average_ignores_blanks (rt : runtime) (items padded_items : list str)
    (w : world) :
  items <> [] ->
  Forall no_comma items ->
  Forall2 padded items padded_items ->
  math_server.calculate_average rt (PyStr.join (py ",") padded_items) w
  = math_server.calculate_average rt (PyStr.join (py ",") items) w.
Proof.
  intros N C P.
  assert (C' : Forall no_comma padded_items).
  { clear N. induction P as [|x y xs ys Pxy _ IH]; [constructor|].
    inversion C; subst. constructor; [now apply (padded_no_comma x y)|now apply IH]. }
  assert (N' : padded_items <> []).
  { destruct P; [congruence|discriminate]. }
  assert (E : parsed rt (PyStr.join (py ",") padded_items)
              = parsed rt (PyStr.join (py ",") items)).
  { unfold parsed. change (py ",") with [44%N].
    rewrite (split_join 44 items N C), (split_join 44 padded_items N' C').
    apply (comprehension_ext _ padded); [|exact P].
    intros x y Pxy. now rewrite (strip_padded x y Pxy). }
  unfold math_server.calculate_average.
  fold (parsed rt (PyStr.join (py ",") padded_items)).
  fold (parsed rt (PyStr.join (py ",") items)).
  rewrite E. reflexivity.
Qed.

(** The theorem applies: blanks after the commas and at both ends. *)
Lemma average_ignores_blanks_witness :
  math_server.calculate_average reference_runtime
    (PyStr.join (py ",") [py " 1"; py " 2.5 "; py "  4 "]) empty_world
  = math_server.calculate_average reference_runtime
      (PyStr.join (py ",") [py "1"; py "2.5"; py "4"]) empty_world.
Proof.
  apply (average_ignores_blanks reference_runtime [py "1"; py "2.5"; py "4"]
           [py " 1"; py " 2.5 "; py "  4 "] empty_world).
  - discriminate.
  - repeat constructor.
  - constructor; [exists (py " "), []; repeat split|].
    constructor; [exists (py " "), (py " "); repeat split|].
    constructor; [exists (py "  "), (py " "); repeat split|].
    constructor.
Defined.

(* ================================================================== *)
(** * Further properties: the control of the sessions *)
(* ================================================================== *)

Lemma exit_words_lowercase (word : str) :
  In word chat.exit_words -> lowercase_ascii word = true.
Proof.
  intros H. repeat (destruct H as [<-|H]; [reflexivity|]). destruct H.
Qed.

Lemma mem_in (x : str) (l : list str) : In x l -> PyStr.mem x l = true.
Proof.
  intros H. unfold PyStr.mem. apply existsb_exists. exists x.
  split; [exact H|apply str_eqb_refl].
Qed.

(** X13.  An exit word ends the session however it is capitalised and
    whatever blanks surround it: the loop prints the goodbye and stops,
    and the rest of the script is not read. *)
Theorem exit_word_ends_session (db : unicode_db) (lb : chat.labels) (t : chat.turn)
    (rest : list chat.turn) (w : world) (typed_line word : str) :
  chat.typed t = Return typed_line ->
  In word chat.exit_words ->
  caseless_eq (PyStr.strip typed_line) word ->
  chat.loop db lb (t :: rest) w
  = (Return chat.ExitWord,
     printed (printed w [py "You: "]) [line (py "👋 Goodbye!")]).
Proof.
  intros T I C. rewrite loop_cons.
  unfold chat.attempt.
  unfold bind at 1. unfold write at 1. cbv beta iota.
  unfold bind at 1. unfold lift at 1. cbv beta iota. rewrite T.
  rewrite (lower_caseless db _ word C (exit_words_lowercase word I)).
  rewrite (mem_in word chat.exit_words I). reflexivity.
Qed.

Definition shouted_quit : chat.turn :=
  {| chat.typed := Return (py "  QUIT ");
     chat.answer := Return None |}.

(** The theorem applies: the word in capitals, between blanks. *)
Lemma exit_word_ends_session_witness :
  chat.loop reference_unicode basic_agent.loop_labels [shouted_quit; failing_turn]
    empty_world
  = (Return chat.ExitWord,
     printed (printed empty_world [py "You: "]) [line (py "👋 Goodbye!")]).
Proof.
  apply (exit_word_ends_session reference_unicode basic_agent.loop_labels shouted_quit
           [failing_turn] empty_world (py "  QUIT ") (py "quit")).
  - reflexivity.
  - left. reflexivity.
  - vm_compute. repeat constructor.
Defined.

(** X14.  A line of blanks only, or an empty line, is passed over: the
    loop prompts again, the agent is not called and nothing but the
    prompt is printed. *)
Theorem blank_line_prompts_again (db : unicode_db) (lb : chat.labels) (t : chat.turn)
    (rest : list chat.turn) (w : world) (typed_line : str) :
  chat.typed t = Return typed_line ->
  forallb PyStr.isspace typed_line = true ->
  chat.loop db lb (t :: rest) w = chat.loop db lb rest (printed w [py "You: "]).
Proof.
  intros T B. rewrite loop_cons.
  unfold chat.attempt.
  unfold bind at 1. unfold write at 1. cbv beta iota.
  unfold bind at 1. unfold lift at 1. cbv beta iota. rewrite T.
  rewrite (strip_spaces typed_line B). reflexivity.
Qed.

Definition blank_turn : chat.turn :=
  {| chat.typed := Return (py "   ");
     chat.answer := Raise {| exn_class := RuntimeError; exn_str := py "boom" |} |}.

(** The theorem applies: three blanks, before an agent that would fail. *)
Lemma blank_line_prompts_again_witness :
  chat.loop reference_unicode basic_agent.loop_labels [blank_turn; quit_turn] empty_world
  = chat.loop reference_unicode basic_agent.loop_labels [quit_turn]
      (printed empty_world [py "You: "]).
Proof.
  apply (blank_line_prompts_again reference_unicode basic_agent.loop_labels blank_turn
           [quit_turn] empty_world (py "   ")); reflexivity.
Defined.

(** The turn is interrupted: [input] raises, or the line is handed to
    the agent (it is no exit word and not blank) and the agent raises. *)
Definition interrupted_by (db : unicode_db) (t : chat.turn) (e : exn) : Prop :=
  chat.typed t = Raise e
  \/ exists typed_line,
       chat.typed t = Return typed_line
       /\ PyStr.mem (PyStr.lower db (PyStr.strip typed_line)) chat.exit_words = false
       /\ PyStr.strip typed_line <> []
       /\ chat.answer t = Raise e.

(** X15.  A keyboard interrupt, at the prompt or while the agent works,
    ends the session: the loop prints the goodbye of the script and
    stops, and the rest of the script is not read. *)
Theorem interrupt_ends_session (db : unicode_db) (lb : chat.labels) (t : chat.turn)
    (rest : list chat.turn) (w : world) (e : exn) :
  isinstance e KeyboardInterrupt = true ->
  interrupted_by db t e ->
  fst (chat.loop db lb (t :: rest) w) = Return chat.Interrupted
  /\ last (stdout (snd (chat.loop db lb (t :: rest) w))) []
     = line (chat.interrupt_goodbye lb).
Proof.
  intros K I.
  assert (E : exists w',
            chat.loop db lb (t :: rest) w
            = (Return chat.Interrupted, printed w' [line (chat.interrupt_goodbye lb)])).
  { destruct I as [T|[typed_line [T [X [N A]]]]].
    - rewrite loop_cons. unfold chat.attempt.
      unfold bind at 1. unfold write at 1. cbv beta iota.
      unfold bind at 1. unfold lift at 1. cbv beta iota. rewrite T, K.
      eexists. reflexivity.
    - rewrite loop_cons. unfold chat.attempt.
      unfold bind at 1. unfold write at 1. cbv beta iota.
      unfold bind at 1. unfold lift at 1. cbv beta iota. rewrite T, X.
      destruct (PyStr.strip typed_line) as [|c s]; [congruence|].
      unfold bind at 1. unfold write at 1. cbv beta iota.
      unfold bind at 1. unfold lift at 1. cbv beta iota. rewrite A, K.
      eexists. reflexivity. }
  destruct E as [w' E]. rewrite E.
  split; [reflexivity|]. unfold printed, stdout, snd. apply last_last.
Qed.

Definition control_c : exn :=
  {| exn_class := KeyboardInterrupt; exn_str := [] |}.

Definition interrupted_turn : chat.turn :=
  {| chat.typed := Return (py "What is the weather in Denver?");
     chat.answer := Raise control_c |}.

(** The theorem applies: the agent is interrupted at work. *)
Lemma interrupt_ends_session_witness :
  fst (chat.loop reference_unicode agent_with_mcp.loop_labels
         [interrupted_turn; quit_turn] empty_world)
  = Return chat.Interrupted
  /\ last (stdout (snd (chat.loop reference_unicode agent_with_mcp.loop_labels
                          [interrupted_turn; quit_turn] empty_world))) []
     = line (chat.interrupt_goodbye agent_with_mcp.loop_labels).
Proof.
  apply (interrupt_ends_session reference_unicode agent_with_mcp.loop_labels
           interrupted_turn [quit_turn] empty_world control_c).
  - reflexivity.
  - right. exists (py "What is the weather in Denver?").
    split; [reflexivity|]. split; [vm_compute; reflexivity|].
    split; [vm_compute; discriminate|reflexivity].
Defined.

(** ** Sessions that do not start, and sessions that end badly *)

(** The lines that [create_llm] of the second script prints when it
    gives no model: the Bedrock client is missing, or building the
    client or the model raised a fault. *)
Definition no_model (b : agent_with_mcp.bedrock) : option (list str) :=
  let advice :=
    [py "❌ No LLM available. Please configure AWS Bedrock or add another LLM provider.";
     py "💡 Set up AWS credentials with: aws configure"] in
  let failed e :=
    if isinstance e Exception
    then Some ((py "⚠️  Bedrock setup failed: " ++ exn_str e) :: advice)
    else None in
  match agent_with_mcp.bedrock_client b with
  | Raise e => failed e
  | Return false => Some advice
  | Return true =>
    match agent_with_mcp.chat_model b with
    | Raise e => failed e
    | Return _ => None
    end
  end.

Definition mcp_heading : list str :=
  [py "🤖 Interactive MCP Agent"; PyStr.replicate 40 61; py "Type 'quit' to exit"; []].

(** X16.  Without a model the second script ends before it does
    anything else: it prints its heading and the lines about the model,
    whatever the client would do and whatever would be typed; no
    connection is tried, no agent is built and no prompt is shown. *)
Theorem without_a_model_no_connection (rt : runtime) (b : agent_with_mcp.bedrock)
    (connect : agent_with_mcp.connector) (script : list chat.turn) (w : world)
    (lines : list str) :
  no_model b = Some lines ->
  agent_with_mcp.interactive_chat rt b connect script w
  = (Return chat.NoLLM, after_lines w (mcp_heading ++ lines)).
Proof.
  unfold no_model. intros H.
  unfold agent_with_mcp.interactive_chat, agent_with_mcp.create_llm.
  unfold try_except, bind, print, write, lift, ret. cbv beta iota.
  destruct (agent_with_mcp.bedrock_client b) as [[|]|e1]; cbv beta iota.
  - destruct (agent_with_mcp.chat_model b) as [[]|e2]; cbv beta iota;
      [discriminate H|].
    destruct (isinstance e2 Exception); [|discriminate H].
    injection H as <-. reflexivity.
  - injection H as <-. reflexivity.
  - destruct (isinstance e1 Exception); [|discriminate H].
    injection H as <-. reflexivity.
Qed.

Definition no_credentials : exn :=
  {| exn_class := OtherException (py "NoCredentialsError");
     exn_str := py "Unable to locate credentials" |}.

Definition bedrock_down : agent_with_mcp.bedrock :=
  {| agent_with_mcp.bedrock_client := Raise no_credentials;
     agent_with_mcp.chat_model := Return tt |}.

Definition any_client : agent_with_mcp.connector :=
  fun _ => Return {| agent_with_mcp.get_tools := Return [py "add"];
                     agent_with_mcp.aexit := None |}.

Definition no_credentials_lines : list str :=
  [py "⚠️  Bedrock setup failed: " ++ exn_str no_credentials;
   py "❌ No LLM available. Please configure AWS Bedrock or add another LLM provider.";
   py "💡 Set up AWS credentials with: aws configure"].

(** The theorem applies: no credentials. *)
Lemma without_a_model_no_connection_witness :
  agent_with_mcp.interactive_chat reference_runtime bedrock_down any_client
    [quit_turn] empty_world
  = (Return chat.NoLLM, after_lines empty_world (mcp_heading ++ no_credentials_lines)).
Proof.
  exact (without_a_model_no_connection reference_runtime bedrock_down any_client
           [quit_turn] empty_world no_credentials_lines eq_refl).
Defined.

Definition basic_heading : list str :=
  [py "🤖 Basic Agent Demo - Interactive Chat with @tool Functions";
   PyStr.replicate 65 61;
   py "Available tools:";
   py "🌤️  Weather: Ask about weather in major US cities";
   py "🔢 Math: Ask for calculations (add, subtract, multiply, divide)";
   py "🏙️  City Info: Ask about city information";
   py "Type 'quit' to exit";
   []].

(** X17.  When the Bedrock setup of the first script raises a fault, the
    script prints its heading and two lines about the model and ends: no
    agent is built and no prompt is shown, whatever would be typed. *)
Theorem without_a_model_no_agent (rt : runtime) (e : exn) (script : list chat.turn)
    (w : world) :
  isinstance e Exception = true ->
  basic_agent.interactive_agent_with_tools rt (Raise e) script w
  = (Return chat.NoLLM,
     after_lines w
       (basic_heading
          ++ [py "⚠️  Bedrock setup failed: " ++ exn_str e;
              py "❌ No LLM available. Please configure AWS Bedrock."])).
Proof.
  intros X.
  unfold basic_agent.interactive_agent_with_tools, basic_agent.create_llm.
  unfold try_except, bind, print, write, lift, ret. cbv beta iota.
  rewrite X. reflexivity.
Qed.

(** The theorem applies: no credentials. *)
Lemma without_a_model_no_agent_witness :
  basic_agent.interactive_agent_with_tools reference_runtime (Raise no_credentials)
    [quit_turn] empty_world
  = (Return chat.NoLLM,
     after_lines empty_world
       (basic_heading
          ++ [py "⚠️  Bedrock setup failed: " ++ exn_str no_credentials;
              py "❌ No LLM available. Please configure AWS Bedrock."])).
Proof.
  exact (without_a_model_no_agent reference_runtime no_credentials [quit_turn]
           empty_world eq_refl).
Defined.

(** X18.  A fault raised on leaving the client block is reported as a
    failure to connect: when the session has ended inside the block, by
    an exit word, an interrupt or an exception, and closing the client
    raises a fault, the script prints "Failed to connect to MCP
    servers:" with the text of that fault, and this is how it ends. *)
Theorem failure_on_leaving_is_called_a_connection_failure (rt : runtime)
    (connect : agent_with_mcp.connector) (c : agent_with_mcp.client)
    (tools : list str) (script : list chat.turn) (w : world) (e : exn) :
  connect agent_with_mcp.mcp_config = Return c ->
  agent_with_mcp.get_tools c = Return tools ->
  agent_with_mcp.aexit c = Some e ->
  isinstance e Exception = true ->
  (forall w0, fst (chat.loop (unicode rt) agent_with_mcp.loop_labels script w0)
              <> Return chat.AwaitingInput) ->
  fst (agent_with_mcp.interactive_chat rt bedrock_ok connect script w)
  = Return chat.ConnectFailed
  /\ last (stdout (snd (agent_with_mcp.interactive_chat rt bedrock_ok connect script w)))
          []
     = line (py "❌ Failed to connect to MCP servers: " ++ exn_str e).
Proof.
  intros C T A X L.
  assert (E : exists w',
            agent_with_mcp.interactive_chat rt bedrock_ok connect script w
            = (Return chat.ConnectFailed,
               printed w' [line (py "❌ Failed to connect to MCP servers: "
                                   ++ exn_str e)])).
  { unfold agent_with_mcp.interactive_chat, agent_with_mcp.create_llm, bedrock_ok,
      agent_with_mcp.async_with, agent_with_mcp.bedrock_client,
      agent_with_mcp.chat_model.
    rewrite C.
    unfold try_except, bind, print, write, lift, ret, chat.create_react_agent.
    cbv beta iota. rewrite T. unfold negb. cbv beta iota.
    match goal with
    | |- context [chat.loop _ _ script ?w1] => specialize (L w1); set (start := w1) in *
    end.
    destruct (chat.loop (unicode rt) agent_with_mcp.loop_labels script start)
      as [[s|e0] w2]; rewrite A; simpl in L.
    - destruct s; try congruence; rewrite X; eexists; reflexivity.
    - rewrite X. eexists; reflexivity. }
  destruct E as [w' E]. rewrite E.
  split; [reflexivity|]. unfold printed, stdout, snd. apply last_last.
Qed.

Definition broken_pipe : exn :=
  {| exn_class := RuntimeError;
     exn_str := py "Attempted to exit cancel scope in a different task than it was entered in" |}.

Definition leaky_client : agent_with_mcp.client :=
  {| agent_with_mcp.get_tools := Return [py "add"; py "get_city_weather"];
     agent_with_mcp.aexit := Some broken_pipe |}.

Definition leaky : agent_with_mcp.connector := fun _ => Return leaky_client.

(** The theorem applies: the user quits, and closing the client fails. *)
Lemma failure_on_leaving_is_called_a_connection_failure_witness :
  fst (agent_with_mcp.interactive_chat reference_runtime bedrock_ok leaky [quit_turn]
         empty_world)
  = Return chat.ConnectFailed
  /\ last (stdout (snd (agent_with_mcp.interactive_chat reference_runtime bedrock_ok
                          leaky [quit_turn] empty_world))) []
     = line (py "❌ Failed to connect to MCP servers: " ++ exn_str broken_pipe).
Proof.
  apply (failure_on_leaving_is_called_a_connection_failure reference_runtime leaky
           leaky_client [py "add"; py "get_city_weather"] [quit_turn] empty_world
           broken_pipe); try reflexivity.
  intros w0. vm_compute. discriminate.
Defined.

(* ================================================================== *)
(** * Further properties: the log and the report run *)
(* ================================================================== *)

(** What a call for any object returns and the bytes it adds to the
    log, once the log is open: each part is encoded and added in its
    turn, and the first failure ends the call. *)
Definition written (pf : weather_agent_mcp.platform) (now : weather_agent_mcp.datetime)
    (title : str) (report : value) : outcome unit * list N :=
  match weather_agent_mcp.encode pf (heading now title) with
  | Raise e => (Raise e, [])
  | Return b1 =>
    match weather_agent_mcp.encode pf rule with
    | Raise e => (Raise e, b1)
    | Return b2 =>
      match weather_agent_mcp.plus_newline report with
      | Raise e => (Raise e, b1 ++ b2)
      | Return text =>
        match weather_agent_mcp.encode pf text with
        | Raise e => (Raise e, b1 ++ b2)
        | Return b3 => (Return tt, b1 ++ b2 ++ b3)
        end
      end
    end
  end.

Lemma append_str (pf : weather_agent_mcp.platform) (now : weather_agent_mcp.datetime)
    (report title : str) (d : weather_agent_mcp.disk) :
  weather_agent_mcp.append_to_weather_summary pf now report title d
  = weather_agent_mcp.append_object pf now (VStr report) title d.
Proof. reflexivity. Qed.

Lemma append_object_closed (pf : weather_agent_mcp.platform)
    (now : weather_agent_mcp.datetime) (report : value) (title : str)
    (d : weather_agent_mcp.disk) (e : exn) :
  weather_agent_mcp.open_error pf summary_file (py "a") = Some e ->
  weather_agent_mcp.append_object pf now report title d = (Raise e, d).
Proof.
  intros O. unfold summary_file in O.
  unfold weather_agent_mcp.append_object, weather_agent_mcp.open_.
  rewrite O. reflexivity.
Qed.

Lemma write_to_log (pf : weather_agent_mcp.platform) (p s : str)
    (d : weather_agent_mcp.disk) (b : list N) :
  weather_agent_mcp.encode pf s = Return b ->
  weather_agent_mcp.write pf {| weather_agent_mcp.path := p |} s d
  = (Return tt, weather_agent_mcp.store d p (bytes_of d p ++ b)).
Proof. intros E. unfold weather_agent_mcp.write. rewrite E. reflexivity. Qed.

Lemma write_fails (pf : weather_agent_mcp.platform) (f : weather_agent_mcp.file)
    (s : str) (d : weather_agent_mcp.disk) (e : exn) :
  weather_agent_mcp.encode pf s = Raise e ->
  weather_agent_mcp.write pf f s d = (Raise e, d).
Proof. intros E. unfold weather_agent_mcp.write. rewrite E. reflexivity. Qed.

Lemma bytes_of_store (d : weather_agent_mcp.disk) (p : str) (c : list N) :
  bytes_of (weather_agent_mcp.store d p c) p = c.
Proof. unfold bytes_of. now rewrite store_same. Qed.

(** The log after a call is the log before it followed by what the call
    has written; no other file changes. *)
Lemma append_object_writes (pf : weather_agent_mcp.platform)
    (now : weather_agent_mcp.datetime) (report : value) (title : str)
    (d : weather_agent_mcp.disk) :
  weather_agent_mcp.open_error pf summary_file (py "a") = None ->
  let r := weather_agent_mcp.append_object pf now report title d in
  fst r = fst (written pf now title report)
  /\ bytes_of (snd r) summary_file
     = bytes_of d summary_file ++ snd (written pf now title report)
  /\ (forall q, q <> summary_file -> snd r q = d q).
Proof.
  intros O. cbv zeta.
  unfold weather_agent_mcp.append_object, written, heading, rule.
  unfold summary_file in *. cbv zeta.
  set (log := py "weather_summary.txt") in *.
  assert (Op : exists d0,
            weather_agent_mcp.open_ pf log (py "a") d
            = (Return {| weather_agent_mcp.path := log |}, d0)
            /\ bytes_of d0 log = bytes_of d log
            /\ forall q, q <> log -> d0 q = d q).
  { unfold weather_agent_mcp.open_. rewrite O.
    change (PyStr.eqb (py "a") (py "w")) with false. cbv iota.
    destruct (d log) as [c|] eqn:E.
    - exists d. split; [reflexivity|]. split; [reflexivity|]. reflexivity.
    - eexists. split; [reflexivity|]. split.
      + rewrite bytes_of_store. unfold bytes_of. now rewrite E.
      + intros q Q. now apply store_other. }
  destruct Op as [d0 [-> [B0 F0]]].
  match goal with
  | |- context [weather_agent_mcp.write pf _ ?h d0] => set (head := h) in *
  end.
  match goal with
  | |- context [weather_agent_mcp.write pf _ ?h _] =>
    lazymatch h with head => fail | _ => set (line := h) in * end
  end.
  destruct (weather_agent_mcp.encode pf head) as [b1|e1] eqn:E1.
  2:{ rewrite (write_fails pf _ _ d0 e1 E1). simpl.
      split; [reflexivity|]. split; [now rewrite app_nil_r|exact F0]. }
  rewrite (write_to_log pf log _ d0 b1 E1).
  destruct (weather_agent_mcp.encode pf line) as [b2|e2] eqn:E2.
  2:{ rewrite (write_fails pf _ _ _ e2 E2). simpl.
      split; [reflexivity|]. split; [now rewrite bytes_of_store, B0|].
      intros q Q. rewrite store_other by exact Q. now apply F0. }
  rewrite (write_to_log pf log _ _ b2 E2).
  destruct (weather_agent_mcp.plus_newline report) as [text|e3].
  2:{ simpl. split; [reflexivity|].
      split; [now rewrite !bytes_of_store, B0, <- app_assoc|].
      intros q Q. rewrite !store_other by exact Q. now apply F0. }
  destruct (weather_agent_mcp.encode pf text) as [b3|e4] eqn:E3.
  2:{ rewrite (write_fails pf _ _ _ e4 E3). simpl. split; [reflexivity|].
      split; [now rewrite !bytes_of_store, B0, <- app_assoc|].
      intros q Q. rewrite !store_other by exact Q. now apply F0. }
  rewrite (write_to_log pf log _ _ b3 E3). simpl. split; [reflexivity|].
  split; [now rewrite !bytes_of_store, B0, <- !app_assoc|].
  intros q Q. rewrite !store_other by exact Q. now apply F0.
Qed.

(** The bytes of a section: the heading, the rule and the report. *)
Definition section_of (pf : weather_agent_mcp.platform) (now : weather_agent_mcp.datetime)
    (title report : str) : outcome (list N) :=
  and_then (weather_agent_mcp.encode pf (heading now title)) (fun b1 =>
  and_then (weather_agent_mcp.encode pf rule) (fun b2 =>
  and_then (weather_agent_mcp.encode pf (body report)) (fun b3 =>
  Return (b1 ++ b2 ++ b3)))).

Lemma written_section (pf : weather_agent_mcp.platform)
    (now : weather_agent_mcp.datetime) (title report : str) (bytes : list N) :
  section_of pf now title report = Return bytes ->
  written pf now title (VStr report) = (Return tt, bytes).
Proof.
  unfold section_of, written, and_then. simpl. fold (body report).
  destruct (weather_agent_mcp.encode pf (heading now title)); [|discriminate].
  destruct (weather_agent_mcp.encode pf rule); [|discriminate].
  destruct (weather_agent_mcp.encode pf (body report)); [|discriminate].
  intros H. injection H as <-. reflexivity.
Qed.

(** X19.  Reports follow each other in the log: after two calls that
    both return, the log is what it was, then the section of the first
    call, then the section of the second; no other file has changed. *)
Theorem reports_follow_each_other (pf : weather_agent_mcp.platform)
    (now1 now2 : weather_agent_mcp.datetime) (report1 title1 report2 title2 : str)
    (d : weather_agent_mcp.disk) (section1 section2 : list N) :
  weather_agent_mcp.open_error pf summary_file (py "a") = None ->
  section_of pf now1 title1 report1 = Return section1 ->
  section_of pf now2 title2 report2 = Return section2 ->
  let first := weather_agent_mcp.append_to_weather_summary pf now1 report1 title1 d in
  let second :=
    weather_agent_mcp.append_to_weather_summary pf now2 report2 title2 (snd first) in
  fst first = Return tt /\ fst second = Return tt
  /\ bytes_of (snd second) summary_file
     = bytes_of d summary_file ++ section1 ++ section2
  /\ (forall q, q <> summary_file -> snd second q = d q).
Proof.
  intros O S1 S2. cbv zeta. rewrite !append_str.
  destruct (append_object_writes pf now1 (VStr report1) title1 d O) as [R1 [B1 F1]].
  rewrite (written_section _ _ _ _ _ S1) in R1, B1. simpl in R1, B1.
  destruct (append_object_writes pf now2 (VStr report2) title2
              (snd (weather_agent_mcp.append_object pf now1 (VStr report1) title1 d)) O)
    as [R2 [B2 F2]].
  rewrite (written_section _ _ _ _ _ S2) in R2, B2. simpl in R2, B2.
  split; [exact R1|]. split; [exact R2|]. split.
  - rewrite B2, B1, <- app_assoc. reflexivity.
  - intros q Q. rewrite (F2 q Q). now apply F1.
Qed.

Definition morning : weather_agent_mcp.datetime :=
  {| weather_agent_mcp.year := 2025; weather_agent_mcp.month := 3;
     weather_agent_mcp.day := 9; weather_agent_mcp.hour := 7;
     weather_agent_mcp.minute := 5 |}.

Definition evening : weather_agent_mcp.datetime :=
  {| weather_agent_mcp.year := 2025; weather_agent_mcp.month := 3;
     weather_agent_mcp.day := 9; weather_agent_mcp.hour := 19;
     weather_agent_mcp.minute := 30 |}.

Definition no_files : weather_agent_mcp.disk := fun _ => None.

Definition section_text (timestamp report : string) : list N :=
  PyStr.utf8_encode
    ([10%N] ++ py "MCP 10-City Weather - " ++ py timestamp ++ [10%N]
       ++ PyStr.replicate 50 61 ++ [10%N] ++ py report ++ [10%N]).

Definition morning_entry : outcome unit * weather_agent_mcp.disk :=
  weather_agent_mcp.append_to_weather_summary utf8_platform morning (py "Sunny")
    (py "MCP 10-City Weather") no_files.

Definition evening_entry : outcome unit * weather_agent_mcp.disk :=
  weather_agent_mcp.append_to_weather_summary utf8_platform evening (py "Rain")
    (py "MCP 10-City Weather") (snd morning_entry).

(** The theorem applies: a morning and an evening report, on a disk
    without a log. *)
Lemma reports_follow_each_other_witness :
  fst morning_entry = Return tt /\ fst evening_entry = Return tt
  /\ bytes_of (snd evening_entry) summary_file
     = bytes_of no_files summary_file
         ++ section_text "2025-03-09 07:05" "Sunny"
         ++ section_text "2025-03-09 19:30" "Rain"
  /\ (forall q, q <> summary_file -> snd evening_entry q = no_files q).
Proof.
  refine (reports_follow_each_other utf8_platform morning evening (py "Sunny")
            (py "MCP 10-City Weather") (py "Rain") (py "MCP 10-City Weather") no_files
            (section_text "2025-03-09 07:05" "Sunny")
            (section_text "2025-03-09 19:30" "Rain") _ _ _).
  - reflexivity.
  - vm_compute. reflexivity.
  - vm_compute. reflexivity.
Defined.

(** X20.  A report that cannot be encoded leaves a heading without a
    report: the heading and the rule are in the log when the encoding
    of the report fails, and the call raises that failure; so does a
    report that is no string.  When the log cannot be opened, the call
    raises and the disk is as it was. *)
Theorem failed_report_leaves_its_heading (pf : weather_agent_mcp.platform)
    (now : weather_agent_mcp.datetime) (report : value) (title : str)
    (d : weather_agent_mcp.disk) (b1 b2 : list N) (e : exn) :
  weather_agent_mcp.encode pf (heading now title) = Return b1 ->
  weather_agent_mcp.encode pf rule = Return b2 ->
  and_then (weather_agent_mcp.plus_newline report) (weather_agent_mcp.encode pf)
  = Raise e ->
  let r := weather_agent_mcp.append_object pf now report title d in
  match weather_agent_mcp.open_error pf summary_file (py "a") with
  | None =>
    fst r = Raise e
    /\ bytes_of (snd r) summary_file = bytes_of d summary_file ++ b1 ++ b2
  | Some e0 => r = (Raise e0, d)
  end.
Proof.
  intros E1 E2 E3. cbv zeta.
  destruct (weather_agent_mcp.open_error pf summary_file (py "a")) as [e0|] eqn:O.
  - now apply append_object_closed.
  - destruct (append_object_writes pf now report title d O) as [R [B _]].
    assert (W : written pf now title report = (Raise e, b1 ++ b2)).
    { unfold written. rewrite E1, E2. unfold and_then in E3.
      destruct (weather_agent_mcp.plus_newline report) as [text|e3].
      - rewrite E3. reflexivity.
      - injection E3 as ->. reflexivity. }
    rewrite W in R, B. split; [exact R|exact B].
Qed.

(** A platform whose files take ASCII only. *)
Definition cannot_encode : exn :=
  {| exn_class := OtherException (py "UnicodeEncodeError");
     exn_str := py "'ascii' codec can't encode character" |}.

Definition ascii_platform : weather_agent_mcp.platform :=
  {| weather_agent_mcp.open_error := fun _ _ => None;
     weather_agent_mcp.encode :=
       fun s => if PyStr.isascii s then Return s else Raise cannot_encode |}.

Definition degree_entry : outcome unit * weather_agent_mcp.disk :=
  weather_agent_mcp.append_object ascii_platform morning (VStr (py "41°F"))
    (py "MCP 10-City Weather") no_files.

(** The theorem applies: a report with a degree sign, on a platform
    that writes ASCII. *)
Lemma failed_report_leaves_its_heading_witness :
  match weather_agent_mcp.open_error ascii_platform summary_file (py "a") with
  | None =>
    fst degree_entry = Raise cannot_encode
    /\ bytes_of (snd degree_entry) summary_file
       = bytes_of no_files summary_file
           ++ heading morning (py "MCP 10-City Weather") ++ rule
  | Some e0 => degree_entry = (Raise e0, no_files)
  end.
Proof.
  refine (failed_report_leaves_its_heading ascii_platform morning (VStr (py "41°F"))
            (py "MCP 10-City Weather") no_files
            (heading morning (py "MCP 10-City Weather")) rule cannot_encode _ _ _).
  - vm_compute. reflexivity.
  - vm_compute. reflexivity.
  - vm_compute. reflexivity.
Defined.

(** ** The report run *)

Ltac run_report :=
  cbv beta iota zeta
      delta [weather_agent_mcp.generate_mcp_weather_report weather_agent_mcp.then_
             weather_agent_mcp.say weather_agent_mcp.attempt
             weather_agent_mcp.with_client weather_agent_mcp.on_disk
             weather_agent_mcp.done bind print write lift ret
             chat.create_react_agent fst snd negb].

(** X21.  The report run raises no fault, whatever the model setup, the
    client, the agent and the file system do: only an exception that is
    no [Exception] leaves it.  It touches the disk in one case only:
    when the agent has answered with at least one message, and then by
    the one call that appends the content of the last message. *)
Theorem report_run_is_contained (rt : runtime) (bedrock : outcome unit)
    (connect : agent_with_mcp.connector)
    (ainvoke : str -> outcome weather_agent_mcp.reply)
    (pf : weather_agent_mcp.platform) (now : weather_agent_mcp.datetime)
    (s : weather_agent_mcp.session) :
  let r := weather_agent_mcp.generate_mcp_weather_report rt bedrock connect ainvoke
             pf now s in
  match fst r with
  | Return _ => True
  | Raise e => isinstance e Exception = false
  end
  /\ (snd (snd r) = snd s
      \/ exists m ms,
           ainvoke weather_agent_mcp.prompt = Return (Some (m :: ms))
           /\ snd (snd r)
              = snd (weather_agent_mcp.append_object pf now (last ms m)
                       weather_agent_mcp.report_title (snd s))).
Proof.
  destruct s as [w d]. run_report.
  destruct bedrock as [[]|e0]; run_report.
  2:{ destruct (isinstance e0 Exception) eqn:X; run_report.
      - split; [exact I|left; reflexivity].
      - split; [exact X|left; reflexivity]. }
  destruct (connect weather_agent_mcp.mcp_config) as [c|e1]; run_report.
  2:{ destruct (isinstance e1 Exception) eqn:X; run_report.
      - split; [exact I|left; reflexivity].
      - split; [exact X|left; reflexivity]. }
  destruct (agent_with_mcp.get_tools c) as [tools|e2]; run_report.
  2:{ destruct (agent_with_mcp.aexit c) as [e3|]; run_report.
      - destruct (isinstance e3 Exception) eqn:X; run_report.
        + split; [exact I|left; reflexivity].
        + split; [exact X|left; reflexivity].
      - destruct (isinstance e2 Exception) eqn:X; run_report.
        + split; [exact I|left; reflexivity].
        + split; [exact X|left; reflexivity]. }
  destruct (ainvoke weather_agent_mcp.prompt) as [[[|m ms]|]|e4]; run_report.
  - destruct (agent_with_mcp.aexit c) as [e3|]; run_report.
    + destruct (isinstance e3 Exception) eqn:X; run_report.
      * split; [exact I|left; reflexivity].
      * split; [exact X|left; reflexivity].
    + split; [exact I|left; reflexivity].
  - destruct (weather_agent_mcp.append_object pf now (last ms m)
                weather_agent_mcp.report_title d) as [[[]|e5] d'] eqn:A; run_report.
    + destruct (agent_with_mcp.aexit c) as [e3|]; run_report.
      * destruct (isinstance e3 Exception) eqn:X; run_report.
        -- split; [exact I|right; exists m, ms; split; [reflexivity|rewrite A; reflexivity]].
        -- split; [exact X|right; exists m, ms; split; [reflexivity|rewrite A; reflexivity]].
      * split; [exact I|right; exists m, ms; split; [reflexivity|rewrite A; reflexivity]].
    + destruct (agent_with_mcp.aexit c) as [e3|]; run_report.
      * destruct (isinstance e3 Exception) eqn:X; run_report.
        -- split; [exact I|right; exists m, ms; split; [reflexivity|rewrite A; reflexivity]].
        -- split; [exact X|right; exists m, ms; split; [reflexivity|rewrite A; reflexivity]].
      * destruct (isinstance e5 Exception) eqn:X; run_report.
        -- split; [exact I|right; exists m, ms; split; [reflexivity|rewrite A; reflexivity]].
        -- split; [exact X|right; exists m, ms; split; [reflexivity|rewrite A; reflexivity]].
  - destruct (agent_with_mcp.aexit c) as [e3|]; run_report.
    + destruct (isinstance e3 Exception) eqn:X; run_report.
      * split; [exact I|left; reflexivity].
      * split; [exact X|left; reflexivity].
    + split; [exact I|left; reflexivity].
  - destruct (agent_with_mcp.aexit c) as [e3|]; run_report.
    + destruct (isinstance e3 Exception) eqn:X; run_report.
      * split; [exact I|left; reflexivity].
      * split; [exact X|left; reflexivity].
    + destruct (isinstance e4 Exception) eqn:X; run_report.
      * split; [exact I|left; reflexivity].
      * split; [exact X|left; reflexivity].
Qed.

Lemma last_printed (w : world) (x : str) : last (stdout (printed w [x])) [] = x.
Proof. unfold printed, stdout. apply last_last. Qed.

(** X22.  A run that goes well logs the report: with a model, a client
    that opens and closes, and an agent whose last message is a text,
    the log gains the section of that text under the title of the
    script, no other file changes, one agent has been built with the
    tools of the client, and the last line printed confirms the entry. *)
Theorem report_is_logged (rt : runtime) (connect : agent_with_mcp.connector)
    (ainvoke : str -> outcome weather_agent_mcp.reply)
    (pf : weather_agent_mcp.platform) (now : weather_agent_mcp.datetime)
    (w : world) (d : weather_agent_mcp.disk) (c : agent_with_mcp.client)
    (tools : list str) (m : value) (ms : list value) (text : str) (bytes : list N) :
  connect weather_agent_mcp.mcp_config = Return c ->
  agent_with_mcp.get_tools c = Return tools ->
  agent_with_mcp.aexit c = None ->
  ainvoke weather_agent_mcp.prompt = Return (Some (m :: ms)) ->
  last ms m = VStr text ->
  weather_agent_mcp.open_error pf summary_file (py "a") = None ->
  section_of pf now weather_agent_mcp.report_title text = Return bytes ->
  let r := weather_agent_mcp.generate_mcp_weather_report rt (Return tt) connect
             ainvoke pf now (w, d) in
  fst r = Return tt
  /\ bytes_of (snd (snd r)) summary_file = bytes_of d summary_file ++ bytes
  /\ (forall q, q <> summary_file -> snd (snd r) q = d q)
  /\ agents (fst (snd r)) = agents w ++ [tools]
  /\ last (stdout (fst (snd r))) []
     = line ([10%N] ++ py "✅ MCP report appended to weather_summary.txt").
Proof.
  intros C T X A L O S.
  destruct (append_object_writes pf now (VStr text) weather_agent_mcp.report_title d O)
    as [R [B F]].
  rewrite (written_section _ _ _ _ _ S) in R, B.
  run_report. rewrite C. run_report. rewrite T. run_report. rewrite A. run_report.
  rewrite L.
  destruct (weather_agent_mcp.append_object pf now (VStr text)
              weather_agent_mcp.report_title d) as [o d'].
  simpl in R, B, F. subst o. run_report. rewrite X.
  split; [reflexivity|]. split; [exact B|]. split; [exact F|].
  split; [reflexivity|].
  apply last_printed.
Qed.

Definition weather_client : agent_with_mcp.client :=
  {| agent_with_mcp.get_tools :=
       Return [py "get_weather_forecast"; py "get_current_conditions";
               py "get_weather_alerts"; py "get_city_weather"];
     agent_with_mcp.aexit := None |}.

Definition weather_server_up : agent_with_mcp.connector := fun _ => Return weather_client.

Definition sunny_everywhere : str -> outcome weather_agent_mcp.reply :=
  fun request => Return (Some [VStr request; VStr (py "Sunny in all ten cities.")]).

Definition sunny_run : outcome unit * weather_agent_mcp.session :=
  weather_agent_mcp.generate_mcp_weather_report reference_runtime (Return tt)
    weather_server_up sunny_everywhere utf8_platform morning (empty_world, no_files).

Definition weather_tools : list str :=
  [py "get_weather_forecast"; py "get_current_conditions"; py "get_weather_alerts";
   py "get_city_weather"].

(** The theorem applies: a report of one line, on a disk without a log. *)
Lemma report_is_logged_witness :
  fst sunny_run = Return tt
  /\ bytes_of (snd (snd sunny_run)) summary_file
     = bytes_of no_files summary_file
         ++ section_text "2025-03-09 07:05" "Sunny in all ten cities."
  /\ (forall q, q <> summary_file -> snd (snd sunny_run) q = no_files q)
  /\ agents (fst (snd sunny_run)) = agents empty_world ++ [weather_tools]
  /\ last (stdout (fst (snd sunny_run))) []
     = line ([10%N] ++ py "✅ MCP report appended to weather_summary.txt").
Proof.
  refine (report_is_logged reference_runtime weather_server_up sunny_everywhere
            utf8_platform morning empty_world no_files weather_client weather_tools
            (VStr weather_agent_mcp.prompt) [VStr (py "Sunny in all ten cities.")]
            (py "Sunny in all ten cities.")
            (section_text "2025-03-09 07:05" "Sunny in all ten cities.")
            _ _ _ _ _ _ _).
  - reflexivity.
  - reflexivity.
  - reflexivity.
  - reflexivity.
  - reflexivity.
  - reflexivity.
  - vm_compute. reflexivity.
Defined.

(** X23.  A last message whose content is a list of parts, not a text,
    is printed but not logged: the log gains the heading and the rule
    and no report, the fault of the concatenation is caught, and the
    last line printed reports it as an error of connecting or
    generating. *)
Theorem report_that_is_no_text (rt : runtime) (connect : agent_with_mcp.connector)
    (ainvoke : str -> outcome weather_agent_mcp.reply)
    (pf : weather_agent_mcp.platform) (now : weather_agent_mcp.datetime)
    (w : world) (d : weather_agent_mcp.disk) (c : agent_with_mcp.client)
    (tools : list str) (m : value) (ms parts : list value) (b1 b2 : list N) :
  connect weather_agent_mcp.mcp_config = Return c ->
  agent_with_mcp.get_tools c = Return tools ->
  agent_with_mcp.aexit c = None ->
  ainvoke weather_agent_mcp.prompt = Return (Some (m :: ms)) ->
  last ms m = VList parts ->
  weather_agent_mcp.open_error pf summary_file (py "a") = None ->
  weather_agent_mcp.encode pf (heading now weather_agent_mcp.report_title) = Return b1 ->
  weather_agent_mcp.encode pf rule = Return b2 ->
  let r := weather_agent_mcp.generate_mcp_weather_report rt (Return tt) connect
             ainvoke pf now (w, d) in
  fst r = Return tt
  /\ bytes_of (snd (snd r)) summary_file = bytes_of d summary_file ++ b1 ++ b2
  /\ last (stdout (fst (snd r))) []
     = line (py "❌ Error connecting to MCP server or generating report: "
               ++ exn_str (cannot_concatenate (VList parts) (py "str"))).
Proof.
  intros C T X A L O E1 E2.
  destruct (append_object_writes pf now (VList parts) weather_agent_mcp.report_title
              d O) as [R [B _]].
  assert (W : written pf now weather_agent_mcp.report_title (VList parts)
              = (Raise (cannot_concatenate (VList parts) (py "str")), b1 ++ b2)).
  { unfold written. rewrite E1, E2. reflexivity. }
  rewrite W in R, B.
  run_report. rewrite C. run_report. rewrite T. run_report. rewrite A. run_report.
  rewrite L.
  destruct (weather_agent_mcp.append_object pf now (VList parts)
              weather_agent_mcp.report_title d) as [o d'].
  simpl in R, B. subst o. run_report. rewrite X.
  change (isinstance (cannot_concatenate (VList parts) (py "str")) Exception) with true.
  run_report.
  split; [reflexivity|]. split; [exact B|].
  apply last_printed.
Qed.

Definition parts_everywhere : str -> outcome weather_agent_mcp.reply :=
  fun request =>
    Return (Some [VStr request;
                  VList [VDict [(py "type", VStr (py "text"));
                                (py "text", VStr (py "Sunny in all ten cities."))]]]).

Definition one_part : list value :=
  [VDict [(py "type", VStr (py "text"));
          (py "text", VStr (py "Sunny in all ten cities."))]].

Definition parts_run : outcome unit * weather_agent_mcp.session :=
  weather_agent_mcp.generate_mcp_weather_report reference_runtime (Return tt)
    weather_server_up parts_everywhere utf8_platform morning (empty_world, no_files).

(** The theorem applies: the content comes as a list of one part. *)
Lemma report_that_is_no_text_witness :
  fst parts_run = Return tt
  /\ bytes_of (snd (snd parts_run)) summary_file
     = bytes_of no_files summary_file
         ++ PyStr.utf8_encode (heading morning weather_agent_mcp.report_title)
         ++ PyStr.utf8_encode rule
  /\ last (stdout (fst (snd parts_run))) []
     = line (py "❌ Error connecting to MCP server or generating report: "
               ++ exn_str (cannot_concatenate (VList one_part) (py "str"))).
Proof.
  refine (report_that_is_no_text reference_runtime weather_server_up parts_everywhere
            utf8_platform morning empty_world no_files weather_client weather_tools
            (VStr weather_agent_mcp.prompt) [VList one_part] one_part
            (PyStr.utf8_encode (heading morning weather_agent_mcp.report_title))
            (PyStr.utf8_encode rule) _ _ _ _ _ _ _ _); reflexivity.
Defined.

(* ================================================================== *)
(** * Further properties: the tables of cities *)
(* ================================================================== *)

(** A letter and its capital have the same title case and the same
    lower case, and both are cased or neither is. *)
Lemma same_letter_cases (c d : N) :
  same_letter c d = true ->
  ((d <? 128)%N && negb (PyStr.is_upper_cp d)) = true ->
  PyStr.lower_cp c = PyStr.lower_cp d
  /\ PyStr.upper_cp c = PyStr.upper_cp d
  /\ (PyStr.is_upper_cp c || PyStr.is_lower_cp c)
     = (PyStr.is_upper_cp d || PyStr.is_lower_cp d).
Proof.
  unfold same_letter, PyStr.lower_cp, PyStr.upper_cp, PyStr.is_upper_cp,
    PyStr.is_lower_cp.
  intros S L.
  apply andb_prop in L. destruct L as [_ L]. apply negb_true_iff in L.
  apply orb_prop in S. destruct S as [S|S].
  - apply orb_prop in S. destruct S as [S|S].
    + apply N.eqb_eq in S. subst d. repeat split; reflexivity.
    + apply andb_prop in S. destruct S as [U E]. apply N.eqb_eq in E. subst d.
      rewrite U. apply andb_prop in U. destruct U as [U1 U2].
      apply N.leb_le in U1, U2.
      assert (A1 : (65 <=? c + 32)%N = true) by (apply N.leb_le; lia).
      assert (A2 : (c + 32 <=? 90)%N = false) by (apply N.leb_gt; lia).
      assert (A3 : (97 <=? c + 32)%N = true) by (apply N.leb_le; lia).
      assert (A4 : (c + 32 <=? 122)%N = true) by (apply N.leb_le; lia).
      assert (A5 : (97 <=? c)%N = false) by (apply N.leb_gt; lia).
      rewrite A1, A2, A3, A4, A5. cbn [andb orb].
      split; [reflexivity|]. split; [lia|reflexivity].
  - apply andb_prop in S. destruct S as [U _]. rewrite U in L. discriminate L.
Qed.

Lemma title_ascii_caseless (s k : str) (previous_is_cased : bool) :
  caseless_eq s k -> lowercase_ascii k = true ->
  PyStr.title_ascii previous_is_cased s = PyStr.title_ascii previous_is_cased k.
Proof.
  intros C. revert previous_is_cased.
  induction C as [|c d s k S _ IH]; intros p L; [reflexivity|].
  simpl in L. apply andb_prop in L. destruct L as [Ld Lk].
  destruct (same_letter_cases c d S Ld) as [E1 [E2 E3]].
  simpl. rewrite E1, E2, E3, (IH _ Lk). reflexivity.
Qed.

Lemma caseless_isascii (s k : str) :
  caseless_eq s k -> lowercase_ascii k = true ->
  PyStr.isascii s = true /\ PyStr.isascii k = true.
Proof.
  intros C. induction C as [|c d s k S _ IH]; intros L; [split; reflexivity|].
  simpl in L. apply andb_prop in L. destruct L as [Ld Lk].
  destruct (same_letter_lower c d S Ld) as [A _].
  destruct (IH Lk) as [I1 I2].
  apply andb_prop in Ld. destruct Ld as [Ld _].
  unfold PyStr.isascii in *. simpl. rewrite A, Ld, I1, I2. split; reflexivity.
Qed.

(** X24.  The heading of a forecast does not depend on how the name of
    the city was capitalised: the weather server's [get_city_weather]
    answers a name that differs from an entry of its table only in
    letter case with the forecast for that entry's coordinates, headed
    by the title case of the entry. *)
Theorem heading_ignores_capitals (rt : runtime) (net : provider)
    (city_name key : str) (lat lon : float) (w : world) :
  caseless_eq city_name key ->
  PyStr.find key weather_server.cities = Some (lat, lon) ->
  weather_server.get_city_weather rt net city_name w
  = weather_server.get_weather_forecast rt net lat lon
      (PyStr.title (unicode rt) key) w.
Proof.
  intros C F.
  pose proof (cities_lowercase key (find_some_key key _ _ F)) as L.
  unfold weather_server.get_city_weather. cbv zeta.
  rewrite (lower_caseless (unicode rt) city_name key C L), F.
  unfold PyStr.title.
  destruct (caseless_isascii city_name key C L) as [-> ->].
  rewrite (title_ascii_caseless city_name key false C L). reflexivity.
Qed.

(** The theorem applies: a name in capitals is headed as the entry is. *)
Lemma heading_ignores_capitals_witness :
  weather_server.get_city_weather reference_runtime null_properties (py "NEW YORK")
    empty_world
  = weather_server.get_weather_forecast reference_runtime null_properties
      40.7128 (-74.0060) (PyStr.title (unicode reference_runtime) (py "new york"))
      empty_world.
Proof.
  apply (heading_ignores_capitals reference_runtime null_properties (py "NEW YORK")
           (py "new york") 40.7128 (-74.0060) empty_world).
  - vm_compute. repeat constructor.
  - vm_compute. reflexivity.
Defined.

(** An entry of the report's list, as the two other scripts know it. *)
Definition known_everywhere (rt : runtime) (city : str) : bool :=
  match PyStr.find city basic_agent.US_CITIES,
        PyStr.find (PyStr.lower (unicode rt) city) weather_server.cities,
        PyStr.find city basic_agent.city_info with
  | Some (lat, lon), Some (lat', lon'), Some _ =>
    PrimFloat.eqb lat lat' && PrimFloat.eqb lon lon'
    && PyStr.eqb (PyStr.title (unicode rt) city) city
  | _, _, _ => false
  end.

Lemma report_cities_checked (rt : runtime) :
  forallb (known_everywhere rt) weather_agent_mcp.US_CITIES = true.
Proof. vm_compute. reflexivity. Qed.

(** X25.  The three tables of cities agree on the ten cities of the
    report: each of them is an entry of the basic agent's two tables,
    and the weather server finds it, in lower case, with coordinates
    equal to the basic agent's; so the server's [get_city_weather]
    answers each of them with a forecast, headed by the name as the
    report's list spells it, and never with the list of known cities. *)
Theorem report_cities_are_known (rt : runtime) (net : provider) (city : str)
    (w : world) :
  In city weather_agent_mcp.US_CITIES ->
  known_everywhere rt city = true
  /\ exists lat lon,
       weather_server.get_city_weather rt net city w
       = weather_server.get_weather_forecast rt net lat lon city w.
Proof.
  intros I.
  pose proof (report_cities_checked rt) as A.
  rewrite forallb_forall in A. specialize (A city I). split; [exact A|].
  unfold known_everywhere in A.
  destruct (PyStr.find city basic_agent.US_CITIES) as [[lat lon]|]; [|discriminate A].
  destruct (PyStr.find (PyStr.lower (unicode rt) city) weather_server.cities)
    as [[lat' lon']|] eqn:F; [|discriminate A].
  destruct (PyStr.find city basic_agent.city_info); [|discriminate A].
  apply andb_prop in A. destruct A as [_ T]. apply str_eqb_eq in T.
  exists lat', lon'. unfold weather_server.get_city_weather. cbv zeta.
  rewrite F, T. reflexivity.
Qed.

(** The theorem applies: Denver. *)
Lemma report_cities_are_known_witness :
  known_everywhere reference_runtime (py "Denver") = true
  /\ exists lat lon,
       weather_server.get_city_weather reference_runtime null_properties (py "Denver")
         empty_world
       = weather_server.get_weather_forecast reference_runtime null_properties lat lon
           (py "Denver") empty_world.
Proof.
  apply (report_cities_are_known reference_runtime null_properties (py "Denver")
           empty_world).
  unfold weather_agent_mcp.US_CITIES. repeat (first [left; reflexivity | right]).
Defined.

(* ================================================================== *)
(** * Further properties: what a turn shows *)
(* ================================================================== *)

(** X26.  The tool lines of a turn come from the messages between the
    first and the last: whatever the first message (the question) and
    the last (the answer) carry as tool calls or as a name is never
    shown, and a reply of at most two messages shows no tool line. *)
Theorem tool_usage_skips_the_ends (db : unicode_db) (lb : chat.labels)
    (first final first' final' : chat.message) (inner : list chat.message)
    (w : world) :
  chat.show_tool_usage db lb (Some (first :: inner ++ [final])) w
  = chat.show_tool_usage db lb (Some (first' :: inner ++ [final'])) w
  /\ (forall messages,
        (List.length messages <= 2)%nat ->
        chat.show_tool_usage db lb (Some messages) w = (Return tt, w)).
Proof.
  split.
  - unfold chat.show_tool_usage.
    cbn [List.length tl]. rewrite !length_app. cbn [List.length].
    replace (1 <? S (List.length inner + 1))%nat with true
      by (symmetry; apply Nat.ltb_lt; lia).
    rewrite !removelast_last. reflexivity.
  - intros messages L. unfold chat.show_tool_usage.
    destruct messages as [|m1 [|m2 [|m3 r]]]; try reflexivity.
    simpl in L. lia.
Qed.

(* ================================================================== *)
(** * Further properties: the demo of the basic agent *)
(* ================================================================== *)

(** The block returns, and what it prints, chunk by chunk, satisfies
    [P]; it builds no agent and makes no request. *)
Definition prints_only (P : str -> Prop) (m : M unit) : Prop :=
  forall w, exists chunks,
    m w = (Return tt, printed w chunks) /\ Forall P chunks.

(** The same for a block that may raise a fault. *)
Definition prints_only_or_faults (P : str -> Prop) (m : M unit) : Prop :=
  forall w, exists chunks,
    Forall P chunks
    /\ (m w = (Return tt, printed w chunks)
        \/ exists e, isinstance e Exception = true /\ m w = (Raise e, printed w chunks)).

Lemma printed_nil (w : world) : printed w [] = w.
Proof. destruct w. unfold printed. simpl. now rewrite app_nil_r. Qed.

Lemma printed_printed (w : world) (a b : list str) :
  printed (printed w a) b = printed w (a ++ b).
Proof. unfold printed. simpl. now rewrite app_assoc. Qed.

Lemma prints_print (P : str -> Prop) (s : str) : P (line s) -> prints_only P (print s).
Proof. intros H w. exists [line s]. split; [reflexivity|]. now constructor. Qed.

Lemma prints_bind (P : str -> Prop) (m : M unit) (f : unit -> M unit) :
  prints_only P m -> prints_only P (f tt) -> prints_only P (bind m f).
Proof.
  intros Hm Hf w. destruct (Hm w) as [c1 [E1 F1]].
  destruct (Hf (printed w c1)) as [c2 [E2 F2]].
  exists (c1 ++ c2). unfold bind. rewrite E1, E2, printed_printed.
  split; [reflexivity|]. now apply Forall_app.
Qed.

Lemma faulty_ret (P : str -> Prop) : prints_only_or_faults P (ret tt).
Proof.
  intros w. exists []. split; [constructor|]. left. now rewrite printed_nil.
Qed.

Lemma faulty_print (P : str -> Prop) (s : str) :
  P (line s) -> prints_only_or_faults P (print s).
Proof.
  intros H w. exists [line s]. split; [now constructor|]. now left.
Qed.

Lemma faulty_raise (P : str -> Prop) (e : exn) :
  isinstance e Exception = true -> prints_only_or_faults P (raise e).
Proof.
  intros H w. exists []. split; [constructor|]. right. exists e.
  split; [exact H|]. now rewrite printed_nil.
Qed.

Lemma faulty_bind (P : str -> Prop) (m : M unit) (f : unit -> M unit) :
  prints_only_or_faults P m -> prints_only_or_faults P (f tt) ->
  prints_only_or_faults P (bind m f).
Proof.
  intros Hm Hf w. destruct (Hm w) as [c1 [F1 [E1|[e [X E1]]]]].
  - destruct (Hf (printed w c1)) as [c2 [F2 [E2|[e [X E2]]]]];
      exists (c1 ++ c2); (split; [now apply Forall_app|]); unfold bind;
      rewrite E1, E2, printed_printed.
    + now left.
    + right. exists e. now split.
  - exists c1. split; [exact F1|]. right. exists e. split; [exact X|].
    unfold bind. now rewrite E1.
Qed.

(** A step that prints nothing and raises faults only. *)
Lemma faulty_bind_lift {A} (P : str -> Prop) (o : outcome A) (f : A -> M unit) :
  (forall e, o = Raise e -> isinstance e Exception = true) ->
  (forall a, prints_only_or_faults P (f a)) ->
  prints_only_or_faults P (bind (lift o) f).
Proof.
  intros Ho Hf w. unfold bind, lift. destruct o as [a|e].
  - apply Hf.
  - exists []. split; [constructor|]. right. exists e.
    split; [now apply Ho|]. now rewrite printed_nil.
Qed.

Lemma faulty_for_each {A} (P : str -> Prop) (l : list A) (f : A -> M unit) :
  (forall a, prints_only_or_faults P (f a)) -> prints_only_or_faults P (for_each l f).
Proof.
  intros H. induction l as [|a l IH]; simpl; [apply faulty_ret|].
  apply faulty_bind; [apply H|exact IH].
Qed.

(** A [try] whose handler prints one line turns the faults into lines. *)
Lemma prints_try_except (P : str -> Prop) (m : M unit) (h : exn -> str) :
  prints_only_or_faults P m -> (forall e, P (line (h e))) ->
  prints_only P (try_except m Exception (fun e => print (h e))).
Proof.
  intros Hm Hh w. unfold try_except.
  destruct (Hm w) as [c [F [E|[e [X E]]]]]; rewrite E.
  - exists c. now split.
  - rewrite X. exists (c ++ [line (h e)]). unfold print, write.
    rewrite printed_printed. split; [reflexivity|].
    apply Forall_app. split; [exact F|]. constructor; [apply Hh|constructor].
Qed.

Lemma slice_to_fault (v : value) (n : nat) (e : exn) :
  slice_to v n = Raise e -> isinstance e Exception = true.
Proof.
  destruct v; simpl; try discriminate; intros H; injection H as <-; reflexivity.
Qed.

Lemma len_fault (v : value) (e : exn) :
  len v = Raise e -> isinstance e Exception = true.
Proof.
  destruct v; simpl; try discriminate; intros H; injection H as <-; reflexivity.
Qed.

(** The heading of a demo query, and the chunks that are one. *)
Definition demo_heading (numbered : N * str) : str :=
  line (py "\n🔍 Demo " ++ PyStr.of_N (fst numbered) ++ py ": " ++ snd numbered).

Definition is_demo_heading (chunk : str) : bool :=
  PyStr.startswith (py "\n🔍 Demo ") chunk.

Definition no_heading (chunk : str) : Prop := is_demo_heading chunk = false.

Lemma demo_tool_usage_prints (rt : runtime) (r : chat.response) :
  prints_only_or_faults no_heading (basic_agent.demo_tool_usage rt r).
Proof.
  unfold basic_agent.demo_tool_usage.
  destruct r as [messages|]; [|apply faulty_ret].
  destruct (1 <? List.length messages)%nat; [|apply faulty_ret].
  apply faulty_for_each. intros msg.
  destruct (chat.tool_calls msg) as [calls|]; [|apply faulty_ret].
  destruct (truthy calls); [|apply faulty_ret].
  apply faulty_bind_lift; [apply iterate_fault|]. intros items.
  apply faulty_for_each. intros tool_call.
  apply faulty_bind_lift; [apply getitem_fault|]. intros n.
  apply faulty_print. vm_compute. reflexivity.
Qed.

Lemma demo_answer_prints (rt : runtime) (class_name : chat.message -> str)
    (r : chat.response) :
  prints_only_or_faults no_heading (basic_agent.demo_answer rt class_name r).
Proof.
  unfold basic_agent.demo_answer.
  destruct r as [[|m ms]|]; try (apply faulty_print; vm_compute; reflexivity).
  destruct (chat.content (last ms m)) as [result|].
  - apply faulty_bind_lift; [apply slice_to_fault|]. intros shown.
    apply faulty_bind_lift; [apply len_fault|]. intros size.
    apply faulty_print. vm_compute. reflexivity.
  - apply faulty_raise. reflexivity.
Qed.

(** One pass of the demo, when the agent raises faults only: the
    heading, then no heading. *)
Lemma demo_query_prints (rt : runtime) (class_name : chat.message -> str)
    (ainvoke : str -> outcome chat.response) (numbered : N * str) (w : world) :
  (forall e, ainvoke (snd numbered) = Raise e -> isinstance e Exception = true) ->
  exists chunks,
    basic_agent.demo_query rt class_name ainvoke numbered w
    = (Return tt, printed w (demo_heading numbered :: chunks))
    /\ Forall no_heading chunks.
Proof.
  destruct numbered as [i query]. cbn [fst snd]. intros H.
  assert (B : prints_only no_heading
                (bind
                   (try_except
                      (bind (lift (ainvoke query)) (fun response =>
                       bind (basic_agent.demo_tool_usage rt response) (fun _ =>
                       basic_agent.demo_answer rt class_name response)))
                      Exception
                      (fun e => print (py "❌ Error: " ++ exn_str e)))
                   (fun _ => print (PyStr.replicate 40 45)))).
  { apply prints_bind.
    - apply prints_try_except.
      + apply faulty_bind_lift; [exact H|]. intros response.
        apply faulty_bind; [apply demo_tool_usage_prints|apply demo_answer_prints].
      + intros e. vm_compute. reflexivity.
    - apply prints_print. vm_compute. reflexivity. }
  unfold basic_agent.demo_query. unfold bind at 1. unfold print at 1, write at 1.
  cbv beta iota.
  destruct (B (printed w [demo_heading (i, query)])) as [chunks [E F]].
  exists chunks. split; [|exact F].
  unfold demo_heading in *. cbn [fst snd] in *.
  rewrite E, printed_printed. reflexivity.
Qed.

Lemma filter_no_heading (chunks : list str) :
  Forall no_heading chunks -> filter is_demo_heading chunks = [].
Proof.
  intros F. induction F as [|c l Hc _ IH]; [reflexivity|].
  cbn [filter]. unfold no_heading in Hc. rewrite Hc. exact IH.
Qed.

Lemma heading_is_heading (numbered : N * str) :
  is_demo_heading (demo_heading numbered) = true.
Proof. destruct numbered. vm_compute. reflexivity. Qed.

Lemma demo_queries_print (rt : runtime) (class_name : chat.message -> str)
    (ainvoke : str -> outcome chat.response) (numbered : list (N * str)) (w : world) :
  (forall q e, In q (map snd numbered) -> ainvoke q = Raise e ->
               isinstance e Exception = true) ->
  exists chunks,
    for_each numbered (basic_agent.demo_query rt class_name ainvoke) w
    = (Return tt, printed w chunks)
    /\ filter is_demo_heading chunks = map demo_heading numbered.
Proof.
  revert w. induction numbered as [|n r IH]; intros w H.
  - exists []. split; [simpl; unfold ret; now rewrite printed_nil|reflexivity].
  - destruct (demo_query_prints rt class_name ainvoke n w) as [c1 [E1 F1]].
    { intros e. apply H. now left. }
    destruct (IH (printed w (demo_heading n :: c1))) as [c2 [E2 F2]].
    { intros q e I. apply H. now right. }
    exists ((demo_heading n :: c1) ++ c2). split.
    + simpl for_each. unfold bind. rewrite E1, E2, printed_printed. reflexivity.
    + rewrite filter_app, F2. cbn [filter map].
      rewrite (heading_is_heading n), (filter_no_heading c1 F1). reflexivity.
Qed.

Lemma demo_queries_enumerated :
  map snd (basic_agent.enumerate 1 basic_agent.demo_queries) = basic_agent.demo_queries.
Proof. vm_compute. reflexivity. Qed.

Lemma demo_banner_has_no_heading :
  filter is_demo_heading
    [line (py "🎬 Demo Mode - Automated @tool Examples");
     line (PyStr.replicate 50 61); line (py "✅ Using AWS Bedrock Claude")]
  = [].
Proof. vm_compute. reflexivity. Qed.

(** X27.  The demo runs every one of its five queries, in order,
    whatever faults the agent raises on the way: with a model, and an
    agent that raises nothing but faults, the demo returns, and the
    headings it has printed are those of the five queries, numbered
    from 1. *)
Theorem every_demo_query_is_run (rt : runtime) (class_name : chat.message -> str)
    (ainvoke : str -> outcome chat.response) (w : world) :
  (forall q e, In q basic_agent.demo_queries -> ainvoke q = Raise e ->
               isinstance e Exception = true) ->
  exists chunks,
    fst (basic_agent.demo_mode rt (Return tt) class_name ainvoke w) = Return tt
    /\ stdout (snd (basic_agent.demo_mode rt (Return tt) class_name ainvoke w))
       = stdout w ++ chunks
    /\ filter is_demo_heading chunks
       = map demo_heading (basic_agent.enumerate 1 basic_agent.demo_queries).
Proof.
  intros H.
  unfold basic_agent.demo_mode, basic_agent.create_llm.
  unfold try_except, bind, print, write, lift, ret, chat.create_react_agent.
  unfold negb. cbv beta iota.
  match goal with
  | |- context [for_each _ _ ?w1] => set (start := w1)
  end.
  destruct (demo_queries_print rt class_name ainvoke
              (basic_agent.enumerate 1 basic_agent.demo_queries) start)
    as [chunks [E F]].
  { intros q e I. apply H. rewrite <- demo_queries_enumerated. exact I. }
  rewrite E.
  exists ([line (py "🎬 Demo Mode - Automated @tool Examples");
           line (PyStr.replicate 50 61); line (py "✅ Using AWS Bedrock Claude")]
            ++ chunks).
  split; [reflexivity|]. split.
  - unfold start, printed, chat.built, stdout, snd.
    rewrite <- !app_assoc. reflexivity.
  - rewrite filter_app, F, demo_banner_has_no_heading. reflexivity.
Qed.

Definition reply_with (answer : str) : chat.response :=
  Some [{| chat.tool_calls := None; chat.name := None;
           chat.content := Some (VStr answer); chat.as_str := answer |}].

(** An agent that fails on the arithmetic and answers the rest. *)
Definition moody_agent : str -> outcome chat.response :=
  fun query =>
    if PyStr.startswith (py "Calculate") query
    then Raise {| exn_class := RuntimeError; exn_str := py "boom" |}
    else Return (reply_with (py "Done.")).

Definition message_class : chat.message -> str := fun _ => py "AIMessage".

(** The theorem applies: the second query fails, the others are
    answered. *)
Lemma every_demo_query_is_run_witness :
  exists chunks,
    fst (basic_agent.demo_mode reference_runtime (Return tt) message_class moody_agent
           empty_world)
    = Return tt
    /\ stdout (snd (basic_agent.demo_mode reference_runtime (Return tt) message_class
                      moody_agent empty_world))
       = stdout empty_world ++ chunks
    /\ filter is_demo_heading chunks
       = map demo_heading (basic_agent.enumerate 1 basic_agent.demo_queries).
Proof.
  apply (every_demo_query_is_run reference_runtime message_class moody_agent
           empty_world).
  intros q e I R. unfold moody_agent in R.
  destruct (PyStr.startswith (py "Calculate") q); [|discriminate R].
  injection R as <-. reflexivity.
Defined.

(** X28.  The demo shows at most 200 characters of an answer: a text of
    up to 200 characters is shown whole, and of a longer one the first
    200 characters are shown, followed by three dots. *)
Theorem demo_answers_are_cut (rt : runtime) (class_name : chat.message -> str)
    (m : chat.message) (ms : list chat.message) (answer : str) (w : world) :
  chat.content (last ms m) = Some (VStr answer) ->
  basic_agent.demo_answer rt class_name (Some (m :: ms)) w
  = (Return tt,
     printed w
       [line (py "🤖 Response: "
                ++ (if (List.length answer <=? 200)%nat then answer
                    else firstn 200 answer ++ py "..."))]).
Proof.
  intros C. unfold basic_agent.demo_answer. rewrite C.
  unfold bind, lift, slice_to, len, to_str, print, write. cbv beta iota.
  destruct (List.length answer <=? 200)%nat eqn:L.
  - apply Nat.leb_le in L.
    replace (200 <? List.length answer)%nat with false
      by (symmetry; apply Nat.ltb_ge; exact L).
    rewrite (firstn_all2 answer L), app_nil_r. reflexivity.
  - apply Nat.leb_gt in L.
    replace (200 <? List.length answer)%nat with true
      by (symmetry; apply Nat.ltb_lt; exact L).
    reflexivity.
Qed.

(** The theorem applies: an answer of 205 characters. *)
Lemma demo_answers_are_cut_witness :
  basic_agent.demo_answer reference_runtime message_class
    (reply_with (PyStr.replicate 205 120)) empty_world
  = (Return tt,
     printed empty_world
       [line (py "🤖 Response: "
                ++ (if (List.length (PyStr.replicate 205 120) <=? 200)%nat
                    then PyStr.replicate 205 120
                    else firstn 200 (PyStr.replicate 205 120) ++ py "..."))]).
Proof.
  refine (demo_answers_are_cut reference_runtime message_class _ []
            (PyStr.replicate 205 120) empty_world _).
  reflexivity.
Defined.
